(** * AURA frontend: HTTP client, session store, table widget, register page

    A shallow embedding of the script modules of the AURA web frontend
    ([frontend/js/api.js], [frontend/js/auth.js], the table component and
    the register page controller) and the properties of them that the
    design note states.

    Conventions of the embedding.
    - A script value is a [JS.value].  Numbers are the integer-valued ones
      and [NaN].  The integers up to [JS.MAX_SAFE_INTEGER] in magnitude are the ones a
      script represents exactly, computes with exactly and prints in plain
      decimal notation; statements about what the scripts read from a
      number or a numeral say so where they depend on that range.
    - A script string is a [string] holding its UTF-8 encoding.
      [JS.str_length] counts the UTF-16 code units that the script's
      [length] counts, and the white space of [trim], [parseInt] and the
      pattern class [\s] is the set [JS.WHITE_SPACE] of encoded characters.
    - [localStorage] is a finite map from key to string.
    - Code that throws returns a [JS.completion]; a promise is represented
      by the way it settles ([JS.settlement]). *)

From Stdlib Require Import ZArith List Bool Ascii String Lia.
From stdpp Require Import base tactics option list strings pretty gmap.

Set Warnings "-register-all".

Local Open Scope string_scope.
Local Open Scope Z_scope.

(** ** Script values *)

Module JS.

Inductive value : Type :=
| VUndef
| VNull
| VBool (b : bool)
| VNum (z : Z)
| VNaN
| VStr (s : string)
| VArr (elems : list value)
| VObj (props : list (string * value))
| VNative (name : string).

(** [VNum z] is the number with the integer value [z], [VNaN] the number
    [NaN].  [VObj] lists the own enumerable properties in enumeration
    order.  [VNative n] is the built-in function object named [n]. *)

Inductive exn : Type :=
| Error (message : string)
| TypeError.

Inductive completion (A : Type) : Type :=
| Normal (a : A)
| Throw (e : exn).
Arguments Normal {A} a.
Arguments Throw {A} e.

(** Sequencing of code that may throw, written [x ← c; k]. *)
#[global] Instance completion_ret : MRet completion := fun A a => Normal a.
#[global] Instance completion_bind : MBind completion := fun A B k c =>
  match c with
  | Normal a => k a
  | Throw e => Throw e
  end.

Inductive settlement : Type :=
| Resolved (v : value)
| Rejected (e : exn).

(** [Boolean(v)] *)
Definition truthy (v : value) : bool :=
  match v with
  | VUndef | VNull | VNaN => false
  | VBool b => b
  | VNum z => negb (z =? 0)
  | VStr s => negb (String.eqb s "")
  | VArr _ | VObj _ | VNative _ => true
  end.

(** [a || b] and [a && b] on values. *)
Definition or_else (a b : value) : value := if truthy a then a else b.
Definition and_then (a b : value) : value := if truthy a then b else a.

Definition is_nullish (v : value) : bool :=
  match v with
  | VUndef | VNull => true
  | _ => false
  end.

Definition join (sep : string) (parts : list string) : string :=
  String.concat sep parts.

(** [String(v)].  A number prints as its plain decimal numeral, which is
    how a script prints the integers it holds exactly (up to
    [MAX_SAFE_INTEGER] in magnitude, defined below).  Inside an array,
    [null] and [undefined] print as the empty string.  A built-in function
    prints the way V8 prints it. *)
Fixpoint to_string (v : value) : string :=
  match v with
  | VUndef => "undefined"
  | VNull => "null"
  | VBool true => "true"
  | VBool false => "false"
  | VNum z => pretty z
  | VNaN => "NaN"
  | VStr s => s
  | VArr l =>
      join "," (List.map (fun e => match e with
                                   | VUndef | VNull => ""
                                   | _ => to_string e
                                   end) l)
  | VObj _ => "[object Object]"
  | VNative n => "function " +:+ n +:+ "() { [native code] }"
  end.

(** The string an array element contributes to [Array.prototype.join]. *)
Definition join_item (e : value) : string :=
  if is_nullish e then "" else to_string e.

Fixpoint assoc (k : string) (props : list (string * value)) : option value :=
  match props with
  | [] => None
  | (k', v) :: rest => if String.eqb k k' then Some v else assoc k rest
  end.

(** [v.k] for a receiver the code has already tested to be truthy and a
    name [k] that no built-in prototype defines ([message], [error],
    [data], [access_token], ...). *)
Definition field (v : value) (k : string) : value :=
  match v with
  | VObj props => default VUndef (assoc k props)
  | _ => VUndef
  end.

(** [v.k] on an unguarded receiver: reading a property of [null] or
    [undefined] throws. *)
Definition get (v : value) (k : string) : completion value :=
  if is_nullish v then Throw TypeError else Normal (field v k).

Definition OBJECT_PROTOTYPE_METHODS : list string :=
  ["hasOwnProperty"; "isPrototypeOf"; "propertyIsEnumerable";
   "toLocaleString"; "toString"; "valueOf";
   "__defineGetter__"; "__defineSetter__";
   "__lookupGetter__"; "__lookupSetter__"].

(** What [Object.prototype] contributes to every object literal. *)
Definition object_prototype (k : string) : option value :=
  if String.eqb k "constructor" then Some (VNative "Object")
  else if String.eqb k "__proto__" then Some (VObj [])
  else if existsb (String.eqb k) OBJECT_PROTOTYPE_METHODS then Some (VNative k)
  else None.

(** [lit[key]] where [lit] is an object literal with own properties
    [props]: the key is converted to a string, own properties are found
    first, then the ones inherited from [Object.prototype]. *)
Definition index (props : list (string * value)) (key : value) : value :=
  let k := to_string key in
  match assoc k props with
  | Some v => v
  | None => default VUndef (object_prototype k)
  end.

(** [typeof v === 'object'] *)
Definition typeof_object (v : value) : bool :=
  match v with
  | VNull | VArr _ | VObj _ => true
  | _ => false
  end.

(** [Object.values(v)] for an array or object. *)
Definition object_values (v : value) : list value :=
  match v with
  | VArr l => l
  | VObj props => List.map snd props
  | _ => []
  end.

(** [arr.flat()] : one level. *)
Definition flat (l : list value) : list value :=
  List.flat_map (fun e => match e with
                          | VArr inner => inner
                          | _ => [e]
                          end) l.

(** [hay.indexOf(needle) !== -1] on strings. *)
Fixpoint prefix_of (p s : string) : bool :=
  match p, s with
  | EmptyString, _ => true
  | String a p', String b s' => Ascii.eqb a b && prefix_of p' s'
  | String _ _, EmptyString => false
  end.

Fixpoint contains (needle hay : string) : bool :=
  prefix_of needle hay ||
  match hay with
  | EmptyString => false
  | String _ rest => contains needle rest
  end.

Definition value_is_str (s : string) (v : value) : bool :=
  match v with
  | VStr t => String.eqb s t
  | _ => false
  end.

(** [recv.indexOf(needle) !== -1]: strings search for a substring, arrays
    for an element; other values have no [indexOf] method. *)
Definition has_index_of (recv : value) (needle : string) : completion bool :=
  match recv with
  | VStr s => Normal (contains needle s)
  | VArr l => Normal (existsb (value_is_str needle) l)
  | _ => Throw TypeError
  end.

(** [a + b] when [b] is a string. *)
Definition concat_str (a : value) (b : string) : string := to_string a +:+ b.

(** *** Strings, by their UTF-8 encoding *)

Definition utf8 (bytes : list nat) : string :=
  string_of_list_ascii (List.map ascii_of_nat bytes).

(** The UTF-16 code units that the character beginning with byte [c]
    contributes to [s.length]: a continuation byte contributes none, the
    first byte of a four-byte sequence (a character outside the basic
    plane, a surrogate pair for the script) two, any other byte one. *)
Definition code_units (c : ascii) : nat :=
  let n := nat_of_ascii c in
  if ((128 <=? n) && (n <? 192))%nat then 0%nat
  else if (240 <=? n)%nat then 2%nat
  else 1%nat.

(** [s.length] *)
Fixpoint str_length (s : string) : nat :=
  match s with
  | EmptyString => 0%nat
  | String c rest => (code_units c + str_length rest)%nat
  end.

(** The white space of [trim], of [parseInt] and of the pattern class
    [\s]: U+0009 to U+000D, U+0020, U+00A0, U+1680, U+2000 to U+200A,
    U+2028, U+2029, U+202F, U+205F, U+3000 and U+FEFF. *)
Definition WHITE_SPACE : list string :=
  List.map utf8
    (List.app
       [[9]; [10]; [11]; [12]; [13]; [32]; [194; 160]; [225; 154; 128]]
       (List.app
          (List.map (fun k => [226; 128; k]) (seq 128 11))
          [[226; 128; 168]; [226; 128; 169]; [226; 128; 175]; [226; 129; 159];
           [227; 128; 128]; [239; 187; 191]]))%nat.

(** The number of bytes of the white-space character that [s] begins
    with; [0] when it begins with none. *)
Definition space_width (s : string) : nat :=
  match List.find (fun w => prefix_of w s) WHITE_SPACE with
  | Some w => String.length w
  | None => 0%nat
  end.

(** *** [parseInt(v, 10)] *)

Definition digit_of (c : ascii) : option Z :=
  let n := nat_of_ascii c in
  if ((48 <=? n) && (n <=? 57))%nat then Some (Z.of_nat n - 48) else None.

(** Drops the leading white space of [s]; [inside] is the number of bytes
    still to drop of the white-space character being skipped. *)
Fixpoint drop_spaces (inside : nat) (s : string) : string :=
  match s with
  | EmptyString => EmptyString
  | String _ rest =>
      match inside with
      | S k => drop_spaces k rest
      | O =>
          match space_width s with
          | S k => drop_spaces k rest
          | O => s
          end
      end
  end.

Definition skip_spaces (s : string) : string := drop_spaces 0 s.

(** Reads the longest run of digits, [acc] being the number read so far;
    [None] when there is no digit at all. *)
Fixpoint digits (acc : option Z) (s : string) : option Z :=
  match s with
  | String c rest =>
      match digit_of c with
      | Some d => digits (Some (10 * default 0 acc + d)) rest
      | None => acc
      end
  | EmptyString => acc
  end.

(** [None] stands for [NaN]. *)
Definition parseInt_string (s : string) : option Z :=
  match skip_spaces s with
  | String "-" rest => Z.opp <$> digits None rest
  | String "+" rest => digits None rest
  | t => digits None t
  end.

Definition parseInt (v : value) : option Z := parseInt_string (to_string v).

(** [x || d] for a number [x] that may be [NaN]: [NaN] and [0] are falsy. *)
Definition num_or (x : option Z) (d : Z) : Z :=
  match x with
  | Some z => if z =? 0 then d else z
  | None => d
  end.

Definition is_digit (c : ascii) : bool :=
  match digit_of c with
  | Some _ => true
  | None => false
  end.

(** A string that begins with a digit. *)
Definition digit_head (s : string) : bool :=
  match s with
  | String c _ => is_digit c
  | EmptyString => false
  end.

(** A string that begins like a decimal numeral: with a digit or a sign. *)
Definition numeric_head (s : string) : bool :=
  match s with
  | String c _ => is_digit c || Ascii.eqb c "-"
  | EmptyString => false
  end.

(** [s.trim()] *)

(** Whether [s] is white space throughout. *)
Definition blank (s : string) : bool := String.eqb (skip_spaces s) "".

(** Cuts [s] where its trailing white space begins. *)
Fixpoint trim_end (s : string) : string :=
  match s with
  | EmptyString => EmptyString
  | String c rest => if blank s then EmptyString else String c (trim_end rest)
  end.

Definition trim (s : string) : string := trim_end (skip_spaces s).

(** *** Safe integers *)

(** [Number.MAX_SAFE_INTEGER] *)
Definition MAX_SAFE_INTEGER : Z := 2 ^ 53 - 1.

(** [Number.isSafeInteger(z)] *)
Definition safe_integer (z : Z) : bool :=
  (- MAX_SAFE_INTEGER <=? z) && (z <=? MAX_SAFE_INTEGER).

(** A reading of [parseInt] that a script number holds exactly: [NaN], or
    a safe integer. *)
Definition safe_reading (x : option Z) : bool :=
  match x with
  | Some z => safe_integer z
  | None => true
  end.

(** [arr.slice(from, upto)] *)
Definition slice {A} (from upto : Z) (l : list A) : list A :=
  let len := Z.of_nat (length l) in
  let k := if from <? 0 then Z.max (len + from) 0 else Z.min from len in
  let fin := if upto <? 0 then Z.max (len + upto) 0 else Z.min upto len in
  take (Z.to_nat (Z.max (fin - k) 0)) (drop (Z.to_nat k) l).

End JS.

Import JS.

(** ** Configuration ([frontend/js/config.js]) *)

Module Config.

Definition TOKEN : string := "aura_access_token".
Definition REFRESH_TOKEN : string := "aura_refresh_token".
Definition USER : string := "aura_user".
Definition ROLE : string := "aura_role".

Definition DEFAULT_PAGE_SIZE : Z := 10.

End Config.

(** [localStorage.getItem] returns [null] for an absent key. *)
Definition getItem (storage : gmap string string) (key : string) : value :=
  match storage !! key with
  | Some s => VStr s
  | None => VNull
  end.

(** [localStorage.setItem] stores the string conversion of the value. *)
Definition setItem (storage : gmap string string) (key : string) (v : value)
  : gmap string string :=
  <[key := to_string v]> storage.

(** ** HTTP client ([frontend/js/api.js]) *)

Module Api.

Definition MSG_INVALID_DATA : string := "Dữ liệu không hợp lệ.".
Definition MSG_LOGIN_AGAIN : string := " Vui lòng đăng nhập lại.".
Definition MSG_BAD_CREDENTIALS : string := "Email hoặc mật khẩu không đúng.".
Definition MSG_EMAIL_TAKEN : string := "Email này đã được đăng ký.".
Definition MSG_UPDATING : string := "Chức năng đang được cập nhật.".
Definition MSG_SERVER_ERROR : string := "Lỗi máy chủ. Vui lòng thử lại sau.".
Definition MSG_REQUEST_FAILED : string := "Yêu cầu thất bại. Vui lòng thử lại.".

(** What [fetch] hands back: the status line and the outcome of
    [res.json()], [None] when the body does not parse. *)
Record response : Type := { status : Z; json : option value }.

(** [res.ok] *)
Definition ok (res : response) : bool :=
  (200 <=? status res) && (status res <=? 299).

Inductive fetch_result : Type :=
| NetworkFailure
| Responded (res : response).

Record fetch_options : Type :=
  { opt_method : string;
    opt_headers : list (string * string);
    opt_body : option string }.

Definition getHeaders (storage : gmap string string) (includeAuth : bool)
  : list (string * string) :=
  let headers := [("Content-Type", "application/json")] in
  if includeAuth then
    let token := getItem storage Config.TOKEN in
    if truthy token
    then headers ++ [("Authorization", "Bearer " +:+ to_string token)]
    else headers
  else headers.

(** The candidate messages of the 422 branch:
    [typeof err === 'object' ? Object.values(err).flat() : [err]]. *)
Definition error_parts (err : value) : list value :=
  if typeof_object err then flat (object_values err) else [err].

Definition parseErrorMessage (status : Z) (data : value) : completion value :=
  if truthy (and_then data (field data "message")) then
    Normal (field data "message")
  else if truthy (and_then data (field data "error")) then
    Normal (field data "error")
  else if (status =? 422) && truthy (and_then data (field data "errors")) then
    let parts := error_parts (field data "errors") in
    Normal (or_else
              (VStr (join ". " (List.map join_item (List.filter truthy parts))))
              (VStr MSG_INVALID_DATA))
  else if status =? 401 then
    if truthy (and_then data (field data "message")) then
      has_token ← has_index_of (field data "message") "token";
      mentions ← (if has_token : bool then Normal true
                  else has_index_of (field data "message") "Authentication");
      if mentions : bool
      then Normal (VStr (concat_str (field data "message") MSG_LOGIN_AGAIN))
      else Normal (VStr MSG_BAD_CREDENTIALS)
    else Normal (VStr MSG_BAD_CREDENTIALS)
  else if status =? 409 then Normal (VStr MSG_EMAIL_TAKEN)
  else if status =? 501 then
    m ← get data "message"; Normal (or_else m (VStr MSG_UPDATING))
  else if 500 <=? status then
    m ← get data "message"; Normal (or_else m (VStr MSG_SERVER_ERROR))
  else
    m ← get data "message"; Normal (or_else m (VStr MSG_REQUEST_FAILED)).

(** The text of the 422 branch, for the value [err] of [data.errors]:
    [parts.filter(Boolean).join('. ') || 'Dữ liệu không hợp lệ.']. *)
Definition errors_text (err : value) : value :=
  or_else (VStr (join ". " (List.map join_item (List.filter truthy (error_parts err)))))
          (VStr MSG_INVALID_DATA).

(** [new Error(v).message] *)
Definition error_message (v : value) : string :=
  match v with
  | VUndef => ""
  | _ => to_string v
  end.

Section Request.

(** The resolved base address, the platform's serialiser and the network. *)
Variable API_BASE : string.
Variable JSON_stringify : value -> string.
Variable fetch : string -> fetch_options -> fetch_result.

Definition MSG_UNREACHABLE : string :=
  "Không thể kết nối máy chủ. Kiểm tra backend đã chạy tại " +:+ API_BASE
  +:+ " chưa.".

Definition sends_body (method : string) : bool :=
  String.eqb method "POST" || String.eqb method "PUT" || String.eqb method "PATCH".

Definition request_options (storage : gmap string string)
    (method : string) (body : value) (useAuth : bool) : fetch_options :=
  {| opt_method := method;
     opt_headers := getHeaders storage useAuth;
     opt_body := if truthy body && sends_body method
                 then Some (JSON_stringify body) else None |}.

(** What the network answers to the request. *)
Definition fetched (storage : gmap string string)
    (method path : string) (body : value) (useAuth : bool) : fetch_result :=
  fetch (API_BASE +:+ path) (request_options storage method body useAuth).

Definition request (storage : gmap string string)
    (method path : string) (body : value) (useAuth : bool) : settlement :=
  match fetched storage method path body useAuth with
  | NetworkFailure => Rejected (Error MSG_UNREACHABLE)
  | Responded res =>
      let data := default (VObj []) (json res) in
      if negb (ok res) then
        match parseErrorMessage (status res) data with
        | Normal m => Rejected (Error (error_message m))
        | Throw e => Rejected e
        end
      else Resolved data
  end.

(** [register(payload)] and [login(credentials)] do not send the token. *)
Definition register (storage : gmap string string) (payload : value) : settlement :=
  request storage "POST" "/api/auth/register" payload false.

Definition login (storage : gmap string string) (credentials : value) : settlement :=
  request storage "POST" "/api/auth/login" credentials false.

End Request.

End Api.

(** ** Session store ([frontend/js/auth.js]) *)

Module Auth.

(** The part of the window the session store touches.  [href] records the
    address last assigned to [window.location.href], if any.  [configured]
    tells whether the configuration script had defined
    [window.AURA_CONFIG.STORAGE_KEYS] when the session store was loaded. *)
Record browser : Type :=
  { storage : gmap string string;
    origin : string;
    pathname : string;
    href : option string;
    configured : bool }.

Definition with_storage (b : browser) (s : gmap string string) : browser :=
  {| storage := s; origin := origin b; pathname := pathname b; href := href b;
     configured := configured b |}.

Definition navigate (b : browser) (url : string) : browser :=
  {| storage := storage b; origin := origin b; pathname := pathname b;
     href := Some url; configured := configured b |}.

(** [KEYS.TOKEN], [KEYS.USER] and [KEYS.ROLE] are the keys of [Config] in
    the key table of the configuration and in the table the script falls
    back on without one.  [KEYS.REFRESH_TOKEN] is defined by the
    configuration only. *)
Definition KEYS_REFRESH_TOKEN (b : browser) : option string :=
  if configured b then Some Config.REFRESH_TOKEN else None.

Definition nonempty (s : string) : bool := negb (String.eqb s "").

Definition getToken (b : browser) : value := getItem (storage b) Config.TOKEN.

Definition getRole (b : browser) : string :=
  to_string (or_else (getItem (storage b) Config.ROLE) (VStr "")).

Definition isLoggedIn (b : browser) : bool := truthy (getToken b).

Definition clearAuth (b : browser) : browser :=
  let s := delete Config.TOKEN (storage b) in
  let s := match KEYS_REFRESH_TOKEN b with
           | Some k => if nonempty k then delete k s else s
           | None => s
           end in
  with_storage b (delete Config.ROLE (delete Config.USER s)).

(** *** Path helpers *)

(** [s.split('/')] *)
Fixpoint split_slash (s : string) : list string :=
  match s with
  | EmptyString => [EmptyString]
  | String c rest =>
      if Ascii.eqb c "/" then EmptyString :: split_slash rest
      else match split_slash rest with
           | seg :: segs => String c seg :: segs
           | [] => [String c EmptyString]
           end
  end.

(** The text before and after the last ['/'] of [s]. *)
Fixpoint split_last_slash (s : string) : option (string * string) :=
  match s with
  | EmptyString => None
  | String c rest =>
      match split_last_slash rest with
      | Some (before, after) => Some (String c before, after)
      | None => if Ascii.eqb c "/" then Some (EmptyString, rest) else None
      end
  end.

(** [s.replace(/\/[^/]*$/, '')] *)
Definition drop_last_segment (s : string) : string :=
  match split_last_slash s with
  | Some (before, _) => before
  | None => s
  end.

(** [s.replace(/\/[^/]+$/, '')] *)
Definition drop_last_nonempty_segment (s : string) : string :=
  match split_last_slash s with
  | Some (before, after) => if nonempty after then before else s
  | None => s
  end.

Definition ROLE_SEGMENTS : list string := ["patient"; "doctor"; "admin"; "clinic"].

Definition login_under (org : string) (segments : list string) : string :=
  let base := join "/" segments in
  org +:+ (if nonempty base then "/" +:+ base +:+ "/" else "/") +:+ "login.html".

Definition getLoginPageUrl (b : browser) : string :=
  let path := if nonempty (pathname b) then pathname b else "/" in
  let segments := List.filter nonempty (split_slash path) in
  let n := Z.of_nat (length segments) in
  if (2 <=? n) &&
     bool_decide (default "" (segments !! Z.to_nat (n - 2)) ∈ ROLE_SEGMENTS)
  then login_under (origin b) (slice 0 (-2) segments)
  else if 1 <=? n then login_under (origin b) (slice 0 (-1) segments)
  else origin b +:+ "/login.html".

Definition requireLogin (loginUrl : value) (b : browser) : bool * browser :=
  if negb (isLoggedIn b) then
    (false, navigate b (to_string (or_else loginUrl (VStr (getLoginPageUrl b)))))
  else (true, b).

(** *** Role gate *)

Definition DASHBOARDS : list (string * value) :=
  [("Patient", VStr "patient/dashboard.html");
   ("Doctor", VStr "doctor/dashboard.html");
   ("ClinicManager", VStr "clinic/dashboard.html");
   ("Admin", VStr "admin/dashboard.html")].

Definition under (parent : string) (rel : value) : string :=
  (if nonempty parent then parent +:+ "/" else "/") +:+ to_string rel.

Definition requireRole (allowedRole : string) (b : browser) : bool * browser :=
  let '(logged, b1) := requireLogin VUndef b in
  if negb logged then (false, b1)
  else
    let role := getRole b1 in
    if negb (String.eqb role allowedRole) then
      let parent := drop_last_nonempty_segment (drop_last_segment (pathname b1)) in
      let rel := or_else (index DASHBOARDS (VStr role)) (VStr "index.html") in
      let fullPath := under parent rel in
      (false, navigate b1 (origin b1 +:+ fullPath))
    else (true, b1).

Definition redirectByRole (b : browser) : browser :=
  let role := getRole b in
  let path := or_else (index DASHBOARDS (VStr role)) (VStr "index.html") in
  let basePath := drop_last_segment (pathname b) in
  let fullPath := under basePath path in
  navigate b (if nonempty (origin b) then origin b +:+ fullPath else fullPath).

(** *** Storing a login or registration response *)

Definition ROLE_NAMES : list (string * value) :=
  [("1", VStr "Admin"); ("2", VStr "Doctor");
   ("3", VStr "Patient"); ("4", VStr "ClinicManager")].

Definition getRoleNameByRoleId (roleId : value) : value :=
  or_else (index ROLE_NAMES roleId) (VStr "").

Section Persist.

Variable JSON_stringify : value -> string.

Definition setAuth (token user role : value) (s : gmap string string)
  : gmap string string :=
  let s1 := if truthy token then setItem s Config.TOKEN token else s in
  let s2 := if truthy user
            then setItem s1 Config.USER (VStr (JSON_stringify user)) else s1 in
  if truthy role then setItem s2 Config.ROLE role else s2.

(** [responseData && responseData.data ? responseData.data : responseData] *)
Definition payload (responseData : value) : value :=
  if truthy (and_then responseData (field responseData "data"))
  then field responseData "data"
  else responseData.

(** [{ account_id: data.account_id, email: data.email, ... }] *)
Definition user_record (data : value) : value :=
  VObj [("account_id", field data "account_id");
        ("email", field data "email");
        ("role_id", field data "role_id");
        ("clinic_id", field data "clinic_id")].

Definition setAuthFromResponse (responseData : value) (s : gmap string string)
  : bool * gmap string string :=
  let data := payload responseData in
  if negb (truthy data) || negb (truthy (field data "access_token")) then (false, s)
  else
    let user := user_record data in
    let roleName := getRoleNameByRoleId (field data "role_id") in
    (true, setAuth (field data "access_token") user roleName s).

End Persist.

End Auth.

(** ** Paginated table widget (the table component) *)

Module Table.

Inductive pager_item : Type :=
| Prev (disabled : bool) (page : Z)
| PageLink (active : bool) (page : Z)
| Ellipsis
| Next (disabled : bool) (page : Z).

(** The summary line shows [first]–[last] / [total]. *)
Record pager : Type :=
  { first_shown : Z; last_shown : Z; total_shown : Z; items : list pager_item }.

(** The markup written into the container, by its parts: header cells,
    body rows of cells, and the pager when there is one. *)
Record view : Type :=
  { thead : list string; tbody : list (list string); nav : option pager }.

(** [Math.ceil(a / b)] for [0 <= a] and [0 < b]. *)
Definition ceil_div (a b : Z) : Z := (a + b - 1) / b.

(** The numbers [render] computes before it writes any markup. *)
Record paging : Type :=
  { pageSize : Z; currentPage : Z; totalPages : Z; start : Z }.

Definition paginate (total : Z) (optPageSize optCurrentPage : value) : paging :=
  let pageSize := Z.max 1 (num_or (parseInt optPageSize) 10) in
  let currentPage := Z.max 1 (num_or (parseInt optCurrentPage) 1) in
  let totalPages := Z.max 1 (ceil_div total pageSize) in
  let currentPage := Z.min currentPage totalPages in
  {| pageSize := pageSize; currentPage := currentPage;
     totalPages := totalPages; start := (currentPage - 1) * pageSize |}.

(** The pager markup of [render], emitted when [totalPages > 1]. *)
Definition pager_items (currentPage totalPages : Z) : list pager_item :=
  let from := Z.max 1 (currentPage - 2) in
  let to := Z.min totalPages (currentPage + 2) in
  [Prev (currentPage <=? 1) (currentPage - 1)]
  ++ (if 1 <? from then [PageLink false 1] else [])
  ++ (if 2 <? from then [Ellipsis] else [])
  ++ List.map (fun p => PageLink (p =? currentPage) p) (seqZ from (to - from + 1))
  ++ (if to <? totalPages - 1 then [Ellipsis] else [])
  ++ (if to <? totalPages then [PageLink false totalPages] else [])
  ++ [Next (totalPages <=? currentPage) (currentPage + 1)].

Section Render.

(** Rows are objects: [prop row k] reads [row[k]].  [dom_escape] is the
    browser's text-to-markup serialisation used by [escapeHtml]. *)
Variable Row : Type.
Variable prop : Row -> string -> value.
Variable dom_escape : string -> string.

Record column : Type :=
  { key : string;
    label : value;
    cell_render : option (value -> Row -> value) }.

Record options : Type :=
  { opt_columns : list column;
    opt_data : list Row;
    opt_pageSize : value;
    opt_currentPage : value }.

(** [total], [pageSize], [currentPage], [totalPages] and [start] of a call. *)
Definition paging_of (opts : options) : paging :=
  paginate (Z.of_nat (length (opt_data opts)))
           (opt_pageSize opts) (opt_currentPage opts).

Definition escapeHtml (v : value) : string :=
  if is_nullish v then "" else dom_escape (to_string v).

Definition header_cell (col : column) : string :=
  escapeHtml (or_else (label col) (VStr (key col))).

Definition body_cell (row : Row) (col : column) : string :=
  let val := prop row (key col) in
  let cell := match cell_render col with
              | Some f => f val row
              | None => VStr (escapeHtml val)
              end in
  match cell with
  | VStr s => s
  | _ => if is_nullish cell then "" else to_string cell
  end.

Definition render_view (opts : options) : view :=
  let columns := opt_columns opts in
  let data := opt_data opts in
  let total := Z.of_nat (length data) in
  let pg := paging_of opts in
  let pageData := slice (start pg) (start pg + pageSize pg) data in
  {| thead := List.map header_cell columns;
     tbody := List.map (fun row => List.map (body_cell row) columns) pageData;
     nav := if 1 <? totalPages pg then
              Some {| first_shown := start pg + 1;
                      last_shown := Z.min (start pg + pageSize pg) total;
                      total_shown := total;
                      items := pager_items (currentPage pg) (totalPages pg) |}
            else None |}.

(** [render(containerId, options)]: a missing container leaves the
    document alone, otherwise the container's content is replaced. *)
Definition render (containerId : string) (opts : options)
    (document : gmap string view) : gmap string view :=
  match document !! containerId with
  | None => document
  | Some _ => <[containerId := render_view opts]> document
  end.

(** A click on a pager entry: disabled entries and the ellipsis do
    nothing, a link re-renders with the page it names and reports that
    page to [onPageChange]. *)
Definition clicked_page (it : pager_item) : option Z :=
  match it with
  | Prev false p | Next false p | PageLink _ p => Some p
  | Prev true _ | Next true _ | Ellipsis => None
  end.

Definition click (containerId : string) (opts : options) (it : pager_item)
    (document : gmap string view) : option Z * gmap string view :=
  match clicked_page it with
  | None => (None, document)
  | Some p =>
      let pg := paginate (Z.of_nat (length (opt_data opts)))
                         (opt_pageSize opts) (opt_currentPage opts) in
      (Some p,
       render containerId
         {| opt_columns := opt_columns opts; opt_data := opt_data opts;
            opt_pageSize := VNum (pageSize pg); opt_currentPage := VNum p |}
         document)
  end.

End Render.

Arguments key {Row} _.
Arguments label {Row} _.
Arguments cell_render {Row} _.
Arguments opt_columns {Row} _.
Arguments opt_data {Row} _.
Arguments opt_pageSize {Row} _.
Arguments opt_currentPage {Row} _.
Arguments paging_of {Row} _.

End Table.

(** ** Register page controller

    The page is taken with its elements present and with the scripts it
    relies on loaded ([AuraAPI], [AuraAuth], [AuraUtils]). *)

Module Register.

(** The values typed into the form. *)
Record form : Type :=
  { regEmail : string;
    regPassword : string;
    regConfirmPassword : string;
    regRole : string }.

(** One input with its feedback element: whether the input carries the
    [is-invalid] class, and the text of the feedback element. *)
Record field_ui : Type := { is_invalid : bool; feedback : string }.

Record page : Type :=
  { emailUI : field_ui;
    passwordUI : field_ui;
    confirmUI : field_ui;
    roleUI : field_ui;
    error_hidden : bool;
    error_text : string;
    loading : bool;
    toasts : list (string * string);
    calls : list value;
    window : Auth.browser }.

Definition MSG_EMAIL_REQUIRED : string := "Vui lòng nhập email.".
Definition MSG_EMAIL_INVALID : string := "Email không hợp lệ.".
Definition MSG_PASSWORD_SHORT : string := "Mật khẩu tối thiểu 6 ký tự.".
Definition MSG_CONFIRM_MISMATCH : string := "Mật khẩu không khớp.".
Definition MSG_ROLE_REQUIRED : string := "Vui lòng chọn vai trò.".
Definition MSG_REGISTER_FAILED : string := "Đăng ký thất bại.".
Definition MSG_REGISTER_RETRY : string := "Đăng ký thất bại. Vui lòng thử lại.".
Definition MSG_REGISTER_OK : string := "Đăng ký thành công.".
Definition MSG_BAD_RESPONSE : string := "Phản hồi từ server không hợp lệ.".
Definition MSG_NO_BACKEND : string :=
  "Không thể kết nối máy chủ. Kiểm tra backend đã chạy tại http://localhost:9999 chưa.".

Definition mark_invalid (text : string) (f : field_ui) : field_ui :=
  {| is_invalid := true; feedback := text |}.

(** [classList.remove('is-invalid')] leaves the feedback text in place. *)
Definition mark_valid (f : field_ui) : field_ui :=
  {| is_invalid := false; feedback := feedback f |}.

(** What the class [[^\s@]] excludes: the at sign and white space. *)
Definition EXCLUDED : list string := "@" :: WHITE_SPACE.

(** A run of [[^\s@]]: no excluded character occurs in [s]. *)
Definition all_plain (s : string) : bool :=
  forallb (fun w => negb (contains w s)) EXCLUDED.

(** The text before and after the first ['@']. *)
Fixpoint split_at_sign (s : string) : option (string * string) :=
  match s with
  | EmptyString => None
  | String c rest =>
      if Ascii.eqb c "@" then Some (EmptyString, rest)
      else match split_at_sign rest with
           | Some (a, b) => Some (String c a, b)
           | None => None
           end
  end.

(** Some ['.'] of [s] has a character before it and one after it. *)
Fixpoint inner_dot (s : string) : bool :=
  match s with
  | String _ (String c2 (String _ _) as rest) =>
      Ascii.eqb c2 "." || inner_dot rest
  | _ => false
  end.

(** [/^[^\s@]+@[^\s@]+\.[^\s@]+$/.test(s)] *)
Definition email_re_test (s : string) : bool :=
  match split_at_sign s with
  | Some (local, domain) =>
      Auth.nonempty local && all_plain local && all_plain domain && inner_dot domain
  | None => false
  end.

Definition validate_email (email : string) (f : field_ui) : field_ui * bool :=
  if negb (Auth.nonempty email) then (mark_invalid MSG_EMAIL_REQUIRED f, false)
  else if negb (email_re_test email) then (mark_invalid MSG_EMAIL_INVALID f, false)
  else (mark_valid f, true).

Definition validate_password (password : string) (f : field_ui) : field_ui * bool :=
  if Z.of_nat (str_length password) <? 6
  then (mark_invalid MSG_PASSWORD_SHORT f, false)
  else (mark_valid f, true).

Definition validate_confirm (password confirm : string) (f : field_ui)
  : field_ui * bool :=
  if negb (String.eqb password confirm)
  then (mark_invalid MSG_CONFIRM_MISMATCH f, false)
  else (mark_valid f, true).

Definition validate_role (roleId : string) (f : field_ui) : field_ui * bool :=
  if negb (Auth.nonempty roleId) then (mark_invalid MSG_ROLE_REQUIRED f, false)
  else (mark_valid f, true).

Definition set_fields (p : page) (e pw c r : field_ui) : page :=
  {| emailUI := e; passwordUI := pw; confirmUI := c; roleUI := r;
     error_hidden := error_hidden p; error_text := error_text p;
     loading := loading p; toasts := toasts p; calls := calls p;
     window := window p |}.

(** [validate()]: every field is checked, none short-circuits another. *)
Definition validate (f : form) (p : page) : bool * page :=
  let email := trim (regEmail f) in
  let '(e, ok1) := validate_email email (emailUI p) in
  let '(pw, ok2) := validate_password (regPassword f) (passwordUI p) in
  let '(c, ok3) := validate_confirm (regPassword f) (regConfirmPassword f) (confirmUI p) in
  let '(r, ok4) := validate_role (regRole f) (roleUI p) in
  (ok1 && ok2 && ok3 && ok4, set_fields p e pw c r).

Definition hideError (p : page) : page :=
  {| emailUI := emailUI p; passwordUI := passwordUI p; confirmUI := confirmUI p;
     roleUI := roleUI p; error_hidden := true; error_text := error_text p;
     loading := loading p; toasts := toasts p; calls := calls p;
     window := window p |}.

Definition showError (msg : value) (p : page) : page :=
  {| emailUI := emailUI p; passwordUI := passwordUI p; confirmUI := confirmUI p;
     roleUI := roleUI p; error_hidden := false;
     error_text := to_string (or_else msg (VStr MSG_REGISTER_FAILED));
     loading := loading p; toasts := toasts p; calls := calls p;
     window := window p |}.

Definition setLoading (l : bool) (p : page) : page :=
  {| emailUI := emailUI p; passwordUI := passwordUI p; confirmUI := confirmUI p;
     roleUI := roleUI p; error_hidden := error_hidden p; error_text := error_text p;
     loading := l; toasts := toasts p; calls := calls p; window := window p |}.

Definition showToast (msg kind : string) (p : page) : page :=
  {| emailUI := emailUI p; passwordUI := passwordUI p; confirmUI := confirmUI p;
     roleUI := roleUI p; error_hidden := error_hidden p; error_text := error_text p;
     loading := loading p; toasts := toasts p ++ [(msg, kind)]; calls := calls p;
     window := window p |}.

Definition record_call (payload : value) (p : page) : page :=
  {| emailUI := emailUI p; passwordUI := passwordUI p; confirmUI := confirmUI p;
     roleUI := roleUI p; error_hidden := error_hidden p; error_text := error_text p;
     loading := loading p; toasts := toasts p; calls := calls p ++ [payload];
     window := window p |}.

Definition set_window (w : Auth.browser) (p : page) : page :=
  {| emailUI := emailUI p; passwordUI := passwordUI p; confirmUI := confirmUI p;
     roleUI := roleUI p; error_hidden := error_hidden p; error_text := error_text p;
     loading := loading p; toasts := toasts p; calls := calls p; window := w |}.

(** The number that [parseInt] returns. *)
Definition number_value (n : option Z) : value :=
  match n with
  | Some z => VNum z
  | None => VNaN
  end.

Definition register_payload (f : form) : value :=
  VObj [("email", VStr (trim (regEmail f)));
        ("password", VStr (regPassword f));
        ("role_id", number_value (parseInt_string (regRole f)))].

Definition connection_trouble (msg : string) : bool :=
  contains "Failed to fetch" msg || contains "NetworkError" msg
  || contains "Load failed" msg.

(** [err.message] of the exception caught.  A [TypeError] raised by the
    engine carries the engine's own text, [type_error_text]. *)
Definition exn_message (type_error_text : string) (e : exn) : string :=
  match e with
  | Error m => m
  | TypeError => type_error_text
  end.

Section Submit.

Variable JSON_stringify : value -> string.

(** The text the engine gives to the [TypeError] of reading a property of
    [null]. *)
Variable type_error_text : string.

(** [register_api] is [AuraAPI.register] with the network behind it: the
    way the request for a given payload settles. *)
Variable register_api : value -> settlement.

(** The submit handler, run to completion. *)
Definition submit (f : form) (p : page) : page :=
  let p := hideError p in
  let '(valid, p) := validate f p in
  if negb valid then p
  else
    let p := setLoading true p in
    let payload := register_payload f in
    let p := record_call payload p in
    let p :=
      match register_api payload with
      | Resolved res =>
          let '(stored, s) :=
            Auth.setAuthFromResponse JSON_stringify res (Auth.storage (window p)) in
          let p := set_window (Auth.with_storage (window p) s) p in
          if stored then
            let p := showToast MSG_REGISTER_OK "success" p in
            set_window (Auth.redirectByRole (window p)) p
          else showError (VStr MSG_BAD_RESPONSE) p
      | Rejected err =>
          let msg := if Auth.nonempty (exn_message type_error_text err)
                     then exn_message type_error_text err
                     else MSG_REGISTER_RETRY in
          let msg := if connection_trouble msg then MSG_NO_BACKEND else msg in
          showError (VStr msg) p
      end in
    setLoading false p.

End Submit.

End Register.

(** ** API base address ([frontend/js/config.js]) *)

Module BaseUrl.

Definition LOCAL_BACKEND : string := "http://localhost:9999".

(** [API_BASE_URL], from the origin [o] of the window. *)
Definition API_BASE_URL (o : string) : string :=
  if negb (Auth.nonempty o) || String.eqb o "null"
     || contains "localhost" o || contains "127.0.0.1" o
  then LOCAL_BACKEND
  else o.

End BaseUrl.

(** ** API calls (the wrappers of [frontend/js/api.js]) *)

Module ApiCalls.

(** [const res = await request(...); return res.data;] *)
Definition data_of (s : settlement) : settlement :=
  match s with
  | Resolved res =>
      match get res "data" with
      | Normal v => Resolved v
      | Throw e => Rejected e
      end
  | Rejected e => Rejected e
  end.

Section Calls.

Variable API_BASE : string.
Variable JSON_stringify : value -> string.
Variable fetch : string -> Api.fetch_options -> Api.fetch_result.
Variable storage : gmap string string.

(** [request(method, path, body = null, useAuth = true)] *)
Definition request (method path : string) (body : value) (useAuth : bool) : settlement :=
  Api.request API_BASE JSON_stringify fetch storage method path body useAuth.

(** [AuraAPI.get], [.post], [.put], [.patch], [.delete] *)
Definition api_get (path : string) : settlement := request "GET" path VNull true.
Definition api_post (path : string) (body : value) : settlement := request "POST" path body true.
Definition api_put (path : string) (body : value) : settlement := request "PUT" path body true.
Definition api_patch (path : string) (body : value) : settlement := request "PATCH" path body true.
Definition api_delete (path : string) : settlement := request "DELETE" path VNull true.

Definition forgotPassword (email : value) : settlement :=
  request "POST" "/api/auth/forgot-password" (VObj [("email", email)]) false.

Definition resetPassword (token newPassword : value) : settlement :=
  request "POST" "/api/auth/reset-password"
    (VObj [("token", token); ("new_password", newPassword)]) false.

Definition getPatientByAccount (accountId : value) : settlement :=
  data_of (request "GET" ("/api/patients/account/" +:+ to_string accountId) VNull true).

Definition getPatient (patientId : value) : settlement :=
  data_of (request "GET" ("/api/patients/" +:+ to_string patientId) VNull true).

Definition createPatient (payload : value) : settlement :=
  data_of (request "POST" "/api/patients" payload true).

Definition updatePatient (patientId payload : value) : settlement :=
  data_of (request "PUT" ("/api/patients/" +:+ to_string patientId) payload true).

Definition getReportsByPatient (patientId limit : value) : settlement :=
  let path := "/api/medical-reports/patient/" +:+ to_string patientId in
  let path := if truthy limit then path +:+ "?limit=" +:+ to_string limit else path in
  data_of (request "GET" path VNull true).

Definition analyses_query (limit offset : value) : list string :=
  (if negb (is_nullish limit) then ["limit=" +:+ to_string limit] else [])
  ++ (if negb (is_nullish offset) then ["offset=" +:+ to_string offset] else []).

Definition analyses_path (patientId limit offset : value) : string :=
  let path := "/api/ai-analysis/patient/" +:+ to_string patientId in
  let q := analyses_query limit offset in
  if (0 <? Z.of_nat (length q)) then path +:+ "?" +:+ join "&" q else path.

Definition getPatientAnalyses (patientId limit offset : value) : settlement :=
  data_of (request "GET" (analyses_path patientId limit offset) VNull true).

Definition approveReview (reviewId : value) : settlement :=
  data_of (request "PUT" ("/api/doctor-reviews/" +:+ to_string reviewId +:+ "/approve")
             VNull true).

Definition rejectReview (reviewId comment : value) : settlement :=
  data_of (request "PUT" ("/api/doctor-reviews/" +:+ to_string reviewId +:+ "/reject")
             (VObj [("comment", or_else comment (VStr ""))]) true).

End Calls.

End ApiCalls.

(** ** Login page controller ([frontend/js/pages/login.js])

    As for the register page, the elements of the page are present and
    the scripts it relies on are loaded. *)

Module Login.

Record form : Type := { email : string; password : string }.

Record page : Type :=
  { emailUI : Register.field_ui;
    passwordUI : Register.field_ui;
    error_hidden : bool;
    error_text : string;
    loading : bool;
    toasts : list (string * string);
    calls : list value;
    window : Auth.browser }.

Definition MSG_PASSWORD_REQUIRED : string := "Vui lòng nhập mật khẩu.".
Definition MSG_LOGIN_FAILED : string := "Đăng nhập thất bại.".
Definition MSG_LOGIN_OK : string := "Đăng nhập thành công.".

Definition validate_email (email : string) (f : Register.field_ui)
  : Register.field_ui * bool :=
  if negb (Auth.nonempty email)
  then (Register.mark_invalid Register.MSG_EMAIL_REQUIRED f, false)
  else if negb (Register.email_re_test email)
  then (Register.mark_invalid Register.MSG_EMAIL_INVALID f, false)
  else (Register.mark_valid f, true).

Definition validate_password (password : string) (f : Register.field_ui)
  : Register.field_ui * bool :=
  if negb (Auth.nonempty password)
  then (Register.mark_invalid MSG_PASSWORD_REQUIRED f, false)
  else (Register.mark_valid f, true).

Definition validate (f : form) (p : page) : bool * page :=
  let '(e, ok1) := validate_email (trim (email f)) (emailUI p) in
  let '(pw, ok2) := validate_password (password f) (passwordUI p) in
  (ok1 && ok2,
   {| emailUI := e; passwordUI := pw;
      error_hidden := error_hidden p; error_text := error_text p;
      loading := loading p; toasts := toasts p; calls := calls p;
      window := window p |}).

Definition hideError (p : page) : page :=
  {| emailUI := emailUI p; passwordUI := passwordUI p;
     error_hidden := true; error_text := error_text p;
     loading := loading p; toasts := toasts p; calls := calls p;
     window := window p |}.

Definition showError (msg : value) (p : page) : page :=
  {| emailUI := emailUI p; passwordUI := passwordUI p;
     error_hidden := false;
     error_text := to_string (or_else msg (VStr MSG_LOGIN_FAILED));
     loading := loading p; toasts := toasts p; calls := calls p;
     window := window p |}.

Definition setLoading (l : bool) (p : page) : page :=
  {| emailUI := emailUI p; passwordUI := passwordUI p;
     error_hidden := error_hidden p; error_text := error_text p;
     loading := l; toasts := toasts p; calls := calls p; window := window p |}.

Definition showToast (msg kind : string) (p : page) : page :=
  {| emailUI := emailUI p; passwordUI := passwordUI p;
     error_hidden := error_hidden p; error_text := error_text p;
     loading := loading p; toasts := toasts p ++ [(msg, kind)]; calls := calls p;
     window := window p |}.

Definition record_call (payload : value) (p : page) : page :=
  {| emailUI := emailUI p; passwordUI := passwordUI p;
     error_hidden := error_hidden p; error_text := error_text p;
     loading := loading p; toasts := toasts p; calls := calls p ++ [payload];
     window := window p |}.

Definition set_window (w : Auth.browser) (p : page) : page :=
  {| emailUI := emailUI p; passwordUI := passwordUI p;
     error_hidden := error_hidden p; error_text := error_text p;
     loading := loading p; toasts := toasts p; calls := calls p; window := w |}.

Definition credentials (f : form) : value :=
  VObj [("email", VStr (trim (email f))); ("password", VStr (password f))].

Section Submit.

Variable JSON_stringify : value -> string.
Variable type_error_text : string.

(** [login_api] is [AuraAPI.login] with the network behind it. *)
Variable login_api : value -> settlement.

(** The submit handler, run to completion. *)
Definition submit (f : form) (p : page) : page :=
  let p := hideError p in
  let '(valid, p) := validate f p in
  if negb valid then p
  else
    let p := setLoading true p in
    let payload := credentials f in
    let p := record_call payload p in
    let p :=
      match login_api payload with
      | Resolved res =>
          let '(stored, s) :=
            Auth.setAuthFromResponse JSON_stringify res (Auth.storage (window p)) in
          let p := set_window (Auth.with_storage (window p) s) p in
          if stored then
            let p := showToast MSG_LOGIN_OK "success" p in
            set_window (Auth.redirectByRole (window p)) p
          else showError (VStr Register.MSG_BAD_RESPONSE) p
      | Rejected err =>
          let msg := if Auth.nonempty (Register.exn_message type_error_text err)
                     then Register.exn_message type_error_text err
                     else Api.MSG_BAD_CREDENTIALS in
          let msg := if Register.connection_trouble msg
                     then Register.MSG_NO_BACKEND else msg in
          showError (VStr msg) p
      end in
    setLoading false p.

End Submit.

End Login.

(** ** Header: the logout control *)

Module Header.

(** The click handler of [headerLogout]: clear the session, then go to the
    login page. *)
Definition logout (b : Auth.browser) : Auth.browser :=
  let b1 := Auth.clearAuth b in
  Auth.navigate b1 (Auth.getLoginPageUrl b1).

End Header.

(** ** Loading overlay (the spinner component) *)

Module Spinner.

Definition OVERLAY_ID : string := "auraSpinnerOverlay".

Record element : Type :=
  { el_id : string; el_class : string; el_display : string }.

(** The document as the component sees it: every element by its handle
    (its index in [elements]), the children of [body] in document order,
    and the module variable [overlay]. *)
Record page : Type :=
  { elements : list element;
    body : list nat;
    overlay : option nat }.

Definition has_id (els : list element) (id : string) (h : nat) : bool :=
  match els !! h with
  | Some e => String.eqb (el_id e) id
  | None => false
  end.

(** [document.getElementById(id)] *)
Definition getElementById (p : page) (id : string) : option nat :=
  List.find (has_id (elements p) id) (body p).

Definition with_display (d : string) (e : element) : element :=
  {| el_id := el_id e; el_class := el_class e; el_display := d |}.

(** [el.style.display = d] *)
Definition set_display (h : nat) (d : string) (p : page) : page :=
  {| elements := alter (with_display d) h (elements p);
     body := body p;
     overlay := overlay p |}.

Definition OVERLAY_CLASS : string :=
  "position-fixed top-0 start-0 w-100 h-100 d-flex align-items-center justify-content-center".

Definition show (p : page) : page :=
  match overlay p, getElementById p OVERLAY_ID with
  | Some h, Some _ => set_display h "flex" p
  | _, _ =>
      let h := length (elements p) in
      {| elements := elements p ++ [{| el_id := OVERLAY_ID; el_class := OVERLAY_CLASS;
                                       el_display := "" |}];
         body := body p ++ [h];
         overlay := Some h |}
  end.

Definition hide (p : page) : page :=
  match getElementById p OVERLAY_ID with
  | Some h => set_display h "none" p
  | None => p
  end.

Inductive action : Type := Show | Hide.

Definition step (p : page) (a : action) : page :=
  match a with
  | Show => show p
  | Hide => hide p
  end.

Definition run (p : page) (actions : list action) : page :=
  List.fold_left step actions p.

(** The overlays of the document, and whether the first one covers the
    page. *)
Definition overlays (p : page) : list nat :=
  List.filter (has_id (elements p) OVERLAY_ID) (body p).

Definition covering (p : page) : bool :=
  match getElementById p OVERLAY_ID with
  | Some h =>
      match elements p !! h with
      | Some e => negb (String.eqb (el_display e) "none")
      | None => false
      end
  | None => false
  end.

(** A document whose children are elements that exist, before the
    component is used. *)
Definition fresh_page (p : page) : Prop :=
  Forall (fun h => (h < length (elements p))%nat) (body p) /\
  overlays p = [] /\ overlay p = None.

(** Whether [show] is among the calls made. *)
Definition shown (actions : list action) : bool :=
  existsb (fun a => match a with Show => true | Hide => false end) actions.

(** What every state [q] reached from a page [p0] satisfies; [was_shown]
    tells whether [show] has been called. *)
Definition invariant (p0 : page) (was_shown : bool) (q : page) : Prop :=
  Forall (fun h => (h < length (elements q))%nat) (body q) /\
  body q = (body p0 ++ overlays q)%list /\
  overlays q = match overlay q with Some h => [h] | None => [] end /\
  (overlay q = None <-> was_shown = false).

End Spinner.

(** ** Paths *)

Module Paths.

Fixpoint slash_free (s : string) : bool :=
  match s with
  | EmptyString => true
  | String c rest => negb (Ascii.eqb c "/") && slash_free rest
  end.

(** A path segment: a non-empty name without a slash. *)
Definition is_segment (s : string) : bool := Auth.nonempty s && slash_free s.

(** The absolute path with the given segments: [/a/b/c]. *)
Definition path_of (segments : list string) : string := "/" +:+ join "/" segments.

End Paths.

(** ** Pages of a table *)

Module Pages.


End Pages.

(** ** The design note's own tables and layouts

    The definitions of this module follow the words of the design note,
    not the scripts; the theorems below compare the two. *)

Module Spec.

(** Page URL contract: the role-to-dashboard-path table. *)
Definition dashboard_path (role : string) : option string :=
  if String.eqb role "Patient" then Some "patient/dashboard.html"
  else if String.eqb role "Doctor" then Some "doctor/dashboard.html"
  else if String.eqb role "ClinicManager" then Some "clinic/dashboard.html"
  else if String.eqb role "Admin" then Some "admin/dashboard.html"
  else None.

(** The dashboard of the role, or the index page of the application. *)
Definition landing_page (role : string) : string :=
  default "index.html" (dashboard_path role).

(** Role identifiers: 1=Admin, 2=Doctor, 3=Patient, 4=ClinicManager. *)
Definition role_name (id : Z) : option string :=
  if id =? 1 then Some "Admin"
  else if id =? 2 then Some "Doctor"
  else if id =? 3 then Some "Patient"
  else if id =? 4 then Some "ClinicManager"
  else None.

(** A page number is visible when it is the first page, the last page, or
    at most two pages away from the current one. *)
Definition visible (current last q : Z) : bool :=
  (q =? 1) || (q =? last) || ((current - 2 <=? q) && (q <=? current + 2)).

(** What the pager shows for page [q]: its number when visible, one
    ellipsis where a run of omitted pages begins, nothing further inside
    that run. *)
Definition page_entry (current last q : Z) : list Table.pager_item :=
  if visible current last q then [Table.PageLink (q =? current) q]
  else if visible current last (q - 1) then [Table.Ellipsis]
  else [].

Definition page_entries (current last : Z) : list Table.pager_item :=
  List.flat_map (page_entry current last) (seqZ 1 last).

(** The fixed messages of statuses 401, 409 and 501. *)
Definition status_override (status : Z) : option string :=
  if status =? 401 then Some Api.MSG_BAD_CREDENTIALS
  else if status =? 409 then Some Api.MSG_EMAIL_TAKEN
  else if status =? 501 then Some Api.MSG_UPDATING
  else None.

(** Status 422: the answer lists the fields in error, each with its
    messages; the error string is the concatenation of all those
    messages, in the order of the answer, separated by a full stop and a
    space. *)
Definition field_errors (fields : list (string * list string)) : string :=
  join ". " (List.concat (List.map snd fields)).

(** The [errors] object of such an answer: [{field: [message, ...], ...}]. *)
Definition errors_object (fields : list (string * list string)) : value :=
  VObj (List.map (fun kv => (fst kv, VArr (List.map VStr (snd kv)))) fields).

End Spec.

(** ** Sample environment

    Concrete stand-ins for what the platform provides, used to run the
    embedding on examples. *)

Module Sample.

Definition API_BASE : string := "http://localhost:9999".

(** A serialiser for the values whose strings need no escaping. *)
Fixpoint stringify (v : value) : string :=
  match v with
  | VUndef | VNull | VNaN | VNative _ => "null"
  | VBool _ | VNum _ => to_string v
  | VStr s => String.String (ascii_of_nat 34) (s +:+ String.String (ascii_of_nat 34) "")
  | VArr l => "[" +:+ join "," (List.map stringify l) +:+ "]"
  | VObj props =>
      "{" +:+ join ","
                (List.flat_map
                   (fun kv => match snd kv with
                              | VUndef | VNative _ => []
                              | _ => [String.String (ascii_of_nat 34)
                                        (fst kv +:+ String.String (ascii_of_nat 34) ":")
                                      +:+ stringify (snd kv)]
                              end) props)
      +:+ "}"
  end.

(** The text V8 gives to the [TypeError] of reading [message] of [null]. *)
Definition type_error_text : string :=
  "Cannot read properties of null (reading 'message')".

(** A network that answers every request the same way. *)
Definition always (r : Api.fetch_result) : string -> Api.fetch_options -> Api.fetch_result :=
  fun _ _ => r.

Definition answer (status : Z) (body : option value) : Api.fetch_result :=
  Api.Responded {| Api.status := status; Api.json := body |}.

Definition browser_at (path : string) (s : gmap string string) : Auth.browser :=
  {| Auth.storage := s; Auth.origin := "https://aura.example";
     Auth.pathname := path; Auth.href := None; Auth.configured := true |}.

(** The text-to-markup serialisation of the three markup characters. *)
Fixpoint escape (s : string) : string :=
  match s with
  | EmptyString => EmptyString
  | String c rest =>
      (if Ascii.eqb c "&" then "&amp;"
       else if Ascii.eqb c "<" then "&lt;"
       else if Ascii.eqb c ">" then "&gt;"
       else String c EmptyString) +:+ escape rest
  end.

(** A table of [n] numbered rows with one column. *)
Definition rows (n : Z) : list value :=
  List.map (fun i => VObj [("id", VNum i)]) (seqZ 1 n).

Definition table (n : Z) (pageSize currentPage : value) : Table.options value :=
  {| Table.opt_columns :=
       [{| Table.key := "id"; Table.label := VStr "ID"; Table.cell_render := None |}];
     Table.opt_data := rows n;
     Table.opt_pageSize := pageSize;
     Table.opt_currentPage := currentPage |}.

Definition render_view : Table.options value -> Table.view :=
  Table.render_view value field escape.

Definition blank_field : Register.field_ui :=
  {| Register.is_invalid := false; Register.feedback := "" |}.

Definition blank_page : Register.page :=
  {| Register.emailUI := blank_field; Register.passwordUI := blank_field;
     Register.confirmUI := blank_field; Register.roleUI := blank_field;
     Register.error_hidden := true; Register.error_text := "";
     Register.loading := false; Register.toasts := []; Register.calls := [];
     Register.window := browser_at "/register.html" ∅ |}.

Definition login_page : Login.page :=
  {| Login.emailUI := blank_field; Login.passwordUI := blank_field;
     Login.error_hidden := true; Login.error_text := "";
     Login.loading := false; Login.toasts := []; Login.calls := [];
     Login.window := browser_at "/login.html" ∅ |}.

Definition login_form : Login.form :=
  {| Login.email := " an@example.org"; Login.password := "secret" |}.

Definition register_form : Register.form :=
  {| Register.regEmail := "an@example.org"; Register.regPassword := "abcdef";
     Register.regConfirmPassword := "abcdef"; Register.regRole := "3" |}.

(** A document with one element of its own. *)
Definition plain_page : Spinner.page :=
  {| Spinner.elements := [{| Spinner.el_id := "main"; Spinner.el_class := "container";
                             Spinner.el_display := "" |}];
     Spinner.body := [0%nat];
     Spinner.overlay := None |}.

(** The field errors of a rejected registration, and the body of the 422
    answer that lists them. *)
Definition field_errors : list (string * list string) :=
  [("email", ["Invalid email"]); ("password", ["Too short"; "Too weak"])].

Definition field_errors_body : value :=
  VObj [("errors", Spec.errors_object field_errors)].

(** A login answer for a doctor. *)
Definition doctor_session : value :=
  VObj [("data", VObj [("access_token", VStr "t"); ("role_id", VNum 2)])].

End Sample.

(** * Properties *)

(** ** Sanity checks of the embedding on concrete inputs *)

Example to_string_num : to_string (VNum (-42)) = "-42".
Proof. reflexivity. Qed.

Example to_string_arr : to_string (VArr [VNum 1; VNull; VArr [VStr "a"; VStr "b"]]) = "1,,a,b".
Proof. reflexivity. Qed.

Example parseInt_examples :
  parseInt (VStr "  12px") = Some 12 /\ parseInt (VStr "-7") = Some (-7) /\
  parseInt (VStr "abc") = None /\ parseInt VUndef = None /\
  parseInt (VNum 25) = Some 25 /\ parseInt (VArr [VNum 5]) = Some 5.
Proof. repeat split; reflexivity. Qed.

Example trim_example : trim "  a b  " = "a b".
Proof. reflexivity. Qed.

(** A no-break space (U+00A0) and a line separator (U+2028) are white
    space at either end of a text, and are kept inside it. *)
Example trim_unicode :
  trim (utf8 [194; 160; 97; 226; 128; 168; 98; 226; 128; 168; 32]%nat)
  = utf8 [97; 226; 128; 168; 98]%nat /\
  parseInt (VStr (utf8 [194; 160; 49; 50]%nat)) = Some 12.
Proof. split; reflexivity. Qed.

(** [length] counts UTF-16 code units: one for each of the four characters
    of [mậtk], two for a character outside the basic plane. *)
Example str_length_examples :
  str_length "abcdef" = 6%nat /\ str_length "mậtk" = 4%nat /\
  str_length (utf8 [240; 159; 152; 128]%nat) = 2%nat.
Proof. repeat split; reflexivity. Qed.

Example index_examples :
  index [("1", VStr "Admin")] (VNum 1) = VStr "Admin" /\
  index [("1", VStr "Admin")] (VStr "1") = VStr "Admin" /\
  index [("1", VStr "Admin")] (VNum 7) = VUndef /\
  index [("1", VStr "Admin")] (VStr "toString") = VNative "toString".
Proof. repeat split; reflexivity. Qed.

Example parse_message_first :
  Api.parseErrorMessage 400 (VObj [("message", VStr "Bad input")]) = Normal (VStr "Bad input").
Proof. reflexivity. Qed.

Example parse_422_fields :
  Api.parseErrorMessage 422
    (VObj [("errors", VObj [("email", VArr [VStr "Invalid email"]);
                            ("password", VArr [VStr "Too short"; VStr "Too weak"])])])
  = Normal (VStr "Invalid email. Too short. Too weak").
Proof. reflexivity. Qed.

Example parse_null_body_throws : Api.parseErrorMessage 500 VNull = Throw TypeError.
Proof. reflexivity. Qed.

Example parse_empty_body_404 :
  Api.parseErrorMessage 404 (VObj []) = Normal (VStr Api.MSG_REQUEST_FAILED).
Proof. reflexivity. Qed.

Example split_slash_example :
  Auth.split_slash "/app/doctor/dashboard.html" = [""; "app"; "doctor"; "dashboard.html"].
Proof. reflexivity. Qed.

Example drop_segments_example :
  Auth.drop_last_segment "/app/doctor/dashboard.html" = "/app/doctor" /\
  Auth.drop_last_nonempty_segment "/app/doctor" = "/app" /\
  Auth.drop_last_nonempty_segment "/app/" = "/app/" /\
  Auth.drop_last_segment "/app/" = "/app" /\
  Auth.drop_last_segment "index.html" = "index.html".
Proof. repeat split; reflexivity. Qed.

Example login_url_example :
  Auth.getLoginPageUrl
    {| Auth.storage := ∅; Auth.origin := "https://aura.example";
       Auth.pathname := "/app/patient/dashboard.html"; Auth.href := None;
       Auth.configured := true |}
  = "https://aura.example/app/login.html".
Proof. vm_compute. reflexivity. Qed.

Example pager_items_middle :
  Table.pager_items 5 10 =
  [Table.Prev false 4; Table.PageLink false 1; Table.Ellipsis;
   Table.PageLink false 3; Table.PageLink false 4; Table.PageLink true 5;
   Table.PageLink false 6; Table.PageLink false 7;
   Table.Ellipsis; Table.PageLink false 10; Table.Next false 6].
Proof. reflexivity. Qed.

Example pager_items_last_of_three :
  Table.pager_items 3 3 =
  [Table.Prev false 2; Table.PageLink false 1; Table.PageLink false 2;
   Table.PageLink true 3; Table.Next true 4].
Proof. reflexivity. Qed.

Example paginate_25_by_10_page_3 :
  Table.paginate 25 (VNum 10) (VNum 3) =
  {| Table.pageSize := 10; Table.currentPage := 3; Table.totalPages := 3; Table.start := 20 |}.
Proof. reflexivity. Qed.

Example email_re_examples :
  Register.email_re_test "a@b.c" = true /\
  Register.email_re_test "a@b" = false /\
  Register.email_re_test "a@.c" = false /\
  Register.email_re_test "a@b." = false /\
  Register.email_re_test "a b@c.d" = false /\
  Register.email_re_test "a@b@c.d" = false /\
  Register.email_re_test "x@mail.example.org" = true /\
  Register.email_re_test "ậ@b.c" = true /\
  Register.email_re_test (utf8 [97; 194; 160; 98; 64; 99; 46; 100]%nat) = false.
Proof. repeat split; reflexivity. Qed.

(** ** Field errors of a 422 answer *)

(** The usual shape of [errors]: each field with its list of messages. *)
Lemma error_parts_fields (fields : list (string * list string)) :
  Api.error_parts (Spec.errors_object fields)
  = List.map VStr (List.concat (List.map snd fields)).
Proof.
  unfold Api.error_parts, Spec.errors_object. cbn [typeof_object object_values].
  induction fields as [|[k msgs] fields IH]; [reflexivity|].
  cbn [List.map fst snd List.concat]. rewrite List.map_app, <- IH.
  reflexivity.
Qed.

Lemma filter_truthy_strings (msgs : list string) :
  List.filter truthy (List.map VStr msgs)
  = List.map VStr (List.filter Auth.nonempty msgs).
Proof.
  induction msgs as [|m msgs IH]; [reflexivity|].
  cbn [List.map List.filter truthy]. unfold Auth.nonempty at 1.
  destruct (negb (String.eqb m "")); cbn [List.map]; now rewrite IH.
Qed.

(** The script drops the empty messages of all fields and joins the
    others; without any message left it falls back on a fixed text. *)
Lemma errors_text_fields (fields : list (string * list string)) :
  Api.errors_text (Spec.errors_object fields)
  = (let text := join ". " (List.filter Auth.nonempty (List.concat (List.map snd fields))) in
     VStr (if String.eqb text "" then Api.MSG_INVALID_DATA else text)).
Proof.
  unfold Api.errors_text.
  rewrite error_parts_fields, filter_truthy_strings, List.map_map.
  cbn [join_item is_nullish to_string]. rewrite List.map_id.
  cbv zeta. unfold or_else. cbn [truthy].
  now destruct (String.eqb (join _ _) "").
Qed.

Lemma filter_nonempty_all (msgs : list string) :
  forallb Auth.nonempty msgs = true -> List.filter Auth.nonempty msgs = msgs.
Proof.
  induction msgs as [|m msgs IH]; [reflexivity|]. cbn [forallb List.filter].
  intros [-> Hall]%andb_true_iff. now rewrite (IH Hall).
Qed.

Lemma join_nonempty (sep : string) (msgs : list string) :
  msgs <> [] -> forallb Auth.nonempty msgs = true -> join sep msgs <> "".
Proof.
  destruct msgs as [|m msgs]; [congruence|]. intros _. cbn [forallb].
  intros [Hm _]%andb_true_iff. destruct m as [|c m]; [discriminate|].
  unfold join. cbn [String.concat]. now destruct msgs.
Qed.

(** When every message of the answer is non-empty and there is one at
    least, the text of the script is the concatenation of the messages. *)
Lemma errors_text_concatenation (fields : list (string * list string)) :
  forallb Auth.nonempty (List.concat (List.map snd fields)) = true ->
  List.concat (List.map snd fields) <> [] ->
  Api.errors_text (Spec.errors_object fields) = VStr (Spec.field_errors fields).
Proof.
  intros Hall Hne. rewrite errors_text_fields. cbv zeta.
  rewrite (filter_nonempty_all _ Hall). unfold Spec.field_errors.
  pose proof (join_nonempty ". " _ Hne Hall) as Hj.
  now destruct (String.eqb_spec (join ". " (List.concat (List.map snd fields))) "").
Qed.

(** ** HTTP client *)

Section ApiFacts.

Variable API_BASE : string.
Variable JSON_stringify : value -> string.
Variable fetch : string -> Api.fetch_options -> Api.fetch_result.

Local Abbreviation request := (Api.request API_BASE JSON_stringify fetch).
Local Abbreviation fetched := (Api.fetched API_BASE JSON_stringify fetch).

Lemma ok_true_iff (res : Api.response) :
  Api.ok res = true <-> 200 <= Api.status res <= 299.
Proof. unfold Api.ok. rewrite andb_true_iff, !Z.leb_le. lia. Qed.

Lemma ok_false_iff (res : Api.response) :
  Api.ok res = false <-> (Api.status res < 200 \/ 299 < Api.status res).
Proof.
  unfold Api.ok. rewrite andb_false_iff, !Z.leb_gt. lia.
Qed.

Lemma truthy_field_receiver (data : value) (k : string) :
  truthy (field data k) = true -> truthy data = true.
Proof. destruct data; simpl; congruence. Qed.

Lemma guarded_field (data : value) (k : string) :
  truthy (and_then data (field data k)) = truthy (field data k).
Proof.
  unfold and_then. destruct (truthy data) eqn:Hd; [reflexivity|].
  rewrite Hd. destruct (truthy (field data k)) eqn:Hf; [|reflexivity].
  apply truthy_field_receiver in Hf. congruence.
Qed.

Lemma truthy_error_message (m : value) :
  truthy m = true -> Api.error_message m = to_string m.
Proof. destruct m; simpl; congruence. Qed.

(** A truthy [message] wins, whatever the status. *)
Lemma parseErrorMessage_message (status : Z) (data : value) :
  truthy (field data "message") = true ->
  Api.parseErrorMessage status data = Normal (field data "message").
Proof.
  intros Hm. unfold Api.parseErrorMessage. now rewrite guarded_field, Hm.
Qed.

(** Then a truthy [error]. *)
Lemma parseErrorMessage_error (status : Z) (data : value) :
  truthy (field data "message") = false ->
  truthy (field data "error") = true ->
  Api.parseErrorMessage status data = Normal (field data "error").
Proof.
  intros Hm He. unfold Api.parseErrorMessage.
  now rewrite !guarded_field, Hm, He.
Qed.

(** Without either, the status decides. *)
Lemma parseErrorMessage_by_status (status : Z) (data : value) :
  truthy (field data "message") = false ->
  truthy (field data "error") = false ->
  is_nullish data = false ->
  Api.parseErrorMessage status data =
  Normal (if (status =? 422) && truthy (field data "errors")
          then Api.errors_text (field data "errors")
          else VStr (if status =? 401 then Api.MSG_BAD_CREDENTIALS
                     else if status =? 409 then Api.MSG_EMAIL_TAKEN
                     else if status =? 501 then Api.MSG_UPDATING
                     else if 500 <=? status then Api.MSG_SERVER_ERROR
                     else Api.MSG_REQUEST_FAILED)).
Proof.
  intros Hm He Hn. unfold Api.parseErrorMessage.
  rewrite !guarded_field, Hm, He.
  destruct ((status =? 422) && truthy (field data "errors")) eqn:H422.
  - reflexivity.
  - unfold get. rewrite Hn. simpl. unfold or_else. rewrite Hm.
    now destruct (status =? 401), (status =? 409), (status =? 501), (500 <=? status).
Qed.

Lemma request_rejects_with (storage : gmap string string) (method path : string)
    (body : value) (useAuth : bool) (res : Api.response) (data m : value) :
  fetched storage method path body useAuth = Api.Responded res ->
  Api.ok res = false ->
  Api.json res = Some data ->
  Api.parseErrorMessage (Api.status res) data = Normal m ->
  request storage method path body useAuth = Rejected (Error (Api.error_message m)).
Proof.
  intros Hf Hok Hj Hp. unfold Api.request.
  now rewrite Hf, Hok, Hj; simpl; rewrite Hp.
Qed.

(** C1 (as amended).  For a response with status at least 400 whose body
    carries a truthy [message], the rejection of [request] carries that
    message at every status other than 401, also at 409, 422 and 501.
    When the body has neither a truthy [message] nor a truthy [error],
    the rejection carries the fixed message of the status at 401, 409 and
    501, and at 422 the concatenation of the field errors: the non-empty
    messages that the [errors] object of the body lists for its fields,
    in order, separated by a full stop and a space. *)
Theorem request_error_string
    (storage : gmap string string) (method path : string)
    (body : value) (useAuth : bool) (res : Api.response) (data : value) :
  fetched storage method path body useAuth = Api.Responded res ->
  400 <= Api.status res ->
  Api.json res = Some data ->
  (truthy (field data "message") = true -> Api.status res <> 401 ->
     Api.parseErrorMessage (Api.status res) data = Normal (field data "message") /\
     request storage method path body useAuth
     = Rejected (Error (to_string (field data "message")))) /\
  (truthy (field data "message") = false -> truthy (field data "error") = false ->
     is_nullish data = false ->
     (forall text, Spec.status_override (Api.status res) = Some text ->
        request storage method path body useAuth = Rejected (Error text)) /\
     (forall fields : list (string * list string),
        Api.status res = 422 ->
        field data "errors" = Spec.errors_object fields ->
        forallb Auth.nonempty (List.concat (List.map snd fields)) = true ->
        List.concat (List.map snd fields) <> [] ->
        request storage method path body useAuth
        = Rejected (Error (Spec.field_errors fields)))).
Proof.
  intros Hf Hst Hj.
  assert (Hok : Api.ok res = false) by (apply ok_false_iff; lia).
  split.
  - intros Hm _. split; [now apply parseErrorMessage_message|].
    rewrite <- (truthy_error_message _ Hm).
    eapply request_rejects_with; eauto using parseErrorMessage_message.
  - intros Hm He Hn.
    pose proof (parseErrorMessage_by_status (Api.status res) data Hm He Hn) as Hp.
    split.
    + intros text Hov.
      erewrite request_rejects_with; eauto. simpl. f_equal. f_equal.
      unfold Spec.status_override in Hov.
      destruct (Api.status res =? 422) eqn:E422.
      { apply Z.eqb_eq in E422. rewrite E422 in Hov. discriminate. }
      simpl.
      destruct (Api.status res =? 401), (Api.status res =? 409),
        (Api.status res =? 501); congruence.
    + intros fields H422 Herr Hall Hne.
      erewrite request_rejects_with; eauto.
      rewrite H422, Herr. cbn [Z.eqb Pos.eqb andb].
      replace (truthy (Spec.errors_object fields)) with true by reflexivity.
      now rewrite (errors_text_concatenation fields Hall Hne).
Qed.

(** C6.  [request] resolves with the parsed body on a 2xx answer, rejects
    with an error on any other answer, rejects with the connectivity
    message when the network fails, and rejects in no other case. *)
Theorem request_settles
    (storage : gmap string string) (method path : string)
    (body : value) (useAuth : bool) :
  (forall res data,
      fetched storage method path body useAuth = Api.Responded res ->
      200 <= Api.status res <= 299 -> Api.json res = Some data ->
      request storage method path body useAuth = Resolved data) /\
  (forall res,
      fetched storage method path body useAuth = Api.Responded res ->
      (Api.status res < 200 \/ 299 < Api.status res) ->
      exists e, request storage method path body useAuth = Rejected e) /\
  (fetched storage method path body useAuth = Api.NetworkFailure ->
   request storage method path body useAuth
   = Rejected (Error (Api.MSG_UNREACHABLE API_BASE))) /\
  ((exists e, request storage method path body useAuth = Rejected e) <->
   (fetched storage method path body useAuth = Api.NetworkFailure \/
    exists res, fetched storage method path body useAuth = Api.Responded res /\
                (Api.status res < 200 \/ 299 < Api.status res))).
Proof.
  unfold Api.request.
  destruct (fetched storage method path body useAuth) as [|res] eqn:Hf.
  - repeat split; try discriminate; eauto.
  - destruct (Api.ok res) eqn:Hok; simpl.
    + pose proof (proj1 (ok_true_iff res) Hok) as Hr.
      repeat split.
      * intros r d [= <-] _ ->. reflexivity.
      * intros r [= <-] Hbad. lia.
      * discriminate.
      * intros [e He]. discriminate.
      * intros [Hn | (r & [= <-] & Hbad)]; [discriminate | lia].
    + pose proof (proj1 (ok_false_iff res) Hok) as Hr.
      assert (Hrej : exists e,
                 match Api.parseErrorMessage (Api.status res)
                         (default (VObj []) (Api.json res)) with
                 | Normal m => Rejected (Error (Api.error_message m))
                 | Throw e => Rejected e
                 end = Rejected e)
        by (destruct (Api.parseErrorMessage _ _); eauto).
      repeat split.
      * intros r d [= <-] Hgood. lia.
      * intros r [= <-] _. exact Hrej.
      * discriminate.
      * intros _. right. eauto.
      * intros _. exact Hrej.
Qed.

(** C8.  A 2xx answer whose body does not parse resolves with the empty
    object. *)
Theorem request_unparsable_body
    (storage : gmap string string) (method path : string)
    (body : value) (useAuth : bool) (res : Api.response) :
  fetched storage method path body useAuth = Api.Responded res ->
  200 <= Api.status res <= 299 ->
  Api.json res = None ->
  request storage method path body useAuth = Resolved (VObj []).
Proof.
  intros Hf Hst Hj. unfold Api.request. rewrite Hf.
  now rewrite (proj2 (ok_true_iff res) Hst), Hj.
Qed.

End ApiFacts.

(** ** Decimal numerals

    [parseInt] reads back the plain decimal numeral of an integer. *)

Lemma pretty_N_char_digit (x : N) :
  (x < 10)%N -> digit_of (pretty_N_char x) = Some (Z.of_N x).
Proof.
  intros Hx.
  assert (x = 0 \/ x = 1 \/ x = 2 \/ x = 3 \/ x = 4 \/ x = 5 \/ x = 6 \/ x = 7
          \/ x = 8 \/ x = 9)%N as Hc by lia.
  decompose [or] Hc; subst; reflexivity.
Qed.

Lemma pretty_N_go_digit_head (x : N) (s : string) :
  digit_head s = true -> digit_head (pretty_N_go x s) = true.
Proof.
  revert s. induction (N.lt_wf_0 x) as [x _ IH]. intros s Hs.
  destruct (decide (x = 0)%N) as [->|Hx]; [now rewrite pretty_N_go_0|].
  rewrite pretty_N_go_step by lia.
  apply IH; [apply N.div_lt; lia|].
  cbn [digit_head]. unfold is_digit.
  now rewrite pretty_N_char_digit by (apply N.mod_lt; lia).
Qed.

Lemma pretty_pos_unfold (p : positive) :
  pretty (N.pos p) = pretty_N_go (N.pos p) "".
Proof. unfold pretty, pretty_N. now rewrite decide_False by discriminate. Qed.

Lemma pretty_pos_digit_head (p : positive) : digit_head (pretty (N.pos p)) = true.
Proof.
  rewrite pretty_pos_unfold, pretty_N_go_step by lia.
  apply pretty_N_go_digit_head. cbn [digit_head]. unfold is_digit.
  now rewrite pretty_N_char_digit by (apply N.mod_lt; lia).
Qed.

(** Reading the digits that [pretty_N_go] writes in front of [s]. *)
Lemma digits_pretty_N_go (x : N) :
  (0 < x)%N ->
  exists m, forall acc s,
      digits acc (pretty_N_go x s) = digits (Some (default 0 acc * m + Z.of_N x)) s.
Proof.
  induction (N.lt_wf_0 x) as [x _ IH]. intros Hx.
  assert (Hstep : forall acc s,
             digits acc (String (pretty_N_char (x `mod` 10)) s)
             = digits (Some (10 * default 0 acc + Z.of_N (x `mod` 10))) s).
  { intros acc s. cbn [digits].
    now rewrite pretty_N_char_digit by (apply N.mod_lt; lia). }
  assert (Hdm : Z.of_N x = 10 * Z.of_N (x `div` 10) + Z.of_N (x `mod` 10)).
  { rewrite (N.div_mod x 10) at 1 by discriminate.
    now rewrite N2Z.inj_add, N2Z.inj_mul. }
  destruct (decide (x `div` 10 = 0)%N) as [Hz|Hnz].
  - exists 10. intros acc s. rewrite pretty_N_go_step by assumption.
    rewrite Hz in Hdm |- *. rewrite pretty_N_go_0, Hstep. do 2 f_equal.
    rewrite Hdm. change (Z.of_N 0) with 0. ring.
  - destruct (IH (x `div` 10)%N) as [m Hm];
      [apply N.div_lt; [assumption|reflexivity] | now apply N.neq_0_lt_0 |].
    exists (10 * m). intros acc s. rewrite pretty_N_go_step by assumption.
    rewrite Hm, Hstep. cbn [default]. unfold id. do 2 f_equal. rewrite Hdm. ring.
Qed.

Lemma digits_pretty_pos (p : positive) :
  digits None (pretty (N.pos p)) = Some (Z.pos p).
Proof.
  rewrite pretty_pos_unfold.
  destruct (digits_pretty_N_go (N.pos p) ltac:(lia)) as [m Hm].
  rewrite Hm. reflexivity.
Qed.

Lemma parseInt_string_digit_head (s : string) :
  digit_head s = true -> parseInt_string s = digits None s.
Proof.
  destruct s as [|c s]; [discriminate|]. cbn [digit_head]. unfold is_digit.
  intros Hd. unfold parseInt_string.
  destruct c as [[] [] [] [] [] [] [] []]; try discriminate Hd; reflexivity.
Qed.

(** The numeral that the embedding prints for [z] reads back as [z]. *)
Lemma parseInt_number (z : Z) : parseInt (VNum z) = Some z.
Proof.
  unfold parseInt. cbn [to_string]. destruct z as [|p|p]; [reflexivity| |].
  - change (pretty (Z.pos p)) with (pretty (N.pos p)).
    rewrite parseInt_string_digit_head by apply pretty_pos_digit_head.
    apply digits_pretty_pos.
  - change (pretty (Z.neg p)) with (String "-" (pretty (N.pos p))).
    unfold parseInt_string.
    change (skip_spaces (String "-" (pretty (N.pos p)))) with (String "-" (pretty (N.pos p))).
    cbv iota. simpl. now rewrite digits_pretty_pos.
Qed.

(** ** Session store *)

Section AuthFacts.

Variable JSON_stringify : value -> string.

Local Abbreviation setAuthFromResponse := (Auth.setAuthFromResponse JSON_stringify).
Local Abbreviation setAuth := (Auth.setAuth JSON_stringify).

Lemma storage_keys_distinct :
  Config.TOKEN <> Config.USER /\ Config.TOKEN <> Config.ROLE /\
  Config.USER <> Config.ROLE.
Proof. repeat split; discriminate. Qed.

(** The script's dashboard table agrees with the page URL contract on
    every role name that [Object.prototype] does not define. *)
Lemma dashboards_lookup (role : string) :
  object_prototype role = None ->
  or_else (index Auth.DASHBOARDS (VStr role)) (VStr "index.html")
  = VStr (Spec.landing_page role).
Proof.
  intros Hp. unfold index, Spec.landing_page, Spec.dashboard_path. simpl.
  destruct (String.eqb role "Patient"); [reflexivity|].
  destruct (String.eqb role "Doctor"); [reflexivity|].
  destruct (String.eqb role "ClinicManager"); [reflexivity|].
  destruct (String.eqb role "Admin"); [reflexivity|].
  now rewrite Hp.
Qed.

(** With a role the prototype does not define, a mismatch sends the
    browser to that role's dashboard, or to the index page. *)
Lemma requireRole_mismatch (allowedRole : string) (b : Auth.browser) :
  Auth.isLoggedIn b = true ->
  Auth.getRole b <> allowedRole ->
  object_prototype (Auth.getRole b) = None ->
  Auth.requireRole allowedRole b =
  (false,
   Auth.navigate b
     (Auth.origin b +:+
      Auth.under
        (Auth.drop_last_nonempty_segment (Auth.drop_last_segment (Auth.pathname b)))
        (VStr (Spec.landing_page (Auth.getRole b))))).
Proof.
  intros Hin Hne Hp. unfold Auth.requireRole, Auth.requireLogin.
  rewrite Hin. simpl.
  apply String.eqb_neq in Hne. rewrite Hne. simpl.
  now rewrite (dashboards_lookup _ Hp).
Qed.

Lemma requireRole_match (b : Auth.browser) :
  Auth.isLoggedIn b = true ->
  Auth.requireRole (Auth.getRole b) b = (true, b).
Proof.
  intros Hin. unfold Auth.requireRole, Auth.requireLogin.
  rewrite Hin. simpl. now rewrite String.eqb_refl.
Qed.

(** A patient opening a doctor page lands on the patient dashboard. *)
Lemma requireRole_doctor_page_as_patient (b : Auth.browser) :
  Auth.isLoggedIn b = true ->
  Auth.getRole b = "Patient" ->
  Auth.requireRole "Doctor" b =
  (false,
   Auth.navigate b
     (Auth.origin b +:+
      Auth.under
        (Auth.drop_last_nonempty_segment (Auth.drop_last_segment (Auth.pathname b)))
        (VStr "patient/dashboard.html"))).
Proof.
  intros Hin Hr.
  rewrite requireRole_mismatch; rewrite ?Hr; try reflexivity; try assumption.
  discriminate.
Qed.

(** C4 (defect).  With the stored role ["constructor"], which has no
    dashboard, [requireRole] does not go to the index page: the lookup in
    the dashboard table finds the member the table inherits, and the
    browser is sent to an address made of that function's text. *)
Theorem requireRole_inherited_role_name :
  let b := Sample.browser_at "/doctor/dashboard.html"
             (<[Config.ROLE := "constructor"]> {[Config.TOKEN := "t"]}) in
  Spec.landing_page (Auth.getRole b) = "index.html" /\
  fst (Auth.requireRole "Doctor" b) = false /\
  Auth.href (snd (Auth.requireRole "Doctor" b))
  = Some "https://aura.example/function Object() { [native code] }" /\
  Auth.href (snd (Auth.requireRole "Doctor" b))
  <> Some "https://aura.example/index.html".
Proof. vm_compute. repeat split; discriminate. Qed.

(** *** Storing a response *)

Lemma setAuth_all (token user role : value) (s : gmap string string) :
  truthy token = true -> truthy user = true -> truthy role = true ->
  setAuth token user role s =
  <[Config.ROLE := to_string role]>
    (<[Config.USER := JSON_stringify user]>
       (<[Config.TOKEN := to_string token]> s)).
Proof. intros Ht Hu Hr. unfold Auth.setAuth, setItem. now rewrite Ht, Hu, Hr. Qed.

Lemma setAuth_no_role (token user role : value) (s : gmap string string) :
  truthy token = true -> truthy user = true -> truthy role = false ->
  setAuth token user role s =
  <[Config.USER := JSON_stringify user]> (<[Config.TOKEN := to_string token]> s).
Proof. intros Ht Hu Hr. unfold Auth.setAuth, setItem. now rewrite Ht, Hu, Hr. Qed.

Lemma setAuthFromResponse_accepts (body : value) (s : gmap string string) :
  truthy (field (Auth.payload body) "access_token") = true ->
  setAuthFromResponse body s =
  (true,
   setAuth (field (Auth.payload body) "access_token")
           (Auth.user_record (Auth.payload body))
           (Auth.getRoleNameByRoleId (field (Auth.payload body) "role_id")) s).
Proof.
  intros Ht. unfold Auth.setAuthFromResponse.
  rewrite Ht, (truthy_field_receiver _ _ Ht). reflexivity.
Qed.

Lemma setAuthFromResponse_refuses (body : value) (s : gmap string string) :
  truthy (field (Auth.payload body) "access_token") = false ->
  setAuthFromResponse body s = (false, s).
Proof.
  intros Ht. unfold Auth.setAuthFromResponse. rewrite Ht.
  now rewrite orb_true_r.
Qed.

(** *** Role identifiers *)

Lemma pretty_Z_numeric_head (z : Z) : numeric_head (pretty z) = true.
Proof.
  destruct z as [|p|p]; [reflexivity| |reflexivity].
  pose proof (pretty_pos_digit_head p) as H.
  change (pretty (Z.pos p)) with (pretty (N.pos p)).
  destruct (pretty (N.pos p)); [discriminate|].
  simpl in *. now rewrite H.
Qed.

Lemma numeric_head_not_inherited (s : string) :
  numeric_head s = true -> object_prototype s = None.
Proof.
  destruct s as [|c s]; [discriminate|]. intros Hc.
  assert (Hne : forall x, In x ["c"; "_"; "h"; "i"; "p"; "t"; "v"]%char ->
                          Ascii.eqb c x = false).
  { intros x Hx. destruct (Ascii.eqb_spec c x) as [->|]; [|reflexivity].
    simpl in Hx. decompose [or] Hx; subst; try discriminate. contradiction. }
  unfold object_prototype, OBJECT_PROTOTYPE_METHODS. simpl.
  now rewrite !Hne by (simpl; tauto).
Qed.

(** On numbers the script's table is the fixed role-id table. *)
Lemma getRoleNameByRoleId_number (z : Z) :
  Auth.getRoleNameByRoleId (VNum z) = VStr (default "" (Spec.role_name z)).
Proof.
  unfold Auth.getRoleNameByRoleId, Spec.role_name.
  destruct (Z.eqb_spec z 1) as [->|H1]; [reflexivity|].
  destruct (Z.eqb_spec z 2) as [->|H2]; [reflexivity|].
  destruct (Z.eqb_spec z 3) as [->|H3]; [reflexivity|].
  destruct (Z.eqb_spec z 4) as [->|H4]; [reflexivity|].
  unfold index. cbn [to_string Auth.ROLE_NAMES assoc].
  assert (Hk : forall k : Z, z <> k -> String.eqb (pretty z) (pretty k) = false).
  { intros k Hk. apply String.eqb_neq. intros He. now apply (inj pretty) in He. }
  change "1" with (pretty 1). rewrite (Hk 1 H1).
  change "2" with (pretty 2). rewrite (Hk 2 H2).
  change "3" with (pretty 3). rewrite (Hk 3 H3).
  change "4" with (pretty 4). rewrite (Hk 4 H4).
  now rewrite (numeric_head_not_inherited _ (pretty_Z_numeric_head z)).
Qed.

(** A payload with a token and a role the table does not name: the token
    and the user record are stored, the stored role stays as it was. *)
Lemma setAuthFromResponse_unnamed_role (body : value) (s : gmap string string) :
  truthy (field (Auth.payload body) "access_token") = true ->
  truthy (Auth.getRoleNameByRoleId (field (Auth.payload body) "role_id")) = false ->
  fst (setAuthFromResponse body s) = true /\
  snd (setAuthFromResponse body s) !! Config.TOKEN
  = Some (to_string (field (Auth.payload body) "access_token")) /\
  snd (setAuthFromResponse body s) !! Config.USER
  = Some (JSON_stringify (Auth.user_record (Auth.payload body))) /\
  snd (setAuthFromResponse body s) !! Config.ROLE = s !! Config.ROLE.
Proof.
  intros Ht Hr. rewrite setAuthFromResponse_accepts by assumption.
  cbn [fst snd]. rewrite setAuth_no_role by (assumption || reflexivity).
  destruct storage_keys_distinct as (Htu & Htr & Hur).
  repeat split.
  - rewrite lookup_insert_ne by congruence. apply lookup_insert_eq.
  - apply lookup_insert_eq.
  - now rewrite !lookup_insert_ne by congruence.
Qed.

Lemma setAuthFromResponse_number_outside_table
    (body : value) (s : gmap string string) (z : Z) :
  truthy (field (Auth.payload body) "access_token") = true ->
  field (Auth.payload body) "role_id" = VNum z ->
  ~ (1 <= z <= 4) ->
  fst (setAuthFromResponse body s) = true /\
  is_Some (snd (setAuthFromResponse body s) !! Config.TOKEN) /\
  is_Some (snd (setAuthFromResponse body s) !! Config.USER) /\
  snd (setAuthFromResponse body s) !! Config.ROLE = s !! Config.ROLE.
Proof.
  intros Ht Hid Hz.
  destruct (setAuthFromResponse_unnamed_role body s Ht) as (H1 & H2 & H3 & H4).
  { rewrite Hid, getRoleNameByRoleId_number. unfold Spec.role_name.
    destruct (Z.eqb_spec z 1); [lia|]. destruct (Z.eqb_spec z 2); [lia|].
    destruct (Z.eqb_spec z 3); [lia|]. destruct (Z.eqb_spec z 4); [lia|].
    reflexivity. }
  rewrite H2, H3. eauto.
Qed.

(** C5.  A response [{data: {access_token: t, role_id: z}}] with a
    non-empty token and a role identifier of the table 1=Admin, 2=Doctor,
    3=Patient, 4=ClinicManager stores the name the table gives to [z] as
    the role, and the token, and returns true; in particular
    [{data: {access_token: 't', role_id: 3}}] stores the role ['Patient'].
    A response whose payload has no [access_token] returns false and
    leaves the storage as it was. *)
Theorem setAuthFromResponse_contract :
  (forall (s : gmap string string) (t : string) (z : Z) (name : string),
      t <> "" ->
      (z, name) ∈ [(1, "Admin"); (2, "Doctor"); (3, "Patient"); (4, "ClinicManager")] ->
      let r := setAuthFromResponse
                 (VObj [("data", VObj [("access_token", VStr t);
                                       ("role_id", VNum z)])]) s in
      fst r = true /\
      snd r !! Config.ROLE = Some name /\
      snd r !! Config.TOKEN = Some t) /\
  (forall s : gmap string string,
      let r := setAuthFromResponse
                 (VObj [("data", VObj [("access_token", VStr "t");
                                       ("role_id", VNum 3)])]) s in
      fst r = true /\
      snd r !! Config.ROLE = Some "Patient" /\
      snd r !! Config.TOKEN = Some "t") /\
  (forall (body : value) (s : gmap string string),
      field (Auth.payload body) "access_token" = VUndef ->
      setAuthFromResponse body s = (false, s)).
Proof.
  assert (Hstore : forall (s : gmap string string) (t : string) (z : Z) (name : string),
             t <> "" ->
             (z, name) ∈ [(1, "Admin"); (2, "Doctor"); (3, "Patient"); (4, "ClinicManager")] ->
             let r := setAuthFromResponse
                        (VObj [("data", VObj [("access_token", VStr t);
                                              ("role_id", VNum z)])]) s in
             fst r = true /\
             snd r !! Config.ROLE = Some name /\
             snd r !! Config.TOKEN = Some t).
  { intros s t z name Ht Hin r. subst r.
    assert (Htruthy : truthy (VStr t) = true)
      by (cbn; now destruct (String.eqb_spec t "")).
    assert (Hpay : Auth.payload (VObj [("data", VObj [("access_token", VStr t);
                                                      ("role_id", VNum z)])])
                   = VObj [("access_token", VStr t); ("role_id", VNum z)])
      by reflexivity.
    rewrite setAuthFromResponse_accepts by (rewrite Hpay; exact Htruthy).
    rewrite Hpay. cbn [fst snd].
    change (field (VObj [("access_token", VStr t); ("role_id", VNum z)]) "access_token")
      with (VStr t).
    change (field (VObj [("access_token", VStr t); ("role_id", VNum z)]) "role_id")
      with (VNum z).
    assert (Hname : Auth.getRoleNameByRoleId (VNum z) = VStr name /\ name <> "").
    { repeat (apply elem_of_cons in Hin as [[= -> ->]|Hin];
              [split; [reflexivity|discriminate]|]).
      now apply elem_of_nil in Hin. }
    destruct Hname as [-> Hne].
    rewrite setAuth_all;
      [|exact Htruthy|reflexivity|cbn; now destruct (String.eqb_spec name "")].
    destruct storage_keys_distinct as (Htu & Htr & Hur).
    repeat split.
    - apply lookup_insert_eq.
    - rewrite !lookup_insert_ne by congruence. apply lookup_insert_eq. }
  split; [exact Hstore|]. split.
  - intros s. apply Hstore; [discriminate|].
    do 2 apply list_elem_of_further. apply list_elem_of_here.
  - intros body s Hu. apply setAuthFromResponse_refuses. now rewrite Hu.
Qed.

(** C10 (defect).  The payload [{access_token: 't', role_id: 'constructor'}]
    names no role of the table, yet the role key is written: the lookup in
    the role table finds the member the table inherits, and its text is
    stored as the role. *)
Theorem setAuthFromResponse_inherited_role_id :
  let body := VObj [("access_token", VStr "t"); ("role_id", VStr "constructor")] in
  let r := setAuthFromResponse body ∅ in
  fst r = true /\
  snd r !! Config.TOKEN = Some "t" /\
  (∅ : gmap string string) !! Config.ROLE = None /\
  snd r !! Config.ROLE = Some "function Object() { [native code] }".
Proof. vm_compute. repeat split. Qed.

End AuthFacts.

(** ** Paginated table *)

Lemma ceil_div_bounds (a b : Z) :
  0 < b -> (Table.ceil_div a b - 1) * b < a <= Table.ceil_div a b * b.
Proof.
  intros Hb. unfold Table.ceil_div.
  pose proof (Z.div_mod (a + b - 1) b ltac:(lia)) as Hdm.
  pose proof (Z.mod_pos_bound (a + b - 1) b Hb) as Hm.
  nia.
Qed.

(** [ceil_div a b] is the least number of pages of size [b] that hold [a]
    rows. *)
Lemma ceil_div_least (a b k : Z) :
  0 < b -> a <= k * b -> Table.ceil_div a b <= k.
Proof.
  intros Hb Hk. pose proof (ceil_div_bounds a b Hb) as [Hlo _]. nia.
Qed.

Lemma ceil_div_nonneg (a b : Z) : 0 <= a -> 0 < b -> 0 <= Table.ceil_div a b.
Proof. intros Ha Hb. pose proof (ceil_div_bounds a b Hb). nia. Qed.

Lemma ceil_div_pos (a b : Z) : 0 < a -> 0 < b -> 1 <= Table.ceil_div a b.
Proof. intros Ha Hb. pose proof (ceil_div_bounds a b Hb). nia. Qed.

Lemma length_slice {A} (from upto : Z) (l : list A) :
  0 <= from <= Z.of_nat (length l) -> from <= upto ->
  Z.of_nat (length (slice from upto l)) = Z.min (upto - from) (Z.of_nat (length l) - from).
Proof.
  intros Hf Hu. unfold slice.
  destruct (Z.ltb_spec from 0); [lia|]. destruct (Z.ltb_spec upto 0); [lia|].
  rewrite length_take, length_drop. lia.
Qed.

Section PagingFacts.

Variables (total : Z) (optPageSize optCurrentPage : value).

Local Abbreviation pg := (Table.paginate total optPageSize optCurrentPage).

Lemma paginate_pageSize : Table.pageSize pg = Z.max 1 (num_or (parseInt optPageSize) 10).
Proof. reflexivity. Qed.

Lemma paginate_totalPages :
  Table.totalPages pg = Z.max 1 (Table.ceil_div total (Table.pageSize pg)).
Proof. reflexivity. Qed.

Lemma paginate_currentPage :
  Table.currentPage pg
  = Z.min (Z.max 1 (num_or (parseInt optCurrentPage) 1)) (Table.totalPages pg).
Proof. reflexivity. Qed.

Lemma paginate_start :
  Table.start pg = (Table.currentPage pg - 1) * Table.pageSize pg.
Proof. reflexivity. Qed.

Lemma paginate_range :
  1 <= Table.pageSize pg /\ 1 <= Table.currentPage pg <= Table.totalPages pg.
Proof. rewrite paginate_currentPage, paginate_totalPages, paginate_pageSize. lia. Qed.

Lemma paginate_start_in_data :
  0 <= total -> 0 <= Table.start pg <= total.
Proof.
  intros Ht. rewrite paginate_start.
  pose proof paginate_range as (Hn & Hc1 & Hc2).
  rewrite paginate_totalPages in Hc2.
  pose proof (ceil_div_bounds total (Table.pageSize pg) ltac:(lia)) as [Hlo _].
  split; [nia|].
  destruct (Z.le_gt_cases (Table.ceil_div total (Table.pageSize pg)) 1) as [Hle|Hgt].
  - assert (Table.currentPage pg = 1) as -> by lia. lia.
  - nia.
Qed.

(** A numeral that begins with [-0] and goes on with something other than
    a digit, such as [-0.5], is read as zero. *)
Lemma parseInt_negative_fraction (frac : string) :
  digit_head frac = false -> parseInt (VStr ("-0" +:+ frac)) = Some 0.
Proof.
  intros Hd. unfold parseInt. cbn [to_string].
  change ("-0" +:+ frac) with (String "-" (String "0" frac)).
  unfold parseInt_string.
  change (skip_spaces (String "-" (String "0" frac))) with (String "-" (String "0" frac)).
  cbv iota. change (digits None (String "0" frac)) with (digits (Some 0) frac).
  destruct frac as [|c frac]; [reflexivity|].
  cbn [digit_head] in Hd. unfold is_digit in Hd. cbn [digits].
  now destruct (digit_of c).
Qed.

(** C9 (as amended).  For options that [parseInt] reads as [NaN] or as an
    integer that a script number holds exactly: the effective page size
    is at least 1 and so is the effective current page, so the page count
    divides by a non-zero number and the slice starts at a non-negative
    index.  The page size is 10 when the option is read as [NaN] or as
    zero, which includes the negative fractions above -1 such as [-0.5]
    (read as [-0]); it is 1 when the option is read as an integer below
    zero, and the integer read otherwise. *)
Theorem paginate_guards :
  safe_reading (parseInt optPageSize) = true ->
  safe_reading (parseInt optCurrentPage) = true ->
  1 <= Table.pageSize pg /\
  1 <= Table.currentPage pg /\
  Table.pageSize pg <> 0 /\
  0 <= Table.start pg /\
  (parseInt optPageSize = None \/ parseInt optPageSize = Some 0 ->
   Table.pageSize pg = 10) /\
  (forall z, parseInt optPageSize = Some z -> z <= -1 -> Table.pageSize pg = 1) /\
  (forall z, parseInt optPageSize = Some z -> 1 <= z -> Table.pageSize pg = z) /\
  (forall frac, digit_head frac = false -> optPageSize = VStr ("-0" +:+ frac) ->
   Table.pageSize pg = 10).
Proof.
  intros _ _.
  pose proof paginate_range as (Hn & Hc1 & Hc2).
  repeat split; try lia.
  - rewrite paginate_start. nia.
  - rewrite paginate_pageSize. intros [-> | ->]; reflexivity.
  - intros z Hz Hneg. rewrite paginate_pageSize, Hz. unfold num_or.
    destruct (Z.eqb_spec z 0); lia.
  - intros z Hz Hpos. rewrite paginate_pageSize, Hz. unfold num_or.
    destruct (Z.eqb_spec z 0); lia.
  - intros frac Hd Hopt. rewrite paginate_pageSize, Hopt.
    now rewrite (parseInt_negative_fraction frac Hd).
Qed.

End PagingFacts.

Lemma flat_map_nil_on {A B} (f : A -> list B) (l : list A) :
  (forall x, x ∈ l -> f x = []) -> List.flat_map f l = [].
Proof.
  induction l as [|a l IH]; intros Hf; [reflexivity|]. simpl.
  rewrite (Hf a) by left. apply IH. intros x Hx. apply Hf. now right.
Qed.

Lemma flat_map_singleton_on {A B} (f : A -> list B) (g : A -> B) (l : list A) :
  (forall x, x ∈ l -> f x = [g x]) -> List.flat_map f l = List.map g l.
Proof.
  induction l as [|a l IH]; intros Hf; [reflexivity|]. simpl.
  rewrite (Hf a) by left. simpl. f_equal. apply IH. intros x Hx. apply Hf. now right.
Qed.

Section PagerFacts.

Variables current last : Z.
Hypothesis current_in_range : 1 <= current <= last.

Local Abbreviation from := (Z.max 1 (current - 2)).
Local Abbreviation to := (Z.min last (current + 2)).
Local Abbreviation entry := (Spec.page_entry current last).

Lemma visible_iff (q : Z) :
  Spec.visible current last q = true <->
  q = 1 \/ q = last \/ current - 2 <= q <= current + 2.
Proof.
  unfold Spec.visible.
  rewrite !orb_true_iff, andb_true_iff, !Z.eqb_eq, !Z.leb_le. tauto.
Qed.

Lemma visible_false_iff (q : Z) :
  Spec.visible current last q = false <->
  q <> 1 /\ q <> last /\ (q < current - 2 \/ current + 2 < q).
Proof.
  rewrite <- not_true_iff_false, visible_iff. lia.
Qed.

Lemma entry_visible (q : Z) :
  Spec.visible current last q = true ->
  entry q = [Table.PageLink (q =? current) q].
Proof. intros H. unfold Spec.page_entry. now rewrite H. Qed.

Lemma entry_gap_start (q : Z) :
  Spec.visible current last q = false ->
  Spec.visible current last (q - 1) = true ->
  entry q = [Table.Ellipsis].
Proof. intros H1 H2. unfold Spec.page_entry. now rewrite H1, H2. Qed.

Lemma entry_gap_inside (q : Z) :
  Spec.visible current last q = false ->
  Spec.visible current last (q - 1) = false ->
  entry q = [].
Proof. intros H1 H2. unfold Spec.page_entry. now rewrite H1, H2. Qed.

(** The pages before the window: page 1, then one ellipsis if pages
    are left out. *)
Lemma entries_before_window :
  List.flat_map entry (seqZ 1 (from - 1))
  = ((if 1 <? from then [Table.PageLink false 1] else [])
     ++ (if 2 <? from then [Table.Ellipsis] else []))%list.
Proof.
  destruct (Z.ltb_spec 1 from) as [H1|H1].
  - rewrite seqZ_cons by lia. cbn [List.flat_map app].
    rewrite entry_visible by (apply visible_iff; lia).
    replace (1 =? current) with false by (symmetry; apply Z.eqb_neq; lia).
    cbn [List.flat_map app]. f_equal.
    destruct (Z.ltb_spec 2 from) as [H2|H2].
    + rewrite seqZ_cons by lia. cbn [List.flat_map app].
      rewrite entry_gap_start
        by (try apply visible_false_iff; try apply visible_iff; lia).
      cbn [List.flat_map app]. f_equal. apply flat_map_nil_on. intros q Hq.
      apply elem_of_seqZ in Hq.
      apply entry_gap_inside; apply visible_false_iff; lia.
    + now rewrite seqZ_nil by lia.
  - rewrite seqZ_nil by lia. destruct (Z.ltb_spec 2 from); [lia|reflexivity].
Qed.

(** The window: every page of it is shown. *)
Lemma entries_in_window :
  List.flat_map entry (seqZ from (to - from + 1))
  = List.map (fun p => Table.PageLink (p =? current) p) (seqZ from (to - from + 1)).
Proof.
  apply flat_map_singleton_on. intros q Hq. apply elem_of_seqZ in Hq.
  apply entry_visible, visible_iff. lia.
Qed.

(** The pages after the window: one ellipsis if pages are left out, then
    the last page. *)
Lemma entries_after_window :
  List.flat_map entry (seqZ (to + 1) (last - to))
  = ((if to <? last - 1 then [Table.Ellipsis] else [])
     ++ (if to <? last then [Table.PageLink false last] else []))%list.
Proof.
  destruct (Z.ltb_spec to last) as [H1|H1].
  - destruct (Z.ltb_spec to (last - 1)) as [H2|H2].
    + rewrite seqZ_cons by lia. cbn [List.flat_map app].
      rewrite entry_gap_start
        by (try apply visible_false_iff; try apply visible_iff; lia).
      cbn [List.flat_map app]. f_equal.
      replace (Z.pred (last - to)) with ((last - to - 2) + 1) by lia.
      rewrite seqZ_app by lia. rewrite flat_map_app.
      rewrite flat_map_nil_on.
      2:{ intros q Hq. apply elem_of_seqZ in Hq.
          apply entry_gap_inside; apply visible_false_iff; lia. }
      rewrite seqZ_cons, seqZ_nil by lia. cbn [List.flat_map app].
      replace (Z.succ (to + 1) + (last - to - 2)) with last by lia.
      rewrite entry_visible by (apply visible_iff; lia).
      replace (last =? current) with false by (symmetry; apply Z.eqb_neq; lia).
      reflexivity.
    + rewrite seqZ_cons, seqZ_nil by lia. cbn [List.flat_map app].
      replace (to + 1) with last by lia.
      rewrite entry_visible by (apply visible_iff; lia).
      replace (last =? current) with false by (symmetry; apply Z.eqb_neq; lia).
      reflexivity.
  - rewrite seqZ_nil by lia.
    destruct (Z.ltb_spec to (last - 1)); [lia|reflexivity].
Qed.

Lemma page_entries_split :
  Spec.page_entries current last
  = (List.flat_map entry (seqZ 1 (from - 1))
     ++ List.flat_map entry (seqZ from (to - from + 1))
     ++ List.flat_map entry (seqZ (to + 1) (last - to)))%list.
Proof.
  unfold Spec.page_entries. rewrite <- !flat_map_app. f_equal.
  replace last with ((from - 1) + ((to - from + 1) + (last - to))) at 1 by lia.
  rewrite seqZ_app by lia. f_equal.
  rewrite seqZ_app by lia. f_equal; [f_equal; lia|].
  f_equal. lia.
Qed.

(** The markup of the pager is the layout the design note describes. *)
Lemma pager_items_layout :
  Table.pager_items current last
  = (Table.Prev (current =? 1) (current - 1)
     :: Spec.page_entries current last
     ++ [Table.Next (current =? last) (current + 1)])%list.
Proof.
  unfold Table.pager_items.
  rewrite page_entries_split, entries_before_window, entries_in_window,
    entries_after_window.
  replace (current <=? 1) with (current =? 1)
    by (destruct (Z.eqb_spec current 1), (Z.leb_spec current 1); lia).
  replace (last <=? current) with (current =? last)
    by (destruct (Z.eqb_spec current last), (Z.leb_spec last current); lia).
  simpl. f_equal. now rewrite <- !app_assoc.
Qed.

(** The numbers shown are exactly the visible pages. *)
Lemma page_entries_numbers (q : Z) (active : bool) :
  Table.PageLink active q ∈ Spec.page_entries current last <->
  (1 <= q <= last /\ Spec.visible current last q = true /\ active = (q =? current)).
Proof.
  unfold Spec.page_entries. rewrite list_elem_of_In, in_flat_map. split.
  - intros (x & Hx & Hin). apply list_elem_of_In, elem_of_seqZ in Hx.
    unfold Spec.page_entry in Hin.
    destruct (Spec.visible current last x) eqn:Hv.
    + destruct Hin as [[= <- <-]|[]]. repeat split; (lia || assumption).
    + destruct (Spec.visible current last (x - 1)); simpl in Hin;
        intuition discriminate.
  - intros (Hq & Hv & ->). exists q. split.
    + apply list_elem_of_In, elem_of_seqZ. lia.
    + rewrite entry_visible by assumption. now left.
Qed.

(** An ellipsis stands exactly where a run of omitted pages begins. *)
Lemma page_entries_ellipsis :
  Table.Ellipsis ∈ Spec.page_entries current last <->
  exists q, 1 <= q <= last /\ Spec.visible current last q = false.
Proof.
  unfold Spec.page_entries. rewrite list_elem_of_In, in_flat_map. split.
  - intros (x & Hx & Hin). apply list_elem_of_In, elem_of_seqZ in Hx.
    exists x. split; [lia|].
    unfold Spec.page_entry in Hin.
    destruct (Spec.visible current last x); [|reflexivity].
    destruct Hin as [Hin|[]]. discriminate.
  - intros (q & Hq & Hv).
    apply visible_false_iff in Hv.
    destruct Hv as (Hq1 & Hql & [Hlow|Hhigh]).
    + exists 2. split; [apply list_elem_of_In, elem_of_seqZ; lia|].
      rewrite entry_gap_start
        by (try apply visible_false_iff; try apply visible_iff; lia).
      now left.
    + exists (current + 3). split; [apply list_elem_of_In, elem_of_seqZ; lia|].
      rewrite entry_gap_start
        by (try apply visible_false_iff; try apply visible_iff; lia).
      now left.
Qed.

End PagerFacts.

Section RenderFacts.

Variable Row : Type.
Variable prop : Row -> string -> value.
Variable dom_escape : string -> string.

Local Abbreviation options := (Table.options Row).
Local Abbreviation render_view := (Table.render_view Row prop dom_escape).
Local Abbreviation paging_of := (@Table.paging_of Row).

Lemma paging_range (opts : options) :
  1 <= Table.pageSize (paging_of opts) /\
  1 <= Table.currentPage (paging_of opts) <= Table.totalPages (paging_of opts).
Proof. apply paginate_range. Qed.

Lemma rendered_rows (opts : options) :
  Z.of_nat (length (Table.tbody (render_view opts)))
  = Z.min (Table.pageSize (paging_of opts))
          (Z.of_nat (length (Table.opt_data opts)) - Table.start (paging_of opts)).
Proof.
  unfold Table.render_view. cbn [Table.tbody]. rewrite length_map.
  unfold Table.paging_of.
  pose proof (paginate_start_in_data (Z.of_nat (length (Table.opt_data opts)))
                (Table.opt_pageSize opts) (Table.opt_currentPage opts)
                ltac:(lia)) as Hs.
  pose proof (paginate_range (Z.of_nat (length (Table.opt_data opts)))
                (Table.opt_pageSize opts) (Table.opt_currentPage opts))
    as (Hn & _).
  rewrite length_slice by lia. lia.
Qed.

Lemma render_page_effective (opts : options) (p : Z) :
  parseInt (Table.opt_currentPage opts) = Some p ->
  Table.totalPages (paging_of opts)
  = Z.max 1 (Table.ceil_div (Z.of_nat (length (Table.opt_data opts)))
                            (Table.pageSize (paging_of opts))) /\
  (0 < Z.of_nat (length (Table.opt_data opts)) ->
   Table.totalPages (paging_of opts)
   = Table.ceil_div (Z.of_nat (length (Table.opt_data opts)))
                    (Table.pageSize (paging_of opts))) /\
  Table.currentPage (paging_of opts)
  = Z.min (Z.max 1 (if p =? 0 then 1 else p)) (Table.totalPages (paging_of opts)) /\
  Z.of_nat (length (Table.tbody (render_view opts)))
  = Z.min (Table.pageSize (paging_of opts))
          (Z.of_nat (length (Table.opt_data opts))
           - (Table.currentPage (paging_of opts) - 1) * Table.pageSize (paging_of opts)).
Proof.
  intros Hp.
  pose proof (paging_range opts) as (Hn & Hc).
  split; [reflexivity|].
  split.
  { intros HL. unfold Table.paging_of. rewrite paginate_totalPages.
    pose proof (ceil_div_pos _ (Table.pageSize (paging_of opts)) HL ltac:(lia)).
    unfold Table.paging_of in *. lia. }
  split.
  { unfold Table.paging_of. rewrite paginate_currentPage, Hp. reflexivity. }
  apply rendered_rows.
Qed.

(** The pages and rows of a call with page size [n] and requested page [p]. *)
Lemma render_page_rows (opts : options) (n p : Z) :
  parseInt (Table.opt_pageSize opts) = Some n ->
  1 <= n ->
  parseInt (Table.opt_currentPage opts) = Some p ->
  Table.totalPages (paging_of opts)
  = Z.max 1 (Table.ceil_div (Z.of_nat (length (Table.opt_data opts))) n) /\
  (0 < Z.of_nat (length (Table.opt_data opts)) ->
   Table.totalPages (paging_of opts)
   = Table.ceil_div (Z.of_nat (length (Table.opt_data opts))) n) /\
  1 <= Table.currentPage (paging_of opts) <= Table.totalPages (paging_of opts) /\
  Table.currentPage (paging_of opts)
  = Z.min (Z.max 1 p) (Table.totalPages (paging_of opts)) /\
  Z.of_nat (length (Table.tbody (render_view opts)))
  = Z.min n (Z.of_nat (length (Table.opt_data opts))
             - (Table.currentPage (paging_of opts) - 1) * n) /\
  (1 <= p <= Table.totalPages (paging_of opts) ->
   Z.of_nat (length (Table.tbody (render_view opts)))
   = Z.min n (Z.of_nat (length (Table.opt_data opts)) - (p - 1) * n)).
Proof.
  intros Hn Hn1 Hp.
  assert (Hsize : Table.pageSize (paging_of opts) = n).
  { unfold Table.paging_of. rewrite paginate_pageSize, Hn. unfold num_or.
    destruct (Z.eqb_spec n 0); lia. }
  destruct (render_page_effective opts p Hp) as (Ht & Ht' & Hc & Hrows).
  rewrite Hsize in Ht, Ht', Hrows.
  pose proof (paging_range opts) as (_ & Hrange).
  assert (Hcur : Table.currentPage (paging_of opts)
                 = Z.min (Z.max 1 p) (Table.totalPages (paging_of opts)))
    by (rewrite Hc; destruct (Z.eqb_spec p 0); lia).
  repeat split; try assumption; try lia.
  intros Hin. rewrite Hrows. replace (Table.currentPage (paging_of opts)) with p by lia.
  reflexivity.
Qed.

(** C2 (as amended).  The page size [n] and the requested page [p] are
    what [parseInt] reads from the options, and integers that a script
    number holds exactly, with [n >= 1].  With [L] rows, [render]
    paginates over [max 1 (ceil (L / n))] pages, which is [ceil (L / n)] as
    soon as there is a row; the current page is [p] clamped to the range
    from 1 to that number; the rows rendered are the
    [min n (L - (c - 1) * n)] rows of the clamped page [c], and [c] is the
    requested page whenever that page exists. *)
Theorem render_page (opts : options) (n p : Z) :
  parseInt (Table.opt_pageSize opts) = Some n ->
  1 <= n <= MAX_SAFE_INTEGER ->
  parseInt (Table.opt_currentPage opts) = Some p ->
  - MAX_SAFE_INTEGER <= p <= MAX_SAFE_INTEGER ->
  Table.totalPages (paging_of opts)
  = Z.max 1 (Table.ceil_div (Z.of_nat (length (Table.opt_data opts))) n) /\
  (0 < Z.of_nat (length (Table.opt_data opts)) ->
   Table.totalPages (paging_of opts)
   = Table.ceil_div (Z.of_nat (length (Table.opt_data opts))) n) /\
  1 <= Table.currentPage (paging_of opts) <= Table.totalPages (paging_of opts) /\
  Table.currentPage (paging_of opts)
  = Z.min (Z.max 1 p) (Table.totalPages (paging_of opts)) /\
  Z.of_nat (length (Table.tbody (render_view opts)))
  = Z.min n (Z.of_nat (length (Table.opt_data opts))
             - (Table.currentPage (paging_of opts) - 1) * n) /\
  (1 <= p <= Table.totalPages (paging_of opts) ->
   Z.of_nat (length (Table.tbody (render_view opts)))
   = Z.min n (Z.of_nat (length (Table.opt_data opts)) - (p - 1) * n)).
Proof.
  intros Hn [Hn1 _] Hp _. exact (render_page_rows opts n p Hn Hn1 Hp).
Qed.

(** C3 (as amended).  When there is more than one page, the pager is
    rendered and reads: the previous control, disabled exactly on page 1;
    the page entries, which show page 1, the last page and the pages at
    most two away from the current one, with one ellipsis wherever pages
    are left out; the next control, disabled exactly on the last page.
    With a single page no pager is rendered. *)
Theorem render_pager (opts : options) :
  (let c := Table.currentPage (paging_of opts) in
   let t := Table.totalPages (paging_of opts) in
   1 < t ->
   exists pgr,
     Table.nav (render_view opts) = Some pgr /\
     Table.items pgr
     = (Table.Prev (c =? 1) (c - 1)
        :: Spec.page_entries c t ++ [Table.Next (c =? t) (c + 1)])%list /\
     Table.PageLink (1 =? c) 1 ∈ Table.items pgr /\
     Table.PageLink (t =? c) t ∈ Table.items pgr) /\
  (Table.totalPages (paging_of opts) = 1 -> Table.nav (render_view opts) = None).
Proof.
  pose proof (paging_range opts) as (Hn & Hc).
  split.
  - intros c t Ht. subst c t. unfold Table.render_view. cbn [Table.nav].
    destruct (Z.ltb_spec 1 (Table.totalPages (paging_of opts))); [|lia].
    eexists. split; [reflexivity|]. cbn [Table.items].
    rewrite (pager_items_layout _ _ Hc).
    split; [reflexivity|].
    split; apply elem_of_cons; right; apply elem_of_app; left;
      apply (page_entries_numbers _ _ Hc);
      (split; [lia|]); (split; [|reflexivity]);
      apply (visible_iff _ _ Hc); lia.
  - intros H1. unfold Table.render_view. cbn [Table.nav].
    fold (paging_of opts). rewrite H1. reflexivity.
Qed.

(** With numbers that a script holds exactly for both options, the page
    size and the requested page are those numbers. *)
Lemma render_page_numbers (opts : options) (n p : Z) :
  Table.opt_pageSize opts = VNum n ->
  Table.opt_currentPage opts = VNum p ->
  1 <= n <= MAX_SAFE_INTEGER ->
  p <= MAX_SAFE_INTEGER ->
  1 <= p <= Z.max 1 (Table.ceil_div (Z.of_nat (length (Table.opt_data opts))) n) ->
  Table.currentPage (paging_of opts) = p /\
  Z.of_nat (length (Table.tbody (render_view opts)))
  = Z.min n (Z.of_nat (length (Table.opt_data opts)) - (p - 1) * n).
Proof.
  intros Hn Hp [Hn1 _] _ Hrange.
  destruct (render_page_rows opts n p) as (Ht & _ & _ & Hc & _ & Hrows);
    [rewrite Hn; apply parseInt_number | assumption
    | rewrite Hp; apply parseInt_number |].
  rewrite Ht in Hc, Hrows. split; [lia|]. now apply Hrows.
Qed.

(** A click on a page link reports the page and renders it. *)
Lemma click_page_link (containerId : string) (opts : options) (active : bool)
    (p : Z) (document : gmap string Table.view) :
  is_Some (document !! containerId) ->
  1 <= p <= Table.totalPages (paging_of opts) ->
  exists v,
    Table.click Row prop dom_escape containerId opts (Table.PageLink active p) document
    = (Some p, <[containerId := v]> document) /\
    Z.of_nat (length (Table.tbody v))
    = Z.min (Table.pageSize (paging_of opts))
            (Z.of_nat (length (Table.opt_data opts))
             - (p - 1) * Table.pageSize (paging_of opts)).
Proof.
  intros [v0 Hdoc] Hp. unfold Table.click, Table.render. cbn [Table.clicked_page].
  rewrite Hdoc. eexists. split; [reflexivity|].
  pose proof (paging_range opts) as (Hn & _).
  set (opts' := {| Table.opt_columns := Table.opt_columns opts;
                   Table.opt_data := Table.opt_data opts;
                   Table.opt_pageSize := VNum (Table.pageSize (paging_of opts));
                   Table.opt_currentPage := VNum p |}).
  assert (Hsame : Table.totalPages (paging_of opts') = Table.totalPages (paging_of opts)).
  { unfold Table.paging_of in *. subst opts'.
    cbn [Table.opt_data Table.opt_pageSize Table.opt_currentPage].
    rewrite (paginate_totalPages _ (VNum _)), (paginate_pageSize _ (VNum _)).
    rewrite parseInt_number.
    set (n0 := Table.pageSize _) in *. rewrite paginate_totalPages. fold n0.
    unfold num_or. destruct (Z.eqb_spec n0 0); [lia|].
    now replace (Z.max 1 n0) with n0 by lia. }
  destruct (render_page_rows opts' (Table.pageSize (paging_of opts)) p)
    as (_ & _ & _ & _ & _ & Hrows);
    [apply parseInt_number | exact Hn | apply parseInt_number |].
  apply Hrows. now rewrite Hsame.
Qed.

End RenderFacts.

(** ** Register page *)

Section RegisterFacts.

Variable JSON_stringify : value -> string.
Variable type_error_text : string.
Variable register_api : value -> settlement.

Local Abbreviation submit :=
  (Register.submit JSON_stringify type_error_text register_api).

Lemma validate_fields (f : Register.form) (p : Register.page) :
  Register.passwordUI (snd (Register.validate f p))
  = fst (Register.validate_password (Register.regPassword f) (Register.passwordUI p)) /\
  Register.confirmUI (snd (Register.validate f p))
  = fst (Register.validate_confirm (Register.regPassword f)
           (Register.regConfirmPassword f) (Register.confirmUI p)) /\
  Register.calls (snd (Register.validate f p)) = Register.calls p /\
  Register.window (snd (Register.validate f p)) = Register.window p /\
  Register.loading (snd (Register.validate f p)) = Register.loading p.
Proof.
  unfold Register.validate.
  destruct (Register.validate_email _ _), (Register.validate_password _ _),
    (Register.validate_confirm _ _ _), (Register.validate_role _ _).
  repeat split.
Qed.

Lemma validate_rejects_password (f : Register.form) (p : Register.page) :
  snd (Register.validate_password (Register.regPassword f) (Register.passwordUI p)) = false ->
  fst (Register.validate f p) = false.
Proof.
  unfold Register.validate.
  destruct (Register.validate_email _ _), (Register.validate_password _ _),
    (Register.validate_confirm _ _ _), (Register.validate_role _ _).
  cbn [fst snd]. intros ->. now rewrite andb_false_r.
Qed.

(** A form that does not validate is not sent. *)
Lemma submit_invalid (f : Register.form) (p : Register.page) :
  fst (Register.validate f (Register.hideError p)) = false ->
  submit f p = snd (Register.validate f (Register.hideError p)).
Proof.
  intros Hv. unfold Register.submit.
  destruct (Register.validate f (Register.hideError p)) as [valid p'].
  cbn [fst snd] in *. now rewrite Hv.
Qed.

(** A form that validates is sent once, with the payload of the form. *)
Lemma submit_valid_calls (f : Register.form) (p : Register.page) :
  fst (Register.validate f (Register.hideError p)) = true ->
  Register.calls (submit f p) = (Register.calls p ++ [Register.register_payload f])%list.
Proof.
  intros Hv. unfold Register.submit.
  pose proof (validate_fields f (Register.hideError p)) as (_ & _ & Hcalls & _).
  destruct (Register.validate f (Register.hideError p)) as [valid p'].
  cbn [fst snd] in *. rewrite Hv. cbn [negb].
  destruct (register_api _) as [res|err].
  - destruct (Auth.setAuthFromResponse _ _ _) as [[] s]; cbn; now rewrite Hcalls.
  - cbn. now rewrite Hcalls.
Qed.

(** C7.  With password ['abc'] and confirmation ['abcdef'], submitting
    marks the password field with the length error and the confirmation
    field with the mismatch error, and returns without a network call. *)
Theorem submit_short_mismatched_password (f : Register.form) (p : Register.page) :
  Register.regPassword f = "abc" ->
  Register.regConfirmPassword f = "abcdef" ->
  Register.passwordUI (submit f p)
  = {| Register.is_invalid := true; Register.feedback := Register.MSG_PASSWORD_SHORT |} /\
  Register.confirmUI (submit f p)
  = {| Register.is_invalid := true; Register.feedback := Register.MSG_CONFIRM_MISMATCH |} /\
  Register.calls (submit f p) = Register.calls p /\
  Register.window (submit f p) = Register.window p /\
  Register.loading (submit f p) = Register.loading p.
Proof.
  intros Hpw Hcf.
  assert (Hbad : snd (Register.validate_password (Register.regPassword f)
                        (Register.passwordUI (Register.hideError p))) = false)
    by (rewrite Hpw; reflexivity).
  rewrite (submit_invalid f p (validate_rejects_password _ _ Hbad)).
  destruct (validate_fields f (Register.hideError p)) as (H1 & H2 & H3 & H4 & H5).
  rewrite H1, H2, H3, H4, H5, Hpw, Hcf. repeat split.
Qed.

End RegisterFacts.

(** ** The properties on concrete inputs *)

Example render_25_rows_page_3 :
  Sample.render_view (Sample.table 25 (VNum 10) (VNum 3)) =
  {| Table.thead := ["ID"];
     Table.tbody := [["21"]; ["22"]; ["23"]; ["24"]; ["25"]];
     Table.nav :=
       Some {| Table.first_shown := 21; Table.last_shown := 25; Table.total_shown := 25;
               Table.items := [Table.Prev false 2; Table.PageLink false 1;
                               Table.PageLink false 2; Table.PageLink true 3;
                               Table.Next true 4] |} |}.
Proof. reflexivity. Qed.

(** Twenty-five rows, ten to a page: a click on page 3 reports 3 and
    shows rows 21 to 25, with the next control disabled. *)
Example click_page_3_of_25 :
  let document : gmap string Table.view :=
    {[ "imagesTableContainer" := Sample.render_view (Sample.table 25 (VNum 10) (VNum 1)) ]} in
  let after := Table.click value field Sample.escape "imagesTableContainer"
                 (Sample.table 25 (VNum 10) (VNum 1)) (Table.PageLink false 3) document in
  fst after = Some 3 /\
  (Table.tbody <$> snd after !! "imagesTableContainer")
  = Some [["21"]; ["22"]; ["23"]; ["24"]; ["25"]] /\
  (Table.nav <$> snd after !! "imagesTableContainer")
  = Some (Some {| Table.first_shown := 21; Table.last_shown := 25;
                  Table.total_shown := 25;
                  Table.items := [Table.Prev false 2; Table.PageLink false 1;
                                  Table.PageLink false 2; Table.PageLink true 3;
                                  Table.Next true 4] |}).
Proof. vm_compute. repeat split. Qed.

(** A 422 answer with a message, a 409 answer without one, and a 422
    answer that lists the errors of two fields. *)
Lemma request_error_string_witness :
  Api.request Sample.API_BASE Sample.stringify
    (Sample.always (Sample.answer 422 (Some (VObj [("message", VStr "Email is required")]))))
    ∅ "POST" "/api/auth/register" VNull false
  = Rejected (Error "Email is required")
  /\
  Api.request Sample.API_BASE Sample.stringify
    (Sample.always (Sample.answer 409 (Some (VObj []))))
    ∅ "POST" "/api/auth/register" VNull false
  = Rejected (Error Api.MSG_EMAIL_TAKEN)
  /\
  Api.request Sample.API_BASE Sample.stringify
    (Sample.always (Sample.answer 422 (Some Sample.field_errors_body)))
    ∅ "POST" "/api/auth/register" VNull false
  = Rejected (Error "Invalid email. Too short. Too weak").
Proof.
  split; [|split].
  - refine (proj2 (proj1 (request_error_string Sample.API_BASE Sample.stringify
             (Sample.always (Sample.answer 422 (Some (VObj [("message", VStr "Email is required")]))))
             ∅ "POST" "/api/auth/register" VNull false
             {| Api.status := 422; Api.json := Some (VObj [("message", VStr "Email is required")]) |}
             (VObj [("message", VStr "Email is required")]) _ _ _) _ _));
      first [reflexivity | simpl; lia].
  - refine (proj1 (proj2 (request_error_string Sample.API_BASE Sample.stringify
             (Sample.always (Sample.answer 409 (Some (VObj []))))
             ∅ "POST" "/api/auth/register" VNull false
             {| Api.status := 409; Api.json := Some (VObj []) |} (VObj []) _ _ _)
             _ _ _) Api.MSG_EMAIL_TAKEN _);
      first [reflexivity | simpl; lia].
  - refine (proj2 (proj2 (request_error_string Sample.API_BASE Sample.stringify
             (Sample.always (Sample.answer 422 (Some Sample.field_errors_body)))
             ∅ "POST" "/api/auth/register" VNull false
             {| Api.status := 422; Api.json := Some Sample.field_errors_body |}
             Sample.field_errors_body _ _ _)
             _ _ _) Sample.field_errors _ _ _ _);
      first [reflexivity | simpl; lia | discriminate].
Defined.

(** C1 as stated fails: at status 409 a body with a [message] is reported
    by that message, not by the duplicate-email message. *)
Lemma request_error_string_counterexample :
  Spec.status_override 409 = Some Api.MSG_EMAIL_TAKEN /\
  Api.request Sample.API_BASE Sample.stringify
    (Sample.always (Sample.answer 409 (Some (VObj [("message", VStr "Conflict")]))))
    ∅ "POST" "/api/auth/register" VNull false
  = Rejected (Error "Conflict") /\
  Rejected (Error "Conflict") <> Rejected (Error Api.MSG_EMAIL_TAKEN).
Proof. repeat split. discriminate. Qed.

(** A 200 answer resolves, a 404 answer rejects. *)
Lemma request_settles_witness :
  Api.request Sample.API_BASE Sample.stringify
    (Sample.always (Sample.answer 200 (Some (VObj [("data", VNum 1)]))))
    ∅ "GET" "/api/patients/1" VNull true
  = Resolved (VObj [("data", VNum 1)])
  /\
  exists e,
    Api.request Sample.API_BASE Sample.stringify
      (Sample.always (Sample.answer 404 (Some (VObj []))))
      ∅ "GET" "/api/patients/1" VNull true
    = Rejected e.
Proof.
  split.
  - apply (proj1 (request_settles Sample.API_BASE Sample.stringify
                    (Sample.always (Sample.answer 200 (Some (VObj [("data", VNum 1)]))))
                    ∅ "GET" "/api/patients/1" VNull true)
             {| Api.status := 200; Api.json := Some (VObj [("data", VNum 1)]) |});
      [reflexivity | simpl; lia | reflexivity].
  - apply (proj1 (proj2 (request_settles Sample.API_BASE Sample.stringify
                    (Sample.always (Sample.answer 404 (Some (VObj []))))
                    ∅ "GET" "/api/patients/1" VNull true))
             {| Api.status := 404; Api.json := Some (VObj []) |});
      [reflexivity | simpl; lia].
Defined.

(** A 204 answer has no body to parse. *)
Lemma request_unparsable_body_witness :
  Api.request Sample.API_BASE Sample.stringify
    (Sample.always (Sample.answer 204 None))
    ∅ "PUT" "/api/patients/1" (VObj [("name", VStr "An")]) true
  = Resolved (VObj []).
Proof.
  apply (request_unparsable_body Sample.API_BASE Sample.stringify
           (Sample.always (Sample.answer 204 None))
           ∅ "PUT" "/api/patients/1" (VObj [("name", VStr "An")]) true
           {| Api.status := 204; Api.json := None |});
    [reflexivity | simpl; lia | reflexivity].
Defined.

(** A doctor's answer stores the role of a doctor over the role stored
    before; a payload without a token leaves a stored role alone. *)
Lemma setAuthFromResponse_contract_witness :
  (let r := Auth.setAuthFromResponse Sample.stringify
              (VObj [("data", VObj [("access_token", VStr "tok"); ("role_id", VNum 2)])])
              {[Config.ROLE := "Patient"]} in
   fst r = true /\ snd r !! Config.ROLE = Some "Doctor" /\
   snd r !! Config.TOKEN = Some "tok")
  /\
  Auth.setAuthFromResponse Sample.stringify
    (VObj [("data", VObj [("email", VStr "an@example.org")])])
    {[Config.ROLE := "Doctor"]}
  = (false, {[Config.ROLE := "Doctor"]}).
Proof.
  split.
  - refine (proj1 (setAuthFromResponse_contract Sample.stringify)
              {[Config.ROLE := "Patient"]} "tok" 2 "Doctor" _ _);
      [discriminate | apply list_elem_of_further, list_elem_of_here].
  - refine (proj2 (proj2 (setAuthFromResponse_contract Sample.stringify)) _ _ _).
    reflexivity.
Defined.

(** A page size that is not a number, and a negative one. *)
Lemma paginate_guards_witness :
  Table.pageSize (Table.paginate 25 (VStr "abc") (VNum 1)) = 10 /\
  Table.pageSize (Table.paginate 25 (VNum (-3)) (VNum 1)) = 1.
Proof.
  split.
  - refine (proj1 (proj2 (proj2 (proj2 (proj2
              (paginate_guards 25 (VStr "abc") (VNum 1) _ _))))) _);
      first [reflexivity | left; reflexivity].
  - refine (proj1 (proj2 (proj2 (proj2 (proj2 (proj2
              (paginate_guards 25 (VNum (-3)) (VNum 1) _ _)))))) (-3) _ _);
      first [reflexivity | lia].
Defined.

(** C9 as stated fails: the negative page size [-0.5], which the script
    reads through its decimal numeral, is read as [-0] and becomes 10,
    not 1. *)
Lemma paginate_guards_counterexample :
  parseInt (VStr "-0.5") = Some 0 /\
  Table.pageSize (Table.paginate 25 (VStr "-0.5") (VNum 1)) = 10 /\
  Table.pageSize (Table.paginate 25 (VStr "-0.5") (VNum 1)) <> 1.
Proof. repeat split. discriminate. Qed.

(** Twenty-five rows, ten to a page, page 3: five rows. *)
Lemma render_page_witness :
  Z.of_nat (length (Table.tbody (Sample.render_view (Sample.table 25 (VNum 10) (VNum 3)))))
  = Z.min 10 (Z.of_nat (length (Sample.rows 25)) - (3 - 1) * 10).
Proof.
  apply (render_page value field Sample.escape (Sample.table 25 (VNum 10) (VNum 3)) 10 3);
    first [reflexivity | vm_compute; split; discriminate].
Defined.

(** C2 as stated fails: with no rows there is one page, not
    [ceil (0 / 10) = 0] pages, and the request for page 2 renders no row,
    not [min 10 (0 - 10)] rows. *)
Lemma render_page_counterexample :
  Table.totalPages (Table.paging_of (Sample.table 0 (VNum 10) (VNum 2)))
  <> Table.ceil_div (Z.of_nat (length (Sample.rows 0))) 10
  /\
  Z.of_nat (length (Table.tbody (Sample.render_view (Sample.table 0 (VNum 10) (VNum 2)))))
  <> Z.min 10 (Z.of_nat (length (Sample.rows 0)) - (2 - 1) * 10).
Proof. split; vm_compute; discriminate. Qed.

(** The pager of the same table on its last page. *)
Lemma render_pager_witness :
  exists pgr,
    Table.nav (Sample.render_view (Sample.table 25 (VNum 10) (VNum 3))) = Some pgr /\
    Table.items pgr
    = (Table.Prev (3 =? 1) (3 - 1)
       :: Spec.page_entries 3 3 ++ [Table.Next (3 =? 3) (3 + 1)])%list /\
    Table.PageLink (1 =? 3) 1 ∈ Table.items pgr /\
    Table.PageLink (3 =? 3) 3 ∈ Table.items pgr.
Proof.
  apply (proj1 (render_pager value field Sample.escape
                  (Sample.table 25 (VNum 10) (VNum 3)))).
  vm_compute. reflexivity.
Defined.

(** C3 as stated fails: a table of five rows with page size 10 is
    rendered without any pager, so neither a page number nor a disabled
    previous control is shown although the current page is page 1. *)
Lemma render_pager_counterexample :
  Table.currentPage (Table.paging_of (Sample.table 5 (VNum 10) (VNum 1))) = 1 /\
  ~ exists pgr,
      Table.nav (Sample.render_view (Sample.table 5 (VNum 10) (VNum 1))) = Some pgr.
Proof. split; [reflexivity|]. intros [pgr H]. vm_compute in H. discriminate. Qed.

(** The form of the example, on a fresh page. *)
Lemma submit_short_mismatched_password_witness :
  let f := {| Register.regEmail := "an@example.org"; Register.regPassword := "abc";
              Register.regConfirmPassword := "abcdef"; Register.regRole := "3" |} in
  let api := fun _ : value => Resolved (VObj [("access_token", VStr "t")]) in
  Register.passwordUI (Register.submit Sample.stringify Sample.type_error_text api f Sample.blank_page)
  = {| Register.is_invalid := true; Register.feedback := Register.MSG_PASSWORD_SHORT |} /\
  Register.confirmUI (Register.submit Sample.stringify Sample.type_error_text api f Sample.blank_page)
  = {| Register.is_invalid := true; Register.feedback := Register.MSG_CONFIRM_MISMATCH |} /\
  Register.calls (Register.submit Sample.stringify Sample.type_error_text api f Sample.blank_page) = [] /\
  Register.window (Register.submit Sample.stringify Sample.type_error_text api f Sample.blank_page)
  = Register.window Sample.blank_page /\
  Register.loading (Register.submit Sample.stringify Sample.type_error_text api f Sample.blank_page) = false.
Proof.
  intros f api.
  apply (submit_short_mismatched_password Sample.stringify Sample.type_error_text api f Sample.blank_page);
    reflexivity.
Defined.

(** A password of four characters is too short although its UTF-8
    encoding has six bytes, and an email with a no-break space inside is
    not an address: neither form is sent. *)
Example submit_unicode_forms :
  let api := fun _ : value => Resolved (VObj [("access_token", VStr "t")]) in
  let short := {| Register.regEmail := "an@example.org"; Register.regPassword := "mậtk";
                  Register.regConfirmPassword := "mậtk"; Register.regRole := "3" |} in
  let spaced := {| Register.regEmail := utf8 [97; 194; 160; 98; 64; 99; 46; 100]%nat;
                   Register.regPassword := "abcdef";
                   Register.regConfirmPassword := "abcdef"; Register.regRole := "3" |} in
  Register.calls (Register.submit Sample.stringify Sample.type_error_text api short
                    Sample.blank_page) = [] /\
  Register.is_invalid
    (Register.passwordUI (Register.submit Sample.stringify Sample.type_error_text api short
                            Sample.blank_page)) = true /\
  Register.calls (Register.submit Sample.stringify Sample.type_error_text api spaced
                    Sample.blank_page) = [] /\
  Register.is_invalid
    (Register.emailUI (Register.submit Sample.stringify Sample.type_error_text api spaced
                         Sample.blank_page)) = true.
Proof. vm_compute. repeat split. Qed.

(** The same form with a password long enough and confirmed is sent. *)
Example submit_valid_form :
  let f := {| Register.regEmail := " an@example.org "; Register.regPassword := "abcdef";
              Register.regConfirmPassword := "abcdef"; Register.regRole := "3" |} in
  let api := fun _ : value =>
    Resolved (VObj [("data", VObj [("access_token", VStr "t"); ("role_id", VNum 3)])]) in
  let p := Register.submit Sample.stringify Sample.type_error_text api f Sample.blank_page in
  Register.calls p = [VObj [("email", VStr "an@example.org");
                            ("password", VStr "abcdef"); ("role_id", VNum 3)]] /\
  Auth.href (Register.window p)
  = Some "https://aura.example/patient/dashboard.html" /\
  Auth.storage (Register.window p) !! Config.ROLE = Some "Patient".
Proof. vm_compute. repeat split. Qed.

(** * Further properties of the scripts *)

(** ** HTTP client: headers, body and error bodies *)

(** X1.  The content type is always sent; the bearer token is sent exactly when
    authentication is asked for and a non-empty token is stored. *)
Theorem getHeaders_authorization (storage : gmap string string) (includeAuth : bool) :
  ("Content-Type", "application/json") ∈ Api.getHeaders storage includeAuth /\
  (forall v : string,
      ("Authorization", v) ∈ Api.getHeaders storage includeAuth <->
      includeAuth = true /\
      exists t, storage !! Config.TOKEN = Some t /\ t <> "" /\ v = "Bearer " +:+ t).
Proof.
  unfold Api.getHeaders, getItem.
  destruct includeAuth.
  - destruct (storage !! Config.TOKEN) as [t|] eqn:Ht; cbn [truthy].
    + destruct (String.eqb_spec t "") as [->|Hne]; cbn [negb].
      * split; [apply list_elem_of_here|]. intros v. split.
        -- intros Hin. apply list_elem_of_singleton in Hin. discriminate.
        -- intros (_ & t & [= <-] & Hne & _). congruence.
      * split; [apply list_elem_of_here|]. intros v. split.
        -- intros Hin. apply elem_of_cons in Hin as [Hin|Hin]; [discriminate|].
           apply list_elem_of_singleton in Hin. inversion Hin; subst.
           split; [reflexivity|]. cbn [to_string]. eauto.
        -- intros (_ & t' & [= <-] & _ & ->). right. apply list_elem_of_here.
    + split; [apply list_elem_of_here|]. intros v. split.
      * intros Hin. apply list_elem_of_singleton in Hin. discriminate.
      * intros (_ & t & Hn & _). discriminate.
  - split; [apply list_elem_of_here|]. intros v. split.
    + intros Hin. apply list_elem_of_singleton in Hin. discriminate.
    + intros [Hf _]. discriminate.
Qed.

Lemma sends_body_iff (method : string) :
  Api.sends_body method = true <-> method = "POST" \/ method = "PUT" \/ method = "PATCH".
Proof.
  unfold Api.sends_body. rewrite !orb_true_iff, !String.eqb_eq. tauto.
Qed.

(** X2.  A body is sent exactly for a truthy body on POST, PUT or PATCH, and is
    then its serialisation; GET and DELETE never carry one. *)
Theorem request_body_sent (JSON_stringify : value -> string)
    (storage : gmap string string) (method : string) (body : value) (useAuth : bool) :
  (Api.opt_body (Api.request_options JSON_stringify storage method body useAuth)
   = Some (JSON_stringify body) <->
   truthy body = true /\ (method = "POST" \/ method = "PUT" \/ method = "PATCH")) /\
  (Api.opt_body (Api.request_options JSON_stringify storage method body useAuth) = None <->
   ~ (truthy body = true /\ (method = "POST" \/ method = "PUT" \/ method = "PATCH"))).
Proof.
  cbn [Api.request_options Api.opt_body].
  rewrite <- sends_body_iff.
  destruct (truthy body), (Api.sends_body method); cbn [andb];
    (split; split; [intros H|intros H|intros H|intros H]);
    first [ discriminate H | reflexivity | tauto
          | (destruct H; discriminate)
          | (intros [? ?]; discriminate)
          | (exfalso; apply H; split; reflexivity) ].
Qed.

Section ApiCallFacts.

Variable API_BASE : string.
Variable JSON_stringify : value -> string.
Variable fetch : string -> Api.fetch_options -> Api.fetch_result.

Lemma request_without_auth (s1 s2 : gmap string string) (method path : string)
    (body : value) :
  Api.request API_BASE JSON_stringify fetch s1 method path body false
  = Api.request API_BASE JSON_stringify fetch s2 method path body false.
Proof. reflexivity. Qed.

(** X3.  The calls made before there is a session (login, register, forgot and
    reset password) do not depend on what the storage holds: no stored
    token is read or sent. *)
Theorem session_free_calls (s1 s2 : gmap string string) (v w : value) :
  Api.login API_BASE JSON_stringify fetch s1 v
  = Api.login API_BASE JSON_stringify fetch s2 v /\
  Api.register API_BASE JSON_stringify fetch s1 v
  = Api.register API_BASE JSON_stringify fetch s2 v /\
  ApiCalls.forgotPassword API_BASE JSON_stringify fetch s1 v
  = ApiCalls.forgotPassword API_BASE JSON_stringify fetch s2 v /\
  ApiCalls.resetPassword API_BASE JSON_stringify fetch s1 v w
  = ApiCalls.resetPassword API_BASE JSON_stringify fetch s2 v w /\
  Api.opt_headers (Api.request_options JSON_stringify s1 "POST" v false)
  = [("Content-Type", "application/json")].
Proof. repeat split. Qed.

(** [parseErrorMessage] throws exactly on a [null] body at a status other
    than 401 and 409. *)
Lemma parseErrorMessage_throws (status : Z) (data : value) :
  (exists e, Api.parseErrorMessage status data = Throw e) <->
  is_nullish data = true /\ status <> 401 /\ status <> 409.
Proof.
  split.
  - intros [e He].
    destruct (truthy (field data "message")) eqn:Hm.
    { rewrite parseErrorMessage_message in He by assumption. discriminate. }
    destruct (truthy (field data "error")) eqn:Herr.
    { rewrite parseErrorMessage_error in He by assumption. discriminate. }
    destruct (is_nullish data) eqn:Hn.
    + split; [reflexivity|].
      split; intros ->; destruct data; try discriminate Hn; discriminate He.
    + rewrite parseErrorMessage_by_status in He by assumption. discriminate.
  - intros (Hn & H401 & H409). exists TypeError.
    unfold Api.parseErrorMessage.
    assert (Hf : forall k, truthy (and_then data (field data k)) = false)
      by (intros k; destruct data; try discriminate Hn; reflexivity).
    rewrite !Hf, andb_false_r.
    destruct (Z.eqb_spec status 401); [contradiction|].
    destruct (Z.eqb_spec status 409); [contradiction|].
    unfold get. rewrite Hn.
    now destruct (status =? 501), (500 <=? status).
Qed.

(** X4.  An error answer whose body is the JSON value [null] rejects with a
    type error, not with a readable message, unless the status is 401 or
    409, which have their fixed messages. *)
Theorem request_null_error_body
    (storage : gmap string string) (method path : string)
    (body : value) (useAuth : bool) (res : Api.response) :
  Api.fetched API_BASE JSON_stringify fetch storage method path body useAuth
  = Api.Responded res ->
  (Api.status res < 200 \/ 299 < Api.status res) ->
  Api.json res = Some VNull ->
  Api.request API_BASE JSON_stringify fetch storage method path body useAuth
  = Rejected (if Api.status res =? 401 then Error Api.MSG_BAD_CREDENTIALS
              else if Api.status res =? 409 then Error Api.MSG_EMAIL_TAKEN
              else TypeError).
Proof.
  intros Hf Hst Hj. unfold Api.request.
  rewrite Hf, (proj2 (ok_false_iff res) Hst), Hj. cbn [negb default].
  unfold Api.parseErrorMessage. cbn.
  destruct (Api.status res =? 422); cbn;
    destruct (Api.status res =? 401); [reflexivity| |reflexivity|];
    destruct (Api.status res =? 409); try reflexivity;
    now destruct (Api.status res =? 501), (500 <=? Api.status res).
Qed.

(** X5.  Without a [message], a truthy [error] field of the body is what the
    rejection carries, at every error status. *)
Theorem request_error_field
    (storage : gmap string string) (method path : string)
    (body : value) (useAuth : bool) (res : Api.response) (data : value) :
  Api.fetched API_BASE JSON_stringify fetch storage method path body useAuth
  = Api.Responded res ->
  (Api.status res < 200 \/ 299 < Api.status res) ->
  Api.json res = Some data ->
  truthy (field data "message") = false ->
  truthy (field data "error") = true ->
  Api.request API_BASE JSON_stringify fetch storage method path body useAuth
  = Rejected (Error (to_string (field data "error"))).
Proof.
  intros Hf Hst Hj Hm He.
  rewrite <- (truthy_error_message _ He).
  eapply request_rejects_with; eauto.
  - now apply ok_false_iff.
  - now apply parseErrorMessage_error.
Qed.

(** X6.  A data wrapper ([getPatient], [getPatientByAccount], ...) rejects as
    its request does; on a 2xx answer it resolves with the [data] field of
    the body, with [undefined] when the body has none or does not parse,
    and it rejects with a type error when the body is [null]. *)
Theorem data_wrapper_outcome
    (storage : gmap string string) (method path : string)
    (body : value) (useAuth : bool) :
  (forall e,
      ApiCalls.request API_BASE JSON_stringify fetch storage method path body useAuth
      = Rejected e ->
      ApiCalls.data_of
        (ApiCalls.request API_BASE JSON_stringify fetch storage method path body useAuth)
      = Rejected e) /\
  (forall res,
      Api.fetched API_BASE JSON_stringify fetch storage method path body useAuth
      = Api.Responded res ->
      200 <= Api.status res <= 299 ->
      ApiCalls.data_of
        (ApiCalls.request API_BASE JSON_stringify fetch storage method path body useAuth)
      = match Api.json res with
        | Some data => if is_nullish data then Rejected TypeError
                       else Resolved (field data "data")
        | None => Resolved VUndef
        end).
Proof.
  split.
  - intros e He. now rewrite He.
  - intros res Hf Hst. unfold ApiCalls.request, Api.request.
    rewrite Hf, (proj2 (ok_true_iff res) Hst). cbn [negb].
    destruct (Api.json res) as [data|]; [|reflexivity].
    destruct data; reflexivity.
Qed.

End ApiCallFacts.

(** ** Session store: clearing, storing and gating *)

Lemma role_names_plain (z : Z) (name : string) :
  Spec.role_name z = Some name ->
  name <> "" /\ object_prototype name = None /\
  exists d, Spec.dashboard_path name = Some d.
Proof.
  unfold Spec.role_name.
  destruct (z =? 1); [intros [= <-]; repeat split; [discriminate|eexists; reflexivity]|].
  destruct (z =? 2); [intros [= <-]; repeat split; [discriminate|eexists; reflexivity]|].
  destruct (z =? 3); [intros [= <-]; repeat split; [discriminate|eexists; reflexivity]|].
  destruct (z =? 4); [intros [= <-]; repeat split; [discriminate|eexists; reflexivity]|].
  discriminate.
Qed.

(** What [clearAuth] leaves of the storage, key by key. *)
Lemma clearAuth_storage (b : Auth.browser) (k : string) :
  Auth.storage (Auth.clearAuth b) !! k =
  if bool_decide (k ∈ [Config.TOKEN; Config.USER; Config.ROLE]) then None
  else if bool_decide (k = Config.REFRESH_TOKEN) && Auth.configured b then None
  else Auth.storage b !! k.
Proof.
  unfold Auth.clearAuth, Auth.KEYS_REFRESH_TOKEN.
  cbn [Auth.with_storage Auth.storage].
  destruct (Auth.configured b); cbn [Auth.nonempty String.eqb negb Config.REFRESH_TOKEN];
    rewrite !lookup_delete; rewrite ?andb_true_r, ?andb_false_r;
    repeat case_decide; repeat case_bool_decide; subst; try reflexivity;
    try discriminate; try congruence;
    rewrite ?elem_of_cons, ?elem_of_nil in *; exfalso; intuition congruence.
Qed.

Lemma clearAuth_gone (b : Auth.browser) :
  Auth.storage (Auth.clearAuth b) !! Config.TOKEN = None.
Proof. now rewrite clearAuth_storage. Qed.

(** X7.  [clearAuth] ends the session: the token, user and role keys are
    gone, and so is the refresh-token key when the key table of the
    configuration is in use (the table the script falls back on names no
    such key, and the key is then left alone); every other key of the
    storage and the address are untouched, and nobody is logged in. *)
Theorem clearAuth_ends_session (b : Auth.browser) :
  Auth.isLoggedIn (Auth.clearAuth b) = false /\
  Auth.getRole (Auth.clearAuth b) = "" /\
  (forall k, k ∈ [Config.TOKEN; Config.USER; Config.ROLE] ->
             Auth.storage (Auth.clearAuth b) !! k = None) /\
  Auth.storage (Auth.clearAuth b) !! Config.REFRESH_TOKEN
  = (if Auth.configured b then None else Auth.storage b !! Config.REFRESH_TOKEN) /\
  (forall k, k ∉ [Config.TOKEN; Config.REFRESH_TOKEN; Config.USER; Config.ROLE] ->
             Auth.storage (Auth.clearAuth b) !! k = Auth.storage b !! k) /\
  Auth.href (Auth.clearAuth b) = Auth.href b /\
  Auth.pathname (Auth.clearAuth b) = Auth.pathname b.
Proof.
  split.
  { unfold Auth.isLoggedIn, Auth.getToken, getItem. now rewrite clearAuth_gone. }
  split.
  { unfold Auth.getRole, getItem. now rewrite clearAuth_storage. }
  split.
  { intros k Hk. rewrite clearAuth_storage. now rewrite bool_decide_eq_true_2. }
  split.
  { rewrite clearAuth_storage. now destruct (Auth.configured b). }
  split; [|split; reflexivity].
  intros k Hk. rewrite clearAuth_storage.
  rewrite bool_decide_eq_false_2.
  - rewrite bool_decide_eq_false_2; [reflexivity|].
    intros ->. apply Hk. apply list_elem_of_further, list_elem_of_here.
  - intros Hin. apply Hk.
    repeat (apply elem_of_cons in Hin as [->|Hin]);
      [apply list_elem_of_here
      |do 2 apply list_elem_of_further; apply list_elem_of_here
      |do 3 apply list_elem_of_further; apply list_elem_of_here
      |now apply elem_of_nil in Hin].
Qed.

(** X8.  [requireRole] lets the page load exactly when a token is stored and
    the stored role is the required one, and then changes nothing.
    Otherwise it navigates: to the login page when nobody is logged in.
    It never writes to the storage. *)
Theorem requireRole_gate (allowedRole : string) (b : Auth.browser) :
  (fst (Auth.requireRole allowedRole b) = true <->
   Auth.isLoggedIn b = true /\ Auth.getRole b = allowedRole) /\
  (fst (Auth.requireRole allowedRole b) = true ->
   snd (Auth.requireRole allowedRole b) = b) /\
  (fst (Auth.requireRole allowedRole b) = false ->
   is_Some (Auth.href (snd (Auth.requireRole allowedRole b)))) /\
  (Auth.isLoggedIn b = false ->
   Auth.href (snd (Auth.requireRole allowedRole b)) = Some (Auth.getLoginPageUrl b)) /\
  Auth.storage (snd (Auth.requireRole allowedRole b)) = Auth.storage b.
Proof.
  unfold Auth.requireRole, Auth.requireLogin.
  destruct (Auth.isLoggedIn b) eqn:Hin; cbn [negb fst snd].
  - destruct (String.eqb_spec (Auth.getRole b) allowedRole) as [He|Hne]; cbn [negb fst snd].
    + repeat split; try discriminate; eauto.
    + repeat split; try discriminate; try (intros [_ ?]; contradiction).
      intros _. cbn. eauto.
  - repeat split; try discriminate; try (intros [? _]; discriminate).
    intros _. cbn. eauto.
Qed.

Section SessionFacts.

Variable JSON_stringify : value -> string.

Local Abbreviation setAuthFromResponse := (Auth.setAuthFromResponse JSON_stringify).

Lemma stored_session (body : value) (s : gmap string string) (t : string) (z : Z)
    (name : string) :
  field (Auth.payload body) "access_token" = VStr t -> t <> "" ->
  field (Auth.payload body) "role_id" = VNum z ->
  Spec.role_name z = Some name ->
  fst (setAuthFromResponse body s) = true /\
  snd (setAuthFromResponse body s) !! Config.TOKEN = Some t /\
  snd (setAuthFromResponse body s) !! Config.ROLE = Some name /\
  snd (setAuthFromResponse body s) !! Config.USER
  = Some (JSON_stringify (Auth.user_record (Auth.payload body))).
Proof.
  intros Ht Hne Hz Hname.
  destruct (role_names_plain z name Hname) as (Hn & _ & _).
  assert (Htruthy : truthy (field (Auth.payload body) "access_token") = true).
  { rewrite Ht. cbn. now destruct (String.eqb_spec t ""). }
  rewrite setAuthFromResponse_accepts by assumption. cbn [fst snd].
  rewrite Hz, getRoleNameByRoleId_number, Hname, Ht. cbn [default].
  rewrite setAuth_all; [|cbn; now destruct (String.eqb_spec t "")|reflexivity
                        |cbn; now destruct (String.eqb_spec name "")].
  destruct storage_keys_distinct as (Htu & Htr & Hur).
  repeat split.
  - rewrite !lookup_insert_ne by congruence. apply lookup_insert_eq.
  - apply lookup_insert_eq.
  - rewrite lookup_insert_ne by congruence. apply lookup_insert_eq.
Qed.

Lemma opened_session (body : value) (b : Auth.browser)
    (t : string) (z : Z) (name : string) :
  field (Auth.payload body) "access_token" = VStr t -> t <> "" ->
  field (Auth.payload body) "role_id" = VNum z ->
  Spec.role_name z = Some name ->
  fst (setAuthFromResponse body (Auth.storage b)) = true /\
  Auth.getToken (Auth.with_storage b (snd (setAuthFromResponse body (Auth.storage b))))
  = VStr t /\
  Auth.isLoggedIn (Auth.with_storage b (snd (setAuthFromResponse body (Auth.storage b))))
  = true /\
  Auth.getRole (Auth.with_storage b (snd (setAuthFromResponse body (Auth.storage b))))
  = name /\
  Auth.requireRole name
    (Auth.with_storage b (snd (setAuthFromResponse body (Auth.storage b))))
  = (true, Auth.with_storage b (snd (setAuthFromResponse body (Auth.storage b)))).
Proof.
  intros Ht Hne Hz Hname.
  destruct (stored_session body (Auth.storage b) t z name Ht Hne Hz Hname)
    as (Hok & Htok & Hrole & _).
  destruct (role_names_plain z name Hname) as (Hn & _ & _).
  set (b' := Auth.with_storage b _).
  assert (Hget : Auth.getToken b' = VStr t)
    by (unfold Auth.getToken, getItem; subst b'; cbn [Auth.with_storage Auth.storage];
        now rewrite Htok).
  assert (Hin : Auth.isLoggedIn b' = true)
    by (unfold Auth.isLoggedIn; rewrite Hget; cbn; now destruct (String.eqb_spec t "")).
  assert (Hr : Auth.getRole b' = name).
  { unfold Auth.getRole, getItem. subst b'. cbn [Auth.with_storage Auth.storage].
    rewrite Hrole. unfold or_else. cbn. now destruct (String.eqb_spec name ""). }
  repeat split; try assumption.
  rewrite <- Hr at 1. now apply requireRole_match.
Qed.

(** X9.  Storing a response that carries a token string and one of the four
    role identifiers opens the session: the token and the role name read
    back, the user is logged in, and the gate of that role lets the page
    load. *)
Theorem setAuthFromResponse_opens_session (body : value) (b : Auth.browser)
    (t : string) (z : Z) (name : string) :
  field (Auth.payload body) "access_token" = VStr t -> t <> "" ->
  field (Auth.payload body) "role_id" = VNum z ->
  Spec.role_name z = Some name ->
  fst (setAuthFromResponse body (Auth.storage b)) = true /\
  Auth.getToken (Auth.with_storage b (snd (setAuthFromResponse body (Auth.storage b))))
  = VStr t /\
  Auth.isLoggedIn (Auth.with_storage b (snd (setAuthFromResponse body (Auth.storage b))))
  = true /\
  Auth.getRole (Auth.with_storage b (snd (setAuthFromResponse body (Auth.storage b))))
  = name /\
  Auth.requireRole name
    (Auth.with_storage b (snd (setAuthFromResponse body (Auth.storage b))))
  = (true, Auth.with_storage b (snd (setAuthFromResponse body (Auth.storage b)))).
Proof. exact (opened_session body b t z name). Qed.

(** With a stored role that the table's prototype does not define,
    [redirectByRole] goes to the dashboard of the role, or to the index
    page, in the directory of the current page. *)
Lemma redirectByRole_landing (b : Auth.browser) :
  object_prototype (Auth.getRole b) = None ->
  Auth.redirectByRole b =
  Auth.navigate b
    ((if Auth.nonempty (Auth.origin b) then Auth.origin b else "")
     +:+ Auth.under (Auth.drop_last_segment (Auth.pathname b))
           (VStr (Spec.landing_page (Auth.getRole b)))).
Proof.
  intros Hp. unfold Auth.redirectByRole.
  rewrite (dashboards_lookup _ Hp).
  now destruct (Auth.nonempty (Auth.origin b)).
Qed.

(** X10.  After a response with a token string and one of the four role
    identifiers has been stored, [redirectByRole] goes to the dashboard of
    that role in the directory of the current page. *)
Theorem stored_role_redirect (body : value) (b : Auth.browser)
    (t : string) (z : Z) (name : string) :
  field (Auth.payload body) "access_token" = VStr t -> t <> "" ->
  field (Auth.payload body) "role_id" = VNum z ->
  Spec.role_name z = Some name ->
  exists dashboard,
    Spec.dashboard_path name = Some dashboard /\
    Auth.href (Auth.redirectByRole
                 (Auth.with_storage b (snd (setAuthFromResponse body (Auth.storage b)))))
    = Some ((if Auth.nonempty (Auth.origin b) then Auth.origin b else "")
            +:+ Auth.under (Auth.drop_last_segment (Auth.pathname b)) (VStr dashboard)).
Proof.
  intros Ht Hne Hz Hname.
  destruct (opened_session body b t z name Ht Hne Hz Hname) as (_ & _ & _ & Hr & _).
  destruct (role_names_plain z name Hname) as (_ & Hp & d & Hd).
  exists d. split; [assumption|].
  rewrite redirectByRole_landing by (rewrite Hr; assumption).
  rewrite Hr. unfold Spec.landing_page. rewrite Hd. reflexivity.
Qed.

End SessionFacts.

(** ** Session store: the login address *)

Lemma split_slash_slash_free (s : string) :
  Paths.slash_free s = true -> Auth.split_slash s = [s].
Proof.
  induction s as [|c s IH]; [reflexivity|]. cbn [Paths.slash_free Auth.split_slash].
  intros [Hc Hs]%andb_true_iff. apply negb_true_iff in Hc. rewrite Hc.
  now rewrite (IH Hs).
Qed.

Lemma split_slash_app (s rest : string) :
  Paths.slash_free s = true ->
  Auth.split_slash (s +:+ "/" +:+ rest) = s :: Auth.split_slash rest.
Proof.
  induction s as [|c s IH]; [reflexivity|]. cbn [Paths.slash_free].
  intros [Hc Hs]%andb_true_iff. apply negb_true_iff in Hc.
  change (String c s +:+ "/" +:+ rest) with (String c (s +:+ "/" +:+ rest)).
  cbn [Auth.split_slash]. rewrite Hc. now rewrite (IH Hs).
Qed.

Lemma join_cons (sep x y : string) (l : list string) :
  join sep (x :: y :: l) = x +:+ sep +:+ join sep (y :: l).
Proof. reflexivity. Qed.

Lemma split_slash_join (segments : list string) :
  segments <> [] ->
  Forall (fun s => Paths.is_segment s = true) segments ->
  Auth.split_slash (join "/" segments) = segments.
Proof.
  induction segments as [|x [|y l] IH]; [congruence| |]; intros _ Hall.
  - apply Forall_inv in Hall. apply andb_true_iff in Hall as [_ Hx].
    now apply split_slash_slash_free.
  - rewrite join_cons.
    pose proof (Forall_inv Hall) as [_ Hx]%andb_true_iff.
    rewrite split_slash_app by assumption. f_equal.
    apply IH; [discriminate|]. now apply Forall_inv_tail in Hall.
Qed.

(** Splitting a path at the slashes gives back its segments. *)
Lemma segments_of_path (segments : list string) :
  Forall (fun s => Paths.is_segment s = true) segments ->
  List.filter Auth.nonempty (Auth.split_slash (Paths.path_of segments)) = segments.
Proof.
  intros Hall. unfold Paths.path_of.
  assert (Hkeep : List.filter Auth.nonempty segments = segments).
  { induction Hall as [|x l Hx _ IH]; [reflexivity|]. cbn [List.filter].
    apply andb_true_iff in Hx as [-> _]. now rewrite IH. }
  destruct segments as [|x l]; [reflexivity|].
  change ("/" +:+ join "/" (x :: l)) with ("" +:+ "/" +:+ join "/" (x :: l)).
  rewrite split_slash_app by reflexivity.
  rewrite split_slash_join by (discriminate || assumption).
  cbn [List.filter Auth.nonempty String.eqb negb]. exact Hkeep.
Qed.

Lemma append_assoc (a b c : string) : (a +:+ b) +:+ c = a +:+ b +:+ c.
Proof.
  induction a as [|x a IH]; [reflexivity|].
  change (String x ((a +:+ b) +:+ c) = String x (a +:+ b +:+ c)). now rewrite IH.
Qed.

Lemma join_snoc (sep x : string) (l : list string) :
  l <> [] -> join sep (l ++ [x]) = join sep l +:+ sep +:+ x.
Proof.
  induction l as [|a [|b l] IH]; [congruence|reflexivity|]. intros _.
  change ((a :: b :: l) ++ [x])%list with (a :: b :: (l ++ [x]))%list.
  rewrite !join_cons.
  change (b :: l ++ [x])%list with ((b :: l) ++ [x])%list.
  rewrite IH by discriminate. now rewrite !append_assoc.
Qed.

Lemma join_segments_nonempty (l : list string) :
  l <> [] -> Forall (fun s => Paths.is_segment s = true) l ->
  Auth.nonempty (join "/" l) = true.
Proof.
  destruct l as [|x l]; [congruence|]. intros _ Hall.
  apply Forall_inv in Hall. apply andb_true_iff in Hall as [Hx _].
  destruct x as [|c x]; [discriminate|]. now destruct l.
Qed.

Lemma login_under_path (org : string) (base : list string) :
  Forall (fun s => Paths.is_segment s = true) base ->
  Auth.login_under org base = org +:+ Paths.path_of (base ++ ["login.html"]).
Proof.
  intros Hall. unfold Auth.login_under, Paths.path_of.
  destruct base as [|x l]; [reflexivity|].
  rewrite join_segments_nonempty by (discriminate || assumption).
  rewrite join_snoc by discriminate. f_equal. now rewrite !append_assoc.
Qed.

Lemma slice_drop_last {A} (l tail : list A) :
  tail <> [] -> slice 0 (- Z.of_nat (length tail)) (l ++ tail) = l.
Proof.
  intros Hne. unfold slice. rewrite length_app.
  assert (0 < length tail)%nat by (destruct tail; [congruence|cbn; lia]).
  destruct (Z.ltb_spec 0 0); [lia|].
  destruct (Z.ltb_spec (- Z.of_nat (length tail)) 0); [|lia].
  replace (Z.to_nat (Z.min 0 (Z.of_nat (length l + length tail)))) with 0%nat by lia.
  replace (Z.to_nat _) with (length l) by lia.
  rewrite drop_0. now rewrite take_app_length.
Qed.

Section LoginAddress.

Variable b : Auth.browser.
Variables (base : list string) (page : string).

(** From a page inside one of the role folders the login page is the one
    beside that folder; from any other page it is the one beside the page. *)
Lemma login_page_address (role : string) :
  Forall (fun s => Paths.is_segment s = true) (base ++ [role; page]) ->
  Auth.pathname b = Paths.path_of (base ++ [role; page]) ->
  Auth.getLoginPageUrl b =
  Auth.origin b +:+
  Paths.path_of ((if bool_decide (role ∈ Auth.ROLE_SEGMENTS) then base else base ++ [role])
                 ++ ["login.html"]).
Proof.
  intros Hall Hpath. unfold Auth.getLoginPageUrl. rewrite Hpath.
  replace (Auth.nonempty (Paths.path_of (base ++ [role; page]))) with true by reflexivity.
  rewrite segments_of_path by assumption.
  rewrite length_app. cbn [length].
  destruct (Z.leb_spec 2 (Z.of_nat (length base + 2))); [|lia].
  replace (Z.to_nat (Z.of_nat (length base + 2) - 2)) with (length base + 0)%nat by lia.
  rewrite lookup_app_r, Nat.add_comm by lia.
  replace (0 + length base - length base)%nat with 0%nat by lia.
  cbn [lookup list_lookup default andb]. unfold id.
  apply Forall_app in Hall as [Hbase Htail].
  destruct (bool_decide (role ∈ Auth.ROLE_SEGMENTS)).
  - pose proof (slice_drop_last base [role; page] ltac:(discriminate)) as Hs.
    change (- Z.of_nat (length [role; page])) with (-2) in Hs.
    rewrite Hs. now apply login_under_path.
  - destruct (Z.leb_spec 1 (Z.of_nat (length base + 2))); [|lia].
    change (base ++ [role; page])%list with (base ++ [role] ++ [page])%list.
    rewrite app_assoc.
    pose proof (slice_drop_last (base ++ [role]) [page] ltac:(discriminate)) as Hs.
    change (- Z.of_nat (length [page])) with (-1) in Hs.
    rewrite Hs. apply login_under_path.
    apply Forall_app. split; [assumption|].
    apply Forall_inv in Htail. now constructor.
Qed.

(** X11.  From a page inside one of the role folders ([patient], [doctor],
    [admin], [clinic]) the login address is [login.html] beside that
    folder; from a page inside any other folder it is [login.html] beside
    the page. *)
Theorem getLoginPageUrl_address (folder : string) :
  Forall (fun s => Paths.is_segment s = true) (base ++ [folder; page]) ->
  Auth.pathname b = Paths.path_of (base ++ [folder; page]) ->
  (folder ∈ Auth.ROLE_SEGMENTS ->
   Auth.getLoginPageUrl b = Auth.origin b +:+ Paths.path_of (base ++ ["login.html"])) /\
  (folder ∉ Auth.ROLE_SEGMENTS ->
   Auth.getLoginPageUrl b
   = Auth.origin b +:+ Paths.path_of (base ++ [folder; "login.html"])).
Proof.
  intros Hall Hpath. rewrite (login_page_address folder Hall Hpath). split; intros Hin.
  - now rewrite bool_decide_eq_true_2.
  - rewrite bool_decide_eq_false_2 by assumption. now rewrite <- app_assoc.
Qed.

End LoginAddress.

(** ** Session store: logout, role names, and the gate on ordinary roles *)

(** X12.  After the logout control is used nobody is logged in, the browser is
    on the login page of the application, and every role gate refuses. *)
Theorem logout_closes_gates (b : Auth.browser) (allowedRole : string) :
  Auth.isLoggedIn (Header.logout b) = false /\
  Auth.href (Header.logout b) = Some (Auth.getLoginPageUrl b) /\
  fst (Auth.requireRole allowedRole (Header.logout b)) = false /\
  fst (Auth.requireLogin VUndef (Header.logout b)) = false.
Proof.
  pose proof (clearAuth_gone b) as Hgone.
  assert (Hin : Auth.isLoggedIn (Header.logout b) = false).
  { unfold Auth.isLoggedIn, Auth.getToken, getItem, Header.logout.
    cbn [Auth.navigate Auth.storage]. now rewrite Hgone. }
  repeat split; try assumption.
  - unfold Auth.requireRole, Auth.requireLogin. now rewrite Hin.
  - unfold Auth.requireLogin. now rewrite Hin.
Qed.

(** X13.  On every integer the role table answers with the name of the role
    identifier (1 Admin, 2 Doctor, 3 Patient, 4 ClinicManager) and with the
    empty name for any other integer. *)
Theorem getRoleNameByRoleId_integers (z : Z) :
  Auth.getRoleNameByRoleId (VNum z) =
  VStr (if z =? 1 then "Admin" else if z =? 2 then "Doctor"
        else if z =? 3 then "Patient" else if z =? 4 then "ClinicManager" else "").
Proof.
  rewrite getRoleNameByRoleId_number. unfold Spec.role_name.
  now destruct (z =? 1), (z =? 2), (z =? 3), (z =? 4).
Qed.

(** X14.  A response with a token and an integer role identifier outside 1..4
    logs the user in without touching the stored role. *)
Theorem setAuthFromResponse_unknown_integer_role (JSON_stringify : value -> string)
    (body : value) (s : gmap string string) (z : Z) :
  truthy (field (Auth.payload body) "access_token") = true ->
  field (Auth.payload body) "role_id" = VNum z ->
  ~ (1 <= z <= 4) ->
  fst (Auth.setAuthFromResponse JSON_stringify body s) = true /\
  is_Some (snd (Auth.setAuthFromResponse JSON_stringify body s) !! Config.TOKEN) /\
  is_Some (snd (Auth.setAuthFromResponse JSON_stringify body s) !! Config.USER) /\
  snd (Auth.setAuthFromResponse JSON_stringify body s) !! Config.ROLE = s !! Config.ROLE.
Proof. exact (setAuthFromResponse_number_outside_table JSON_stringify body s z). Qed.

(** X15.  With a stored role other than the required one, and not the name of a
    member every object inherits, [requireRole] returns false and sends
    the browser to the dashboard of the stored role, or to the index page
    when that role has none, two levels above the current page. *)
Theorem requireRole_wrong_role (allowedRole : string) (b : Auth.browser) :
  Auth.isLoggedIn b = true ->
  Auth.getRole b <> allowedRole ->
  object_prototype (Auth.getRole b) = None ->
  Auth.requireRole allowedRole b =
  (false,
   Auth.navigate b
     (Auth.origin b +:+
      Auth.under
        (Auth.drop_last_nonempty_segment (Auth.drop_last_segment (Auth.pathname b)))
        (VStr (Spec.landing_page (Auth.getRole b))))).
Proof. exact (requireRole_mismatch allowedRole b). Qed.

(** ** Paginated table: the pages together *)



Section TablePagesFacts.

Variable Row : Type.
Variable prop : Row -> string -> value.
Variable dom_escape : string -> string.

Local Abbreviation options := (Table.options Row).
Local Abbreviation render_view := (Table.render_view Row prop dom_escape).
Local Abbreviation paging_of := (@Table.paging_of Row).
Local Abbreviation cells :=
  (fun opts row => List.map (Table.body_cell Row prop dom_escape row) (Table.opt_columns opts)).




(** X17.  Every control of the pager that can be clicked asks for a page that
    exists: a page between 1 and the number of pages. *)
Theorem pager_targets (opts : options) (pgr : Table.pager) (it : Table.pager_item) (p : Z) :
  Table.nav (render_view opts) = Some pgr ->
  it ∈ Table.items pgr ->
  Table.clicked_page it = Some p ->
  1 <= p <= Table.totalPages (paging_of opts).
Proof.
  pose proof (paging_range Row opts) as (_ & Hc).
  unfold Table.render_view. cbn [Table.nav]. fold (paging_of opts).
  destruct (1 <? Table.totalPages (paging_of opts)); [|discriminate].
  intros Hnav.
  assert (Hitems : Table.items pgr
                   = Table.pager_items (Table.currentPage (paging_of opts))
                       (Table.totalPages (paging_of opts)))
    by (injection Hnav as <-; reflexivity).
  rewrite Hitems, (pager_items_layout _ _ Hc). clear Hnav Hitems.
  intros Hin Hclick.
  apply elem_of_cons in Hin as [->|Hin].
  - cbn [Table.clicked_page] in Hclick.
    destruct (Table.currentPage (paging_of opts) =? 1) eqn:E; [discriminate|].
    apply Z.eqb_neq in E.
    assert (Table.currentPage (paging_of opts) - 1 = p) by congruence. lia.
  - apply elem_of_app in Hin as [Hin|Hin].
    + destruct it as [d q|a q| |d q].
      * apply list_elem_of_In, in_flat_map in Hin as (x & _ & Hx).
        unfold Spec.page_entry in Hx. repeat case_match; cbn in Hx; intuition discriminate.
      * apply (page_entries_numbers _ _ Hc) in Hin as (Hq & _).
        cbn [Table.clicked_page] in Hclick.
        assert (q = p) as <- by congruence. exact Hq.
      * discriminate.
      * apply list_elem_of_In, in_flat_map in Hin as (x & _ & Hx).
        unfold Spec.page_entry in Hx. repeat case_match; cbn in Hx; intuition discriminate.
    + apply list_elem_of_singleton in Hin as ->.
      cbn [Table.clicked_page] in Hclick.
      destruct (Table.currentPage (paging_of opts) =? Table.totalPages (paging_of opts))
        eqn:E; [discriminate|].
      apply Z.eqb_neq in E.
      assert (Table.currentPage (paging_of opts) + 1 = p) by congruence. lia.
Qed.

(** X18.  When the pager is shown, its summary line counts the rows on screen:
    the first and last positions lie within the data, in order, and span
    exactly the rows rendered. *)
Theorem pager_summary (opts : options) (pgr : Table.pager) :
  Table.nav (render_view opts) = Some pgr ->
  1 <= Table.first_shown pgr <= Table.last_shown pgr /\
  Table.last_shown pgr <= Table.total_shown pgr /\
  Table.total_shown pgr = Z.of_nat (length (Table.opt_data opts)) /\
  Table.last_shown pgr - Table.first_shown pgr + 1
  = Z.of_nat (length (Table.tbody (render_view opts))).
Proof.
  pose proof (paging_range Row opts) as (Hn & Hc).
  pose proof (rendered_rows Row prop dom_escape opts) as Hrows.
  pose proof (paginate_start_in_data
                (Z.of_nat (length (Table.opt_data opts)))
                (Table.opt_pageSize opts) (Table.opt_currentPage opts) ltac:(lia)) as Hs.
  fold (paging_of opts) in Hs.
  unfold Table.render_view at 1. cbn [Table.nav]. fold (paging_of opts).
  destruct (Z.ltb_spec 1 (Table.totalPages (paging_of opts))) as [Ht|]; [|discriminate].
  intros Hnav.
  assert (Hpgr : Table.first_shown pgr = Table.start (paging_of opts) + 1 /\
                 Table.last_shown pgr
                 = Z.min (Table.start (paging_of opts) + Table.pageSize (paging_of opts))
                         (Z.of_nat (length (Table.opt_data opts))) /\
                 Table.total_shown pgr = Z.of_nat (length (Table.opt_data opts)))
    by (injection Hnav as <-; repeat split).
  destruct Hpgr as (-> & -> & ->). clear Hnav.
  rewrite Hrows.
  assert (Hlt : Table.start (paging_of opts) < Z.of_nat (length (Table.opt_data opts))).
  { unfold Table.paging_of in *. rewrite paginate_start.
    rewrite paginate_totalPages in Ht, Hc.
    pose proof (ceil_div_bounds (Z.of_nat (length (Table.opt_data opts)))
                  (Table.pageSize
                     (Table.paginate (Z.of_nat (length (Table.opt_data opts)))
                        (Table.opt_pageSize opts) (Table.opt_currentPage opts)))
                  ltac:(lia)) as [Hlo _].
    nia. }
  lia.
Qed.

(** X19.  A click on a page number reports that page to the caller and renders
    exactly the rows of that page into the container. *)
Theorem click_renders_page (containerId : string) (opts : options) (active : bool)
    (p : Z) (document : gmap string Table.view) :
  is_Some (document !! containerId) ->
  1 <= p <= Table.totalPages (paging_of opts) ->
  exists v,
    Table.click Row prop dom_escape containerId opts (Table.PageLink active p) document
    = (Some p, <[containerId := v]> document) /\
    Z.of_nat (length (Table.tbody v))
    = Z.min (Table.pageSize (paging_of opts))
            (Z.of_nat (length (Table.opt_data opts))
             - (p - 1) * Table.pageSize (paging_of opts)).
Proof. exact (click_page_link Row prop dom_escape containerId opts active p document). Qed.

End TablePagesFacts.

(** ** API base address *)

Lemma API_BASE_URL_cases (o : string) :
  BaseUrl.API_BASE_URL o = BaseUrl.LOCAL_BACKEND \/
  (BaseUrl.API_BASE_URL o = o /\ o <> "" /\ o <> "null" /\
   contains "localhost" o = false /\ contains "127.0.0.1" o = false).
Proof.
  unfold BaseUrl.API_BASE_URL, Auth.nonempty.
  destruct (String.eqb_spec o ""); [now left|].
  destruct (String.eqb_spec o "null"); [now left|].
  destruct (contains "localhost" o); [now left|].
  destruct (contains "127.0.0.1" o); [now left|].
  right. repeat split; assumption.
Qed.

(** X20.  The base address is never empty and never the origin ["null"] of a
    local file; an origin on [localhost] or [127.0.0.1] is replaced by the
    local backend, any other origin is kept; resolving twice changes
    nothing. *)
Theorem API_BASE_URL_resolved (o : string) :
  BaseUrl.API_BASE_URL o <> "" /\
  BaseUrl.API_BASE_URL o <> "null" /\
  (contains "localhost" o = true \/ contains "127.0.0.1" o = true ->
   BaseUrl.API_BASE_URL o = BaseUrl.LOCAL_BACKEND) /\
  (BaseUrl.API_BASE_URL o = o \/ BaseUrl.API_BASE_URL o = BaseUrl.LOCAL_BACKEND) /\
  BaseUrl.API_BASE_URL (BaseUrl.API_BASE_URL o) = BaseUrl.API_BASE_URL o.
Proof.
  destruct (API_BASE_URL_cases o) as [Hl|(Ho & Hne & Hnull & Hc1 & Hc2)].
  - rewrite Hl. repeat split; try discriminate; auto.
  - rewrite !Ho. repeat split; try assumption; auto.
    intros [H|H]; congruence.
Qed.

(** ** Email addresses *)

(** *** Occurrences of a text in a concatenation *)

Lemma prefix_of_app (w x y : string) :
  prefix_of w x = true -> prefix_of w (x +:+ y) = true.
Proof.
  revert x. induction w as [|a w IH]; intros x; [reflexivity|].
  destruct x as [|c x]; [discriminate|].
  change (String c x +:+ y) with (String c (x +:+ y)). cbn [prefix_of].
  intros [-> Hw]%andb_true_iff. now rewrite (IH x Hw).
Qed.

Lemma contains_app_r (w x y : string) :
  contains w x = true -> contains w (x +:+ y) = true.
Proof.
  induction x as [|c x IH].
  - cbn [contains]. rewrite orb_false_r. intros Hp.
    destruct w; [|discriminate]. now destruct y.
  - change (String c x +:+ y) with (String c (x +:+ y)). cbn [contains].
    intros [Hp|Hc]%orb_true_iff.
    + pose proof (prefix_of_app w (String c x) y Hp) as H.
      change (String c x +:+ y) with (String c (x +:+ y)) in H. now rewrite H.
    + rewrite (IH Hc). apply orb_true_r.
Qed.

Lemma contains_app_l (w x y : string) :
  contains w y = true -> contains w (x +:+ y) = true.
Proof.
  intros Hy. induction x as [|c x IH]; [exact Hy|].
  change (String c x +:+ y) with (String c (x +:+ y)). cbn [contains].
  rewrite IH. apply orb_true_r.
Qed.

(** A text that begins in [x] and ends beyond it contains the character
    that follows [x]. *)
Lemma prefix_of_across (w x y : string) (d : ascii) :
  prefix_of w (x +:+ String d y) = true ->
  prefix_of w x = true \/ contains (String d "") w = true.
Proof.
  revert w. induction x as [|c x IH]; intros w.
  - destruct w as [|a w]; [now left|]. cbn [String.append prefix_of].
    intros [Ha _]%andb_true_iff. right. cbn [contains prefix_of].
    apply Ascii.eqb_eq in Ha as ->. now rewrite Ascii.eqb_refl.
  - destruct w as [|a w]; [now left|].
    change (String c x +:+ String d y) with (String c (x +:+ String d y)).
    cbn [prefix_of]. intros [Ha Hw]%andb_true_iff.
    destruct (IH w Hw) as [Hp|Hd].
    + left. now rewrite Ha, Hp.
    + right. cbn [contains]. rewrite Hd. apply orb_true_r.
Qed.

Lemma contains_across (w x y : string) (d : ascii) :
  contains w (x +:+ String d y) = true ->
  contains w x = true \/ contains w y = true \/ contains (String d "") w = true.
Proof.
  induction x as [|c x IH].
  - cbn [String.append contains]. intros [Hp|Hc]%orb_true_iff; [|tauto].
    destruct (prefix_of_across w "" y d Hp) as [He|Hd]; [|tauto].
    left. cbn [contains]. now rewrite He.
  - change (String c x +:+ String d y) with (String c (x +:+ String d y)).
    cbn [contains]. intros [Hp|Hc]%orb_true_iff.
    + destruct (prefix_of_across w (String c x) y d Hp) as [He|Hd]; [|tauto].
      left. now rewrite He.
    + destruct (IH Hc) as [Hx|[Hy|Hd]]; [|tauto|tauto].
      left. rewrite Hx. apply orb_true_r.
Qed.

(** *** Runs of plain characters *)

Lemma all_plain_forall (s : string) :
  Register.all_plain s = true <->
  forall w, In w Register.EXCLUDED -> contains w s = false.
Proof.
  unfold Register.all_plain. rewrite forallb_forall.
  split; intros H w Hw; specialize (H w Hw).
  - now apply negb_true_iff.
  - now apply negb_true_iff.
Qed.

(** The parts of a plain text are plain. *)
Lemma all_plain_app_inv (a b : string) :
  Register.all_plain (a +:+ b) = true ->
  Register.all_plain a = true /\ Register.all_plain b = true.
Proof.
  rewrite !all_plain_forall. intros H. split; intros w Hw; specialize (H w Hw).
  - destruct (contains w a) eqn:Ha; [|reflexivity].
    now rewrite (contains_app_r w a b Ha) in H.
  - destruct (contains w b) eqn:Hb; [|reflexivity].
    now rewrite (contains_app_l w a b Hb) in H.
Qed.

(** Two plain texts joined by a character that is part of no excluded
    character make a plain text. *)
Lemma all_plain_joined (a b : string) (d : ascii) :
  forallb (fun w => negb (contains (String d "") w)) Register.EXCLUDED = true ->
  Register.all_plain a = true -> Register.all_plain b = true ->
  Register.all_plain (a +:+ String d b) = true.
Proof.
  rewrite forallb_forall, !all_plain_forall. intros Hd Ha Hb w Hw.
  specialize (Hd w Hw). apply negb_true_iff in Hd.
  destruct (contains w (a +:+ String d b)) eqn:Hc; [|reflexivity].
  destruct (contains_across w a b d Hc) as [H|[H|H]].
  - now rewrite (Ha w Hw) in H.
  - now rewrite (Hb w Hw) in H.
  - now rewrite Hd in H.
Qed.

Lemma all_plain_no_at (s : string) :
  Register.all_plain s = true -> contains "@" s = false.
Proof. intros H. apply (proj1 (all_plain_forall s) H). now left. Qed.

Lemma split_at_sign_spec (s local domain : string) :
  Register.split_at_sign s = Some (local, domain) ->
  s = local +:+ "@" +:+ domain.
Proof.
  revert local. induction s as [|c s IH]; intros local; [discriminate|].
  cbn [Register.split_at_sign].
  destruct (Ascii.eqb_spec c "@") as [->|Hc].
  - now intros [= <- <-].
  - destruct (Register.split_at_sign s) as [[a d]|]; [|discriminate].
    intros [= <- <-]. now rewrite (IH a eq_refl).
Qed.

Lemma split_at_sign_plain (local domain : string) :
  contains "@" local = false ->
  Register.split_at_sign (local +:+ "@" +:+ domain) = Some (local, domain).
Proof.
  induction local as [|c a IH]; [reflexivity|].
  cbn [contains prefix_of]. rewrite andb_true_r.
  intros [Hc Ha]%orb_false_iff.
  change (String c a +:+ "@" +:+ domain) with (String c (a +:+ "@" +:+ domain)).
  cbn [Register.split_at_sign].
  rewrite Ascii.eqb_sym in Hc. now rewrite Hc, (IH Ha).
Qed.

Lemma inner_dot_intro (b c : string) (c1 : ascii) :
  c <> "" -> Register.inner_dot (String c1 b +:+ "." +:+ c) = true.
Proof.
  intros Hc. revert c1. induction b as [|c2 b IH]; intros c1.
  - destruct c as [|c3 c]; [congruence|]. reflexivity.
  - specialize (IH c2).
    change (String c1 (String c2 b) +:+ "." +:+ c)
      with (String c1 (String c2 b +:+ "." +:+ c)).
    destruct b as [|c3 b].
    + change (String c2 "" +:+ "." +:+ c) with (String c2 (String "." c)) in *.
      change (Register.inner_dot (String c1 (String c2 (String "." c))))
        with (Ascii.eqb c2 "." || Register.inner_dot (String c2 (String "." c))).
      rewrite IH. apply orb_true_r.
    + change (String c2 (String c3 b) +:+ "." +:+ c)
        with (String c2 (String c3 (b +:+ "." +:+ c))) in *.
      change (Register.inner_dot (String c1 (String c2 (String c3 (b +:+ "." +:+ c)))))
        with (Ascii.eqb c2 "."
              || Register.inner_dot (String c2 (String c3 (b +:+ "." +:+ c)))).
      rewrite IH. apply orb_true_r.
Qed.

Lemma inner_dot_spec (s : string) :
  Register.inner_dot s = true <->
  exists b c, s = b +:+ "." +:+ c /\ b <> "" /\ c <> "".
Proof.
  split.
  - induction s as [|c1 s IH]; [discriminate|].
    destruct s as [|c2 [|c3 s]]; try discriminate.
    cbn [Register.inner_dot]. intros [Hd|Hrest]%orb_true_iff.
    + apply Ascii.eqb_eq in Hd as ->.
      exists (String c1 ""), (String c3 s). repeat split; discriminate.
    + destruct (IH Hrest) as (b & c & Heq & Hb & Hc).
      exists (String c1 b), c. rewrite Heq. repeat split; [discriminate|assumption].
  - intros (b & c & -> & Hb & Hc). destruct b as [|c1 b]; [congruence|].
    now apply inner_dot_intro.
Qed.

(** X21.  The email test accepts exactly the addresses of the form [a@b.c] in
    which [a], [b] and [c] are non-empty and contain neither an at sign nor
    a white-space character (of [JS.WHITE_SPACE], the class [\s]). *)
Theorem email_re_test_accepts (s : string) :
  Register.email_re_test s = true <->
  exists a b c,
    s = a +:+ "@" +:+ b +:+ "." +:+ c /\
    a <> "" /\ b <> "" /\ c <> "" /\
    Register.all_plain a = true /\ Register.all_plain b = true /\
    Register.all_plain c = true.
Proof.
  unfold Register.email_re_test. split.
  - destruct (Register.split_at_sign s) as [[local domain]|] eqn:Hs; [|discriminate].
    apply split_at_sign_spec in Hs as ->.
    rewrite !andb_true_iff. intros [[[Hne Hl] Hd] Hdot].
    apply inner_dot_spec in Hdot as (b & c & -> & Hb & Hc).
    apply all_plain_app_inv in Hd as [Hpb Hd].
    apply (all_plain_app_inv "." c) in Hd as [_ Hpc].
    exists local, b, c. repeat split; try assumption.
    unfold Auth.nonempty in Hne. intros ->. discriminate.
  - intros (a & b & c & -> & Ha & Hb & Hc & Hpa & Hpb & Hpc).
    rewrite (split_at_sign_plain a (b +:+ "." +:+ c) (all_plain_no_at a Hpa)).
    rewrite !andb_true_iff. repeat split.
    + unfold Auth.nonempty. now destruct a.
    + assumption.
    + now apply (all_plain_joined b c ".").
    + apply inner_dot_spec. eauto.
Qed.

(** ** Register page: validation and the request *)

(** The checks of the register form, as one test. *)
Lemma register_validate_result (f : Register.form) (p : Register.page) :
  fst (Register.validate f p)
  = Register.email_re_test (trim (Register.regEmail f))
    && negb (Z.of_nat (str_length (Register.regPassword f)) <? 6)
    && String.eqb (Register.regPassword f) (Register.regConfirmPassword f)
    && Auth.nonempty (Register.regRole f) /\
  Register.is_invalid (Register.emailUI (snd (Register.validate f p)))
  = negb (Register.email_re_test (trim (Register.regEmail f))) /\
  Register.is_invalid (Register.passwordUI (snd (Register.validate f p)))
  = (Z.of_nat (str_length (Register.regPassword f)) <? 6) /\
  Register.is_invalid (Register.confirmUI (snd (Register.validate f p)))
  = negb (String.eqb (Register.regPassword f) (Register.regConfirmPassword f)) /\
  Register.is_invalid (Register.roleUI (snd (Register.validate f p)))
  = negb (Auth.nonempty (Register.regRole f)).
Proof.
  unfold Register.validate, Register.validate_email, Register.validate_password,
    Register.validate_confirm, Register.validate_role.
  destruct (Auth.nonempty (trim (Register.regEmail f))) eqn:He; cbn [negb].
  - destruct (Register.email_re_test (trim (Register.regEmail f)));
      destruct (Z.of_nat (str_length (Register.regPassword f)) <? 6);
      destruct (String.eqb (Register.regPassword f) (Register.regConfirmPassword f));
      destruct (Auth.nonempty (Register.regRole f)); repeat split.
  - assert (trim (Register.regEmail f) = "") as ->
      by (unfold Auth.nonempty in He; now destruct (String.eqb_spec (trim (Register.regEmail f)) "")).
    destruct (Z.of_nat (str_length (Register.regPassword f)) <? 6);
      destruct (String.eqb (Register.regPassword f) (Register.regConfirmPassword f));
      destruct (Auth.nonempty (Register.regRole f)); repeat split.
Qed.

(** X22.  The register form is accepted exactly when the trimmed email passes
    the email test, the password has a [length] of at least six and equals
    its confirmation, and a role is chosen; each field is marked invalid
    exactly when its own check fails. *)
Theorem register_validate_accepts (f : Register.form) (p : Register.page) :
  (fst (Register.validate f p) = true <->
   Register.email_re_test (trim (Register.regEmail f)) = true /\
   (6 <= str_length (Register.regPassword f))%nat /\
   Register.regPassword f = Register.regConfirmPassword f /\
   Register.regRole f <> "") /\
  (Register.is_invalid (Register.emailUI (snd (Register.validate f p))) = true <->
   Register.email_re_test (trim (Register.regEmail f)) = false) /\
  (Register.is_invalid (Register.passwordUI (snd (Register.validate f p))) = true <->
   (str_length (Register.regPassword f) < 6)%nat) /\
  (Register.is_invalid (Register.confirmUI (snd (Register.validate f p))) = true <->
   Register.regPassword f <> Register.regConfirmPassword f) /\
  (Register.is_invalid (Register.roleUI (snd (Register.validate f p))) = true <->
   Register.regRole f = "").
Proof.
  destruct (register_validate_result f p) as (Hv & He & Hp & Hc & Hr).
  rewrite Hv, He, Hp, Hc, Hr. unfold Auth.nonempty.
  split; [|split; [|split; [|split]]].
  - rewrite !andb_true_iff, !negb_true_iff, Z.ltb_ge, String.eqb_eq, String.eqb_neq.
    split; [intros [[[? ?] ?] ?] | intros (? & ? & ? & ?)]; repeat split;
      (assumption || lia).
  - apply negb_true_iff.
  - rewrite Z.ltb_lt. lia.
  - rewrite negb_true_iff. apply String.eqb_neq.
  - rewrite negb_true_iff, negb_false_iff. apply String.eqb_eq.
Qed.

Section RegisterRequest.

Variable JSON_stringify : value -> string.
Variable type_error_text : string.
Variable register_api : value -> settlement.

Local Abbreviation submit :=
  (Register.submit JSON_stringify type_error_text register_api).

Lemma register_validate_independent (f : Register.form) (p q : Register.page) :
  fst (Register.validate f p) = fst (Register.validate f q).
Proof.
  now rewrite (proj1 (register_validate_result f p)),
    (proj1 (register_validate_result f q)).
Qed.

(** X23.  Submitting the register form issues exactly one request, carrying the
    trimmed email, the password and the number read from the role, when
    the form is accepted, and none otherwise.  The role is one whose
    reading a script number holds exactly. *)
Theorem register_submit_calls (f : Register.form) (p : Register.page) :
  safe_reading (parseInt_string (Register.regRole f)) = true ->
  Register.calls (submit f p)
  = (Register.calls p
     ++ if fst (Register.validate f p) then [Register.register_payload f] else [])%list.
Proof.
  intros _.
  rewrite (register_validate_independent f p (Register.hideError p)).
  destruct (fst (Register.validate f (Register.hideError p))) eqn:Hv.
  - now apply submit_valid_calls.
  - rewrite (submit_invalid _ _ _ f p Hv), app_nil_r.
    now destruct (validate_fields f (Register.hideError p)) as (_ & _ & -> & _).
Qed.

(** X24.  When the request of an accepted register form is rejected, the error
    banner shows the message of the rejection, the button is released,
    and neither the storage nor the address is touched.  The role is one
    whose reading a script number holds exactly. *)
Theorem register_submit_rejected (f : Register.form) (p : Register.page) (m : string) :
  safe_reading (parseInt_string (Register.regRole f)) = true ->
  fst (Register.validate f p) = true ->
  register_api (Register.register_payload f) = Rejected (Error m) ->
  m <> "" ->
  Register.connection_trouble m = false ->
  Register.error_text (submit f p) = m /\
  Register.error_hidden (submit f p) = false /\
  Register.loading (submit f p) = false /\
  Register.window (submit f p) = Register.window p /\
  Register.toasts (submit f p) = Register.toasts p.
Proof.
  intros _ Hv Hrej Hm Hct.
  rewrite (register_validate_independent f p (Register.hideError p)) in Hv.
  pose proof (validate_fields f (Register.hideError p)) as (_ & _ & _ & Hw & _).
  assert (Ht : Register.toasts (snd (Register.validate f (Register.hideError p)))
               = Register.toasts p).
  { unfold Register.validate.
    destruct (Register.validate_email _ _), (Register.validate_password _ _),
      (Register.validate_confirm _ _ _), (Register.validate_role _ _). reflexivity. }
  unfold Register.submit.
  destruct (Register.validate f (Register.hideError p)) as [valid p'].
  cbn [fst snd] in *. subst valid. cbn [negb].
  rewrite Hrej. cbn [Register.exn_message].
  replace (Auth.nonempty m) with true
    by (unfold Auth.nonempty; now destruct (String.eqb_spec m "")).
  rewrite Hct. cbn.
  unfold or_else. cbn [truthy].
  replace (negb (String.eqb m "")) with true by (now destruct (String.eqb_spec m "")).
  repeat split; assumption.
Qed.

End RegisterRequest.

(** ** Login page *)

Lemma login_validate_result (f : Login.form) (p : Login.page) :
  fst (Login.validate f p)
  = Register.email_re_test (trim (Login.email f)) && Auth.nonempty (Login.password f) /\
  Login.calls (snd (Login.validate f p)) = Login.calls p /\
  Login.window (snd (Login.validate f p)) = Login.window p /\
  Login.toasts (snd (Login.validate f p)) = Login.toasts p /\
  Login.error_hidden (snd (Login.validate f p)) = Login.error_hidden p.
Proof.
  unfold Login.validate, Login.validate_email, Login.validate_password.
  destruct (Auth.nonempty (trim (Login.email f))) eqn:He; cbn [negb].
  - destruct (Register.email_re_test (trim (Login.email f)));
      destruct (Auth.nonempty (Login.password f)); repeat split.
  - assert (trim (Login.email f) = "") as ->
      by (unfold Auth.nonempty in He; now destruct (String.eqb_spec (trim (Login.email f)) "")).
    destruct (Auth.nonempty (Login.password f)); repeat split.
Qed.

Section LoginFacts.

Variable JSON_stringify : value -> string.
Variable type_error_text : string.
Variable login_api : value -> settlement.

Local Abbreviation submit := (Login.submit JSON_stringify type_error_text login_api).

(** X25.  Submitting the login form issues exactly one request, with the
    trimmed email and the password, when the email passes the email test
    and the password is not empty, and none otherwise. *)
Theorem login_submit_calls (f : Login.form) (p : Login.page) :
  Login.calls (submit f p)
  = (Login.calls p
     ++ if Register.email_re_test (trim (Login.email f)) && Auth.nonempty (Login.password f)
        then [Login.credentials f] else [])%list.
Proof.
  destruct (login_validate_result f (Login.hideError p)) as (Hv & Hc & _).
  unfold Login.submit.
  destruct (Login.validate f (Login.hideError p)) as [valid p'].
  cbn [fst snd] in *. rewrite <- Hv.
  destruct valid; cbn [negb].
  - destruct (login_api _) as [res|err].
    + destruct (Auth.setAuthFromResponse _ _ _) as [[] s]; cbn; now rewrite Hc.
    + cbn. now rewrite Hc.
  - now rewrite Hc, app_nil_r.
Qed.

(** X26.  A login answered with a token string and one of the four role
    identifiers stores the token and the role name, greets the user, and
    sends the browser to the dashboard of that role. *)
Theorem login_submit_accepted (f : Login.form) (p : Login.page) (res : value)
    (t : string) (z : Z) (name : string) :
  Register.email_re_test (trim (Login.email f)) = true ->
  Login.password f <> "" ->
  login_api (Login.credentials f) = Resolved res ->
  field (Auth.payload res) "access_token" = VStr t -> t <> "" ->
  field (Auth.payload res) "role_id" = VNum z ->
  Spec.role_name z = Some name ->
  Auth.storage (Login.window (submit f p)) !! Config.TOKEN = Some t /\
  Auth.storage (Login.window (submit f p)) !! Config.ROLE = Some name /\
  (exists dashboard,
      Spec.dashboard_path name = Some dashboard /\
      Auth.href (Login.window (submit f p))
      = Some ((if Auth.nonempty (Auth.origin (Login.window p))
               then Auth.origin (Login.window p) else "")
              +:+ Auth.under (Auth.drop_last_segment (Auth.pathname (Login.window p)))
                    (VStr dashboard))) /\
  Login.toasts (submit f p) = (Login.toasts p ++ [(Login.MSG_LOGIN_OK, "success")])%list /\
  Login.loading (submit f p) = false /\
  Login.error_hidden (submit f p) = true.
Proof.
  intros He Hpw Hres Ht Hne Hz Hname.
  destruct (login_validate_result f (Login.hideError p)) as (Hv & Hc & Hw & Hto & Hh).
  rewrite He in Hv.
  replace (Auth.nonempty (Login.password f)) with true in Hv
    by (unfold Auth.nonempty; now destruct (String.eqb_spec (Login.password f) "")).
  pose proof (stored_session JSON_stringify res (Auth.storage (Login.window p)) t z name
                Ht Hne Hz Hname) as (Hok & Htok & Hrole & _).
  pose proof (opened_session JSON_stringify res (Login.window p) t z name
                Ht Hne Hz Hname) as (_ & _ & _ & Hgr & _).
  destruct (role_names_plain z name Hname) as (_ & Hproto & d & Hd).
  unfold Login.submit.
  destruct (Login.validate f (Login.hideError p)) as [valid p'].
  cbn [fst snd] in *. subst valid. cbn [negb]. rewrite Hres.
  cbn [Login.setLoading Login.record_call Login.window]. rewrite Hw.
  cbn [Login.hideError Login.window].
  destruct (Auth.setAuthFromResponse JSON_stringify res (Auth.storage (Login.window p)))
    as [stored s]. cbn [fst snd] in *. subst stored.
  cbn [Login.set_window Login.showToast Login.window Login.toasts Login.loading
         Login.error_hidden Login.setLoading].
  rewrite redirectByRole_landing by (rewrite Hgr; assumption).
  rewrite Hgr. unfold Spec.landing_page. rewrite Hd.
  cbn [Auth.navigate Auth.with_storage Auth.storage Auth.href Auth.origin Auth.pathname default].
  cbn [negb andb].
  cbn [Login.setLoading Login.set_window Login.showToast Login.record_call
         Login.window Login.toasts Login.loading Login.error_hidden
         Auth.navigate Auth.with_storage Auth.storage Auth.href].
  unfold id. rewrite Hto, Hh.
  cbn [Login.hideError Login.toasts Login.error_hidden].
  repeat split; try assumption. exists d. split; reflexivity.
Qed.

(** X27.  When the login request is rejected, the error banner shows the
    message of the rejection, the button is released, and neither the
    storage nor the address is touched: nobody is logged in by a failed
    login. *)
Theorem login_submit_rejected (f : Login.form) (p : Login.page) (m : string) :
  Register.email_re_test (trim (Login.email f)) = true ->
  Login.password f <> "" ->
  login_api (Login.credentials f) = Rejected (Error m) ->
  m <> "" ->
  Register.connection_trouble m = false ->
  Login.error_text (submit f p) = m /\
  Login.error_hidden (submit f p) = false /\
  Login.loading (submit f p) = false /\
  Login.window (submit f p) = Login.window p /\
  Login.toasts (submit f p) = Login.toasts p.
Proof.
  intros He Hpw Hrej Hm Hct.
  destruct (login_validate_result f (Login.hideError p)) as (Hv & Hc & Hw & Hto & Hh).
  rewrite He in Hv.
  replace (Auth.nonempty (Login.password f)) with true in Hv
    by (unfold Auth.nonempty; now destruct (String.eqb_spec (Login.password f) "")).
  unfold Login.submit.
  destruct (Login.validate f (Login.hideError p)) as [valid p'].
  cbn [fst snd] in *. subst valid. cbn [negb].
  rewrite Hrej. cbn [Register.exn_message].
  replace (Auth.nonempty m) with true
    by (unfold Auth.nonempty; now destruct (String.eqb_spec m "")).
  rewrite Hct. cbn.
  unfold or_else. cbn [truthy].
  replace (negb (String.eqb m "")) with true by (now destruct (String.eqb_spec m "")).
  repeat split; assumption.
Qed.

End LoginFacts.

(** ** Loading overlay *)

Lemma has_id_set_display (els : list Spinner.element) (d id : string) (h h' : nat) :
  Spinner.has_id (alter (Spinner.with_display d) h els) id h' = Spinner.has_id els id h'.
Proof.
  unfold Spinner.has_id. destruct (decide (h = h')) as [->|Hne].
  - rewrite list_lookup_alter_eq. now destruct (els !! h').
  - now rewrite list_lookup_alter_ne.
Qed.

Lemma find_head_filter {A} (f : A -> bool) (l : list A) :
  List.find f l = head (List.filter f l).
Proof.
  induction l as [|x l IH]; [reflexivity|]. cbn [List.find List.filter].
  now destruct (f x).
Qed.

Lemma getElementById_overlays (p : Spinner.page) :
  Spinner.getElementById p Spinner.OVERLAY_ID = head (Spinner.overlays p).
Proof. apply find_head_filter. Qed.

Lemma overlays_set_display (h : nat) (d : string) (p : Spinner.page) :
  Spinner.overlays (Spinner.set_display h d p) = Spinner.overlays p.
Proof.
  unfold Spinner.overlays, Spinner.set_display. cbn [Spinner.elements Spinner.body].
  apply List.filter_ext. intros a. apply has_id_set_display.
Qed.

Lemma has_id_app (els extra : list Spinner.element) (id : string) (h : nat) :
  (h < length els)%nat ->
  Spinner.has_id (els ++ extra) id h = Spinner.has_id els id h.
Proof. intros Hh. unfold Spinner.has_id. now rewrite lookup_app_l. Qed.

Section SpinnerFacts.

Variable p0 : Spinner.page.
Hypothesis p0_fresh : Spinner.fresh_page p0.

Local Abbreviation overlay_invariant := (Spinner.invariant p0).

Lemma invariant_initial : overlay_invariant false p0.
Proof.
  destruct p0_fresh as (Hb & Ho & Hv). unfold Spinner.invariant.
  rewrite Ho, Hv, app_nil_r. repeat split; auto.
Qed.

Lemma invariant_show (shown : bool) (q : Spinner.page) :
  overlay_invariant shown q ->
  overlay_invariant true (Spinner.show q) /\ Spinner.covering (Spinner.show q) = true.
Proof.
  intros (Hb & Hbody & Hov & Hsh). unfold Spinner.show.
  rewrite getElementById_overlays, Hov.
  destruct (Spinner.overlay q) as [h|] eqn:Ho; cbn [head].
  - assert (Hin : (h < length (Spinner.elements q))%nat).
    { rewrite Forall_forall in Hb. apply Hb. rewrite Hbody, Hov.
      apply elem_of_app. right. apply list_elem_of_here. }
    split.
    + unfold Spinner.invariant. rewrite overlays_set_display.
      cbn [Spinner.set_display Spinner.elements Spinner.body Spinner.overlay].
      rewrite length_alter, Ho. repeat split; try assumption; discriminate.
    + unfold Spinner.covering.
      rewrite getElementById_overlays, overlays_set_display, Hov. cbn [head].
      cbn [Spinner.set_display Spinner.elements]. rewrite list_lookup_alter_eq.
      destruct (lookup_lt_is_Some_2 _ _ Hin) as [e ->]. reflexivity.
  - set (n := length (Spinner.elements q)).
    set (e := {| Spinner.el_id := Spinner.OVERLAY_ID;
                 Spinner.el_class := Spinner.OVERLAY_CLASS;
                 Spinner.el_display := "" |}).
    assert (Hold : List.filter (Spinner.has_id (Spinner.elements q ++ [e]) Spinner.OVERLAY_ID)
                     (Spinner.body q) = []).
    { rewrite <- Hov. unfold Spinner.overlays.
      clear Hbody Hov. induction Hb as [|h l Hh _ IH]; [reflexivity|].
      cbn [List.filter]. rewrite has_id_app by assumption. now rewrite IH. }
    assert (Hnew : Spinner.has_id (Spinner.elements q ++ [e]) Spinner.OVERLAY_ID n = true).
    { unfold Spinner.has_id. subst n. rewrite list_lookup_middle by reflexivity.
      reflexivity. }
    assert (Hovs : Spinner.overlays
                     {| Spinner.elements := Spinner.elements q ++ [e];
                        Spinner.body := Spinner.body q ++ [n];
                        Spinner.overlay := Some n |} = [n]).
    { unfold Spinner.overlays. cbn [Spinner.elements Spinner.body].
      rewrite List.filter_app, Hold. cbn [List.filter app]. now rewrite Hnew. }
    split.
    + unfold Spinner.invariant. rewrite Hovs.
      cbn [Spinner.elements Spinner.body Spinner.overlay].
      rewrite Hbody, Hov, app_nil_r in *. repeat split; try discriminate.
      rewrite length_app. cbn [length]. apply Forall_app. split.
      * eapply Forall_impl; [exact Hb|]. cbn. intros. lia.
      * constructor; [subst n; lia|constructor].
    + unfold Spinner.covering. rewrite getElementById_overlays, Hovs. cbn [head].
      cbn [Spinner.elements]. subst n. rewrite list_lookup_middle by reflexivity.
      reflexivity.
Qed.

Lemma invariant_hide (shown : bool) (q : Spinner.page) :
  overlay_invariant shown q ->
  overlay_invariant shown (Spinner.hide q) /\ Spinner.covering (Spinner.hide q) = false.
Proof.
  intros (Hb & Hbody & Hov & Hsh). unfold Spinner.hide.
  rewrite getElementById_overlays, Hov.
  destruct (Spinner.overlay q) as [h|] eqn:Ho; cbn [head].
  - assert (Hin : (h < length (Spinner.elements q))%nat).
    { rewrite Forall_forall in Hb. apply Hb. rewrite Hbody, Hov.
      apply elem_of_app. right. apply list_elem_of_here. }
    split.
    + unfold Spinner.invariant. rewrite overlays_set_display.
      cbn [Spinner.set_display Spinner.elements Spinner.body Spinner.overlay].
      rewrite length_alter, Ho. repeat split; try assumption; apply Hsh.
    + unfold Spinner.covering.
      rewrite getElementById_overlays, overlays_set_display, Hov. cbn [head].
      cbn [Spinner.set_display Spinner.elements]. rewrite list_lookup_alter_eq.
      destruct (lookup_lt_is_Some_2 _ _ Hin) as [e ->]. reflexivity.
  - split.
    + unfold Spinner.invariant. rewrite Ho. repeat split; try assumption; apply Hsh.
    + unfold Spinner.covering. now rewrite getElementById_overlays, Hov.
Qed.

Lemma invariant_run (actions : list Spinner.action) :
  overlay_invariant (Spinner.shown actions) (Spinner.run p0 actions).
Proof.
  induction actions as [|a actions IH] using rev_ind.
  - apply invariant_initial.
  - unfold Spinner.run, Spinner.shown in *.
    rewrite fold_left_app, existsb_app. cbn [fold_left Spinner.step existsb].
    destruct a.
    + rewrite orb_true_r. exact (proj1 (invariant_show _ _ IH)).
    + rewrite !orb_false_r. exact (proj1 (invariant_hide _ _ IH)).
Qed.

Lemma shown_false_iff (actions : list Spinner.action) :
  Spinner.shown actions = false <-> Spinner.Show ∉ actions.
Proof.
  unfold Spinner.shown. rewrite <- not_true_iff_false, existsb_exists.
  split.
  - intros Hn Hin. apply Hn. exists Spinner.Show.
    split; [now apply list_elem_of_In|reflexivity].
  - intros Hn (a & Hin & Ha). destruct a; [|discriminate].
    now apply Hn, list_elem_of_In.
Qed.

(** X28.  Whatever the sequence of [show] and [hide] calls, the document holds
    at most one overlay, created by the first [show]; the elements that
    were there before stay where they were, and nothing else is added. *)
Theorem spinner_single_overlay (actions : list Spinner.action) :
  (length (Spinner.overlays (Spinner.run p0 actions)) <= 1)%nat /\
  (Spinner.overlays (Spinner.run p0 actions) = [] <-> Spinner.Show ∉ actions) /\
  Spinner.body (Spinner.run p0 actions)
  = (Spinner.body p0 ++ Spinner.overlays (Spinner.run p0 actions))%list.
Proof.
  destruct (invariant_run actions) as (_ & Hbody & Hov & Hsh).
  rewrite Hov in *. split; [|split; [|exact Hbody]].
  - destruct (Spinner.overlay _); cbn; lia.
  - rewrite <- shown_false_iff, <- Hsh.
    destruct (Spinner.overlay _); split; congruence.
Qed.

(** X29.  After [show] the overlay covers the page, after [hide] it does not,
    whatever was called before. *)
Theorem spinner_show_hide (actions : list Spinner.action) :
  Spinner.covering (Spinner.run p0 (actions ++ [Spinner.Show])) = true /\
  Spinner.covering (Spinner.run p0 (actions ++ [Spinner.Hide])) = false.
Proof.
  unfold Spinner.run. rewrite !fold_left_app. cbn [fold_left Spinner.step].
  split.
  - exact (proj2 (invariant_show _ _ (invariant_run actions))).
  - exact (proj2 (invariant_hide _ _ (invariant_run actions))).
Qed.

End SpinnerFacts.

(** ** The further properties on concrete inputs *)

(** A 500 answer whose body is [null]. *)
Lemma request_null_error_body_witness :
  Api.request Sample.API_BASE Sample.stringify
    (Sample.always (Sample.answer 500 (Some VNull)))
    ∅ "GET" "/api/patients/1" VNull true
  = Rejected TypeError.
Proof.
  apply (request_null_error_body Sample.API_BASE Sample.stringify
           (Sample.always (Sample.answer 500 (Some VNull)))
           ∅ "GET" "/api/patients/1" VNull true
           {| Api.status := 500; Api.json := Some VNull |});
    [reflexivity | simpl; lia | reflexivity].
Defined.

(** A 400 answer with an [error] field only. *)
Lemma request_error_field_witness :
  Api.request Sample.API_BASE Sample.stringify
    (Sample.always (Sample.answer 400 (Some (VObj [("error", VStr "Bad request")]))))
    ∅ "GET" "/api/patients/1" VNull true
  = Rejected (Error "Bad request").
Proof.
  apply (request_error_field Sample.API_BASE Sample.stringify
           (Sample.always (Sample.answer 400 (Some (VObj [("error", VStr "Bad request")]))))
           ∅ "GET" "/api/patients/1" VNull true
           {| Api.status := 400; Api.json := Some (VObj [("error", VStr "Bad request")]) |}
           (VObj [("error", VStr "Bad request")]));
    [reflexivity | simpl; lia | reflexivity | reflexivity | reflexivity].
Defined.

(** A doctor's login answer opens a doctor's session. *)
Lemma setAuthFromResponse_opens_session_witness :
  Auth.getRole
    (Auth.with_storage (Sample.browser_at "/login.html" ∅)
       (snd (Auth.setAuthFromResponse Sample.stringify Sample.doctor_session ∅)))
  = "Doctor".
Proof.
  apply (setAuthFromResponse_opens_session Sample.stringify Sample.doctor_session
           (Sample.browser_at "/login.html" ∅) "t" 2 "Doctor");
    [reflexivity | discriminate | reflexivity | reflexivity].
Defined.

Lemma stored_role_redirect_witness :
  exists dashboard,
    Spec.dashboard_path "Doctor" = Some dashboard /\
    Auth.href
      (Auth.redirectByRole
         (Auth.with_storage (Sample.browser_at "/login.html" ∅)
            (snd (Auth.setAuthFromResponse Sample.stringify Sample.doctor_session ∅))))
    = Some ("https://aura.example" +:+ Auth.under "" (VStr dashboard)).
Proof.
  apply (stored_role_redirect Sample.stringify Sample.doctor_session
           (Sample.browser_at "/login.html" ∅) "t" 2 "Doctor");
    [reflexivity | discriminate | reflexivity | reflexivity].
Defined.

(** From a page of the patient folder of an application served under [/app]. *)
Lemma getLoginPageUrl_address_witness :
  Auth.getLoginPageUrl (Sample.browser_at "/app/patient/dashboard.html" ∅)
  = "https://aura.example" +:+ Paths.path_of ["app"; "login.html"].
Proof.
  apply (getLoginPageUrl_address (Sample.browser_at "/app/patient/dashboard.html" ∅)
           ["app"] "dashboard.html" "patient");
    [repeat constructor | reflexivity | vm_compute; repeat constructor].
Defined.

Lemma setAuthFromResponse_unknown_integer_role_witness :
  snd (Auth.setAuthFromResponse Sample.stringify
         (VObj [("access_token", VStr "t"); ("role_id", VNum 9)])
         {[Config.ROLE := "Doctor"]}) !! Config.ROLE
  = ({[Config.ROLE := "Doctor"]} : gmap string string) !! Config.ROLE.
Proof.
  apply (setAuthFromResponse_unknown_integer_role Sample.stringify
           (VObj [("access_token", VStr "t"); ("role_id", VNum 9)])
           {[Config.ROLE := "Doctor"]} 9);
    [reflexivity | reflexivity | lia].
Defined.

(** A clinic manager on a doctor page. *)
Lemma requireRole_wrong_role_witness :
  Auth.href
    (snd (Auth.requireRole "Doctor"
            (Sample.browser_at "/doctor/dashboard.html"
               (<[Config.ROLE := "ClinicManager"]> {[Config.TOKEN := "t"]}))))
  = Some "https://aura.example/clinic/dashboard.html".
Proof.
  rewrite (requireRole_wrong_role "Doctor"
             (Sample.browser_at "/doctor/dashboard.html"
                (<[Config.ROLE := "ClinicManager"]> {[Config.TOKEN := "t"]})));
    [reflexivity | reflexivity | vm_compute; discriminate | reflexivity].
Defined.

(** The next control of a table of 25 rows on its first page. *)
Lemma pager_targets_witness :
  1 <= 2 <= Table.totalPages (Table.paging_of (Sample.table 25 (VNum 10) (VNum 1))).
Proof.
  apply (pager_targets value field Sample.escape (Sample.table 25 (VNum 10) (VNum 1))
           {| Table.first_shown := 1; Table.last_shown := 10; Table.total_shown := 25;
              Table.items := Table.pager_items 1 3 |}
           (Table.Next false 2) 2);
    [reflexivity | vm_compute; repeat constructor | reflexivity].
Defined.

Lemma pager_summary_witness :
  Table.last_shown
    {| Table.first_shown := 21; Table.last_shown := 25; Table.total_shown := 25;
       Table.items := Table.pager_items 3 3 |}
  - Table.first_shown
      {| Table.first_shown := 21; Table.last_shown := 25; Table.total_shown := 25;
         Table.items := Table.pager_items 3 3 |} + 1
  = Z.of_nat (length (Table.tbody (Sample.render_view (Sample.table 25 (VNum 10) (VNum 3))))).
Proof.
  apply (pager_summary value field Sample.escape (Sample.table 25 (VNum 10) (VNum 3))
           {| Table.first_shown := 21; Table.last_shown := 25; Table.total_shown := 25;
              Table.items := Table.pager_items 3 3 |}).
  reflexivity.
Defined.

Lemma click_renders_page_witness :
  exists v,
    Table.click value field Sample.escape "imagesTableContainer"
      (Sample.table 25 (VNum 10) (VNum 1)) (Table.PageLink false 3)
      {[ "imagesTableContainer" := Sample.render_view (Sample.table 25 (VNum 10) (VNum 1)) ]}
    = (Some 3,
       <["imagesTableContainer" := v]>
         {[ "imagesTableContainer" := Sample.render_view (Sample.table 25 (VNum 10) (VNum 1)) ]}) /\
    Z.of_nat (length (Table.tbody v))
    = Z.min (Table.pageSize (Table.paging_of (Sample.table 25 (VNum 10) (VNum 1))))
            (Z.of_nat (length (Table.opt_data (Sample.table 25 (VNum 10) (VNum 1))))
             - (3 - 1) * Table.pageSize (Table.paging_of (Sample.table 25 (VNum 10) (VNum 1)))).
Proof.
  apply (click_renders_page value field Sample.escape "imagesTableContainer"
           (Sample.table 25 (VNum 10) (VNum 1)) false 3).
  - rewrite lookup_singleton_eq. eauto.
  - vm_compute. split; discriminate.
Defined.

(** An accepted register form, refused by the server. *)
Lemma register_submit_rejected_witness :
  Register.error_text
    (Register.submit Sample.stringify Sample.type_error_text (fun _ => Rejected (Error Api.MSG_EMAIL_TAKEN))
       Sample.register_form Sample.blank_page)
  = Api.MSG_EMAIL_TAKEN.
Proof.
  apply (register_submit_rejected Sample.stringify Sample.type_error_text
           (fun _ => Rejected (Error Api.MSG_EMAIL_TAKEN))
           Sample.register_form Sample.blank_page Api.MSG_EMAIL_TAKEN);
    [reflexivity | reflexivity | reflexivity | discriminate | reflexivity].
Defined.

(** The same form is sent once, with the number 3 for its role. *)
Lemma register_submit_calls_witness :
  Register.calls
    (Register.submit Sample.stringify Sample.type_error_text
       (fun _ => Rejected (Error Api.MSG_EMAIL_TAKEN))
       Sample.register_form Sample.blank_page)
  = [VObj [("email", VStr "an@example.org"); ("password", VStr "abcdef");
           ("role_id", VNum 3)]].
Proof.
  apply (register_submit_calls Sample.stringify Sample.type_error_text
           (fun _ => Rejected (Error Api.MSG_EMAIL_TAKEN))
           Sample.register_form Sample.blank_page).
  reflexivity.
Defined.

(** A doctor logs in. *)
Lemma login_submit_accepted_witness :
  Auth.storage
    (Login.window (Login.submit Sample.stringify Sample.type_error_text (fun _ => Resolved Sample.doctor_session)
                     Sample.login_form Sample.login_page)) !! Config.ROLE
  = Some "Doctor".
Proof.
  apply (login_submit_accepted Sample.stringify Sample.type_error_text (fun _ => Resolved Sample.doctor_session)
           Sample.login_form Sample.login_page Sample.doctor_session "t" 2 "Doctor");
    [reflexivity | discriminate | reflexivity | reflexivity | discriminate
    | reflexivity | reflexivity].
Defined.

(** A login with a wrong password. *)
Lemma login_submit_rejected_witness :
  Login.error_text
    (Login.submit Sample.stringify Sample.type_error_text (fun _ => Rejected (Error Api.MSG_BAD_CREDENTIALS))
       Sample.login_form Sample.login_page)
  = Api.MSG_BAD_CREDENTIALS.
Proof.
  apply (login_submit_rejected Sample.stringify Sample.type_error_text
           (fun _ => Rejected (Error Api.MSG_BAD_CREDENTIALS))
           Sample.login_form Sample.login_page Api.MSG_BAD_CREDENTIALS);
    [reflexivity | discriminate | reflexivity | discriminate | reflexivity].
Defined.

Lemma plain_page_fresh : Spinner.fresh_page Sample.plain_page.
Proof. repeat split. repeat constructor. Defined.

(** Show, hide, show again: still one overlay, after the page's own element. *)
Lemma spinner_single_overlay_witness :
  Spinner.body (Spinner.run Sample.plain_page [Spinner.Show; Spinner.Hide; Spinner.Show])
  = ([0%nat] ++ Spinner.overlays
                  (Spinner.run Sample.plain_page [Spinner.Show; Spinner.Hide; Spinner.Show]))%list.
Proof.
  apply (spinner_single_overlay Sample.plain_page plain_page_fresh
           [Spinner.Show; Spinner.Hide; Spinner.Show]).
Defined.

Lemma spinner_show_hide_witness :
  Spinner.covering (Spinner.run Sample.plain_page ([Spinner.Show] ++ [Spinner.Hide])) = false.
Proof.
  apply (spinner_show_hide Sample.plain_page plain_page_fresh [Spinner.Show]).
Defined.

Example spinner_run_example :
  Spinner.overlays (Spinner.run Sample.plain_page [Spinner.Show; Spinner.Hide; Spinner.Show])
  = [1%nat] /\
  Spinner.covering (Spinner.run Sample.plain_page [Spinner.Show; Spinner.Hide; Spinner.Show])
  = true /\
  Spinner.covering (Spinner.run Sample.plain_page [Spinner.Hide]) = false.
Proof. repeat split. Qed.
